(** * Sky Safe transaction decoder: hash calculator, MultiSend decoder,
      decoded-data verifier and security analyzer.

    A shallow embedding of [packages/core/src] (hash/, security/, utils/)
    together with the properties the specification states about it.

    Conventions of the embedding.
    - Call data that reaches the decoder and the detectors from outside
      (the argument of [decodeMultiSend], [isMultiSend],
      [checkOwnerModifications] and [checkModuleGuardOperations]) is the
      text it is in JavaScript ([string]): the code slices and compares it
      as text, where the case of a hex digit matters.
    - A [Hex] value that viem produces or that only viem reads is modelled
      by the bytes it denotes ([list byte]); viem writes lower-case hex
      with an even number of digits ([bytesToHex]), so a slice of [2 * n]
      hex digits of such a text at an even offset is a slice of [n] bytes.
    - Addresses that the code handles as text ([toLowerCase], [===]) and
      version strings are [string]s.
    - [bigint | string] quantities of a Safe transaction are the unsigned
      integers they denote ([N]); they are [uint256] fields of the Safe
      contract.
    - A JavaScript exception is a value of the error monad [Exc]. *)

From Stdlib Require Import String Ascii List NArith ZArith QArith Bool Arith Lia.
From Stdlib.Strings Require Import Byte.
From Equations Require Import Equations.
Import ListNotations.

Local Open Scope string_scope.
Local Open Scope list_scope.
Local Open Scope N_scope.

(* ===================================================================== *)
(** * Bytes                                                               *)
(* ===================================================================== *)

Definition Hex := list byte.

(** The byte with a given value; values are taken modulo 256. *)
Definition byte_of_N (n : N) : byte :=
  match Byte.of_N (n mod 256) with
  | Some b => b
  | None => x00
  end.

(** Big-endian reading of a byte string, as [BigInt('0x' + hex)] and
    [parseInt(hex, 16)] do on a non-empty run of hex digits. *)
Definition be_to_N (bs : list byte) : N :=
  fold_left (fun acc b => acc * 256 + Byte.to_N b) bs 0.

(** Big-endian writing on [len] bytes ([pad(toHex(n), { size: len })]). *)
Fixpoint N_to_be (len : nat) (n : N) : list byte :=
  match len with
  | O => []
  | S len' => N_to_be len' (n / 256) ++ [byte_of_N n]
  end.

(** Little-endian reading and writing, used by Keccak's lanes. *)
Definition le_to_N (bs : list byte) : N :=
  fold_right (fun b acc => Byte.to_N b + 256 * acc) 0 bs.

Fixpoint N_to_le (len : nat) (n : N) : list byte :=
  match len with
  | O => []
  | S len' => byte_of_N n :: N_to_le len' (n / 256)
  end.

(** Hex digits: the value of one digit, either case. *)
Definition hexDigit (c : ascii) : option N :=
  let n := N_of_ascii c in
  if (48 <=? n) && (n <=? 57) then Some (n - 48)
  else if (97 <=? n) && (n <=? 102) then Some (n - 87)
  else if (65 <=? n) && (n <=? 70) then Some (n - 55)
  else None.

Fixpoint hexPairs (s : string) : option (list byte) :=
  match s with
  | EmptyString => Some []
  | String a (String b rest) =>
      match hexDigit a, hexDigit b, hexPairs rest with
      | Some h, Some l, Some bs => Some (byte_of_N (16 * h + l) :: bs)
      | _, _, _ => None
      end
  | String _ EmptyString => None
  end.

(** [hexToBytes]: the bytes of a ['0x...'] literal. *)
Definition hexToBytes (s : string) : option (list byte) :=
  match s with
  | String "0" (String "x" rest) => hexPairs rest
  | _ => None
  end.

(** The bytes of a hex literal of the source; [[]] stands for a malformed
    literal (there is none in this file). *)
Definition hex (s : string) : Hex :=
  match hexToBytes s with Some bs => bs | None => [] end.

Definition hexChar (n : N) : ascii :=
  ascii_of_N (if n <? 10 then 48 + n else 87 + n).

(** [bytesToHex] without the ['0x'] prefix: lower-case digits. *)
Fixpoint hexDigits (bs : list byte) : string :=
  match bs with
  | [] => EmptyString
  | b :: rest =>
      String (hexChar (Byte.to_N b / 16))
        (String (hexChar (Byte.to_N b mod 16)) (hexDigits rest))
  end.

Definition bytesToHex (bs : list byte) : string :=
  String "0" (String "x" (hexDigits bs)).

(* ===================================================================== *)
(** * Keccak-256 (viem's [keccak256])                                     *)
(* ===================================================================== *)

Module Keccak.

Definition mask64 : N := 18446744073709551615.

Definition rotl64 (x : N) (n : N) : N :=
  N.land (N.lor (N.shiftl x n) (N.shiftr x (64 - n))) mask64.

Definition lane (st : list N) (i : nat) : N := nth i st 0.

Definition RC : list N :=
  [ 1; 32898; 9223372036854808714; 9223372039002292224; 32907; 2147483649;
    9223372039002292353; 9223372036854808585; 138; 136; 2147516425;
    2147483658; 2147516555; 9223372036854775947; 9223372036854808713;
    9223372036854808579; 9223372036854808578; 9223372036854775936; 32778;
    9223372039002259466; 9223372039002292353; 9223372036854808704;
    2147483649; 9223372039002292232 ].

(** For every destination lane, the source lane and rotation of the
    combined rho and pi steps. *)
Definition rhoPi : list (nat * N) :=
  [ (0%nat, 0); (6%nat, 44); (12%nat, 43); (18%nat, 21); (24%nat, 14);
    (3%nat, 28); (9%nat, 20); (10%nat, 3); (16%nat, 45); (22%nat, 61);
    (1%nat, 1); (7%nat, 6); (13%nat, 25); (19%nat, 8); (20%nat, 18);
    (4%nat, 27); (5%nat, 36); (11%nat, 10); (17%nat, 15); (23%nat, 56);
    (2%nat, 62); (8%nat, 55); (14%nat, 39); (15%nat, 41); (21%nat, 2) ].

Definition indices : list nat := seq 0 25.

Definition theta (st : list N) : list N :=
  let C := map (fun x => N.lxor (lane st x) (N.lxor (lane st (x + 5))
                 (N.lxor (lane st (x + 10)) (N.lxor (lane st (x + 15))
                 (lane st (x + 20)))))) (seq 0 5)%nat in
  let D := map (fun x => N.lxor (lane C ((x + 4) mod 5))
                                (rotl64 (lane C ((x + 1) mod 5)) 1))
               (seq 0 5) in
  map (fun i => N.lxor (lane st i) (lane D (i mod 5))) indices.

Definition rhoPiStep (st : list N) : list N :=
  map (fun '(src, r) => rotl64 (lane st src) r) rhoPi.

Definition chi (st : list N) : list N :=
  map (fun i =>
         let x := (i mod 5)%nat in
         let y := (5 * (i / 5))%nat in
         N.lxor (lane st i)
           (N.land (N.lxor (lane st ((x + 1) mod 5 + y)) mask64)
                   (lane st ((x + 2) mod 5 + y))))
      indices.

Definition iota (rc : N) (st : list N) : list N :=
  match st with
  | [] => []
  | a :: rest => N.lxor a rc :: rest
  end.

Definition round (st : list N) (rc : N) : list N :=
  iota rc (chi (rhoPiStep (theta st))).

Definition keccak_f (st : list N) : list N := fold_left round RC st.

Definition rate : nat := 136.

(** The [pad10*1] padding with Keccak's domain bit. *)
Definition pad (msg : list byte) : list byte :=
  let q := (rate - (length msg mod rate))%nat in
  match q with
  | 1%nat => msg ++ [x81]
  | _ => msg ++ [x01] ++ repeat x00 (q - 2) ++ [x80]
  end.

Fixpoint lanesOf (n : nat) (bs : list byte) : list N :=
  match n with
  | O => []
  | S n' => le_to_N (firstn 8 bs) :: lanesOf n' (skipn 8 bs)
  end.

Definition xorInto (st : list N) (blk : list N) : list N :=
  map (fun i => N.lxor (lane st i) (lane blk i)) indices.

Fixpoint absorb (nblocks : nat) (st : list N) (bs : list byte) : list N :=
  match nblocks with
  | O => st
  | S n' =>
      absorb n' (keccak_f (xorInto st (lanesOf 17 (firstn rate bs))))
             (skipn rate bs)
  end.

Definition keccak256 (msg : list byte) : list byte :=
  let p := pad msg in
  let st := absorb (length p / rate) (repeat 0 25) p in
  flat_map (N_to_le 8) (firstn 4 st).

End Keccak.

Definition keccak256 : Hex -> Hex := Keccak.keccak256.

Definition toBytes (s : string) : Hex := list_byte_of_string s.

(** [toFunctionSelector(signature)]: the first four bytes of the hash of
    the signature's text. *)
Definition toFunctionSelector (signature : string) : Hex :=
  firstn 4 (keccak256 (toBytes signature)).

Example keccak256_empty :
  keccak256 [] = hex "0xc5d2460186f7233c927e7db2dcc703c0e500b653ca82273b7bfad8045d85a470".
Proof. vm_compute. reflexivity. Qed.

(* ===================================================================== *)
(** * JavaScript values used by the code                                  *)
(* ===================================================================== *)

(** Exceptions: a computation returns a value or throws an error carrying
    its message. *)
Inductive Exc (A : Type) : Type :=
| Return (a : A)
| Throw (message : string).
Arguments Return {A} a.
Arguments Throw {A} message.

Definition bind {A B} (m : Exc A) (k : A -> Exc B) : Exc B :=
  match m with
  | Return a => k a
  | Throw e => Throw e
  end.

(** [try { body } catch (error) { handler(error.message) }] *)
Definition tryCatch {A} (body : Exc A) (handler : string -> A) : A :=
  match body with
  | Return a => a
  | Throw e => handler e
  end.

Notation "x <- m ;; k" := (bind m (fun x => k))
  (at level 61, m at next level, right associativity).

Fixpoint mapM {A B} (f : A -> Exc B) (l : list A) : Exc (list B) :=
  match l with
  | [] => Return []
  | a :: rest => b <- f a ;; bs <- mapM f rest ;; Return (b :: bs)
  end.

(** [String.prototype.split] with a one-character separator: the pieces
    between the separators; an empty text has the one piece [""]. *)
Fixpoint split (sep : ascii) (s : string) : list string :=
  match s with
  | EmptyString => [EmptyString]
  | String c rest =>
      if Ascii.eqb c sep then EmptyString :: split sep rest
      else match split sep rest with
           | piece :: pieces => String c piece :: pieces
           | [] => [String c EmptyString]
           end
  end.

(** [Array.prototype.join] *)
Fixpoint join (sep : string) (l : list string) : string :=
  match l with
  | [] => EmptyString
  | [s] => s
  | s :: rest => (s ++ sep ++ join sep rest)%string
  end.

Definition lowerChar (c : ascii) : ascii :=
  let n := N_of_ascii c in
  if (65 <=? n) && (n <=? 90) then ascii_of_N (n + 32) else c.

(** [String.prototype.toLowerCase] on ASCII text. *)
Fixpoint toLowerCase (s : string) : string :=
  match s with
  | EmptyString => EmptyString
  | String c rest => String (lowerChar c) (toLowerCase rest)
  end.

Fixpoint startsWith (s prefix : string) : bool :=
  match prefix, s with
  | EmptyString, _ => true
  | String p ps, String c cs => Ascii.eqb c p && startsWith cs ps
  | String _ _, EmptyString => false
  end.

Definition endsWith (s suffix : string) : bool :=
  let n := String.length s in
  let k := String.length suffix in
  (k <=? n)%nat && String.eqb (substring (n - k) k s) suffix.

(** A JavaScript number as the version comparison sees it: NaN, a finite
    value or an infinity.  Finite values are kept exact; the rounding of
    doubles, which sets in beyond 2^53, is not modelled. *)
Inductive JsNumber : Type :=
| NaN
| Finite (q : Q)
| PosInfinity
| NegInfinity.

Definition isDigit (c : ascii) : bool :=
  let n := N_of_ascii c in (48 <=? n) && (n <=? 57).

Fixpoint allDigits (s : string) : bool :=
  match s with
  | EmptyString => true
  | String c rest => isDigit c && allDigits rest
  end.

Fixpoint digitsValue (acc : N) (s : string) : N :=
  match s with
  | EmptyString => acc
  | String c rest => digitsValue (10 * acc + (N_of_ascii c - 48)) rest
  end.

Definition isWhiteSpace (c : ascii) : bool :=
  let n := N_of_ascii c in ((9 <=? n) && (n <=? 13)) || (n =? 32).

Fixpoint trimStart (s : string) : string :=
  match s with
  | EmptyString => EmptyString
  | String c rest => if isWhiteSpace c then trimStart rest else s
  end.

Fixpoint trimEnd (s : string) : string :=
  match s with
  | EmptyString => EmptyString
  | String c rest =>
      match trimEnd rest with
      | EmptyString => if isWhiteSpace c then EmptyString
                       else String c EmptyString
      | kept => String c kept
      end
  end.

(** The value of a run of digits in a radix of 2, 8 or 16; [None] when a
    character is not a digit of the radix. *)
Fixpoint radixValue (radix acc : N) (s : string) : option N :=
  match s with
  | EmptyString => Some acc
  | String c rest =>
      match hexDigit c with
      | Some d => if d <? radix then radixValue radix (radix * acc + d) rest
                  else None
      | None => None
      end
  end.

(** [0x], [0o] and [0b] literals: [None] when the text has no such
    prefix. *)
Definition radixLiteral (t : string) : option JsNumber :=
  match t with
  | String "0" (String p rest) =>
      let radix :=
        if Ascii.eqb p "x" || Ascii.eqb p "X" then Some 16
        else if Ascii.eqb p "o" || Ascii.eqb p "O" then Some 8
        else if Ascii.eqb p "b" || Ascii.eqb p "B" then Some 2
        else None in
      match radix with
      | Some r =>
          match rest with
          | EmptyString => Some NaN
          | String _ _ =>
              match radixValue r 0 rest with
              | Some v => Some (Finite (inject_Z (Z.of_N v)))
              | None => Some NaN
              end
          end
      | None => None
      end
  | _ => None
  end.

Fixpoint spanDigits (s : string) : string * string :=
  match s with
  | EmptyString => (EmptyString, EmptyString)
  | String c rest =>
      if isDigit c then
        let (digits, others) := spanDigits rest in (String c digits, others)
      else (EmptyString, s)
  end.

(** The exponent after [e] or [E]: an optional sign and digits. *)
Definition exponentValue (s : string) : option Z :=
  let signedDigits (negative : bool) (digits : string) :=
    if allDigits digits && negb (String.eqb digits "") then
      let v := Z.of_N (digitsValue 0 digits) in
      Some (if negative then (- v)%Z else v)
    else None in
  match s with
  | String "+" digits => signedDigits false digits
  | String "-" digits => signedDigits true digits
  | _ => signedDigits false s
  end.

(** Unsigned decimal literals without a fraction, and [Infinity]. *)
Definition unsignedDecimal (t : string) : JsNumber :=
  if String.eqb t "Infinity" then PosInfinity
  else
    let (digits, others) := spanDigits t in
    if String.eqb digits "" then NaN
    else
      let v := inject_Z (Z.of_N (digitsValue 0 digits)) in
      match others with
      | EmptyString => Finite v
      | String e exponent =>
          if Ascii.eqb e "e" || Ascii.eqb e "E" then
            match exponentValue exponent with
            | Some k => Finite (v * Qpower (inject_Z 10) k)%Q
            | None => NaN
            end
          else NaN
      end.

Definition negate (x : JsNumber) : JsNumber :=
  match x with
  | NaN => NaN
  | Finite q => Finite (- q)%Q
  | PosInfinity => NegInfinity
  | NegInfinity => PosInfinity
  end.

(** [Number(text)] on ASCII text without a dot, which is what
    [compareVersions] applies it to (the pieces between the dots): white
    space around the literal is dropped; the empty text is 0; the literal
    is a radix literal, or an optional sign followed by [Infinity] or by
    decimal digits with an optional exponent; every other text is NaN. *)
Definition Number (s : string) : JsNumber :=
  let t := trimEnd (trimStart s) in
  if String.eqb t "" then Finite 0
  else
    match radixLiteral t with
    | Some literal => literal
    | None =>
        match t with
        | String "+" unsigned => unsignedDecimal unsigned
        | String "-" unsigned => negate (unsignedDecimal unsigned)
        | _ => unsignedDecimal t
        end
    end.

(** [x || 0] for [x] a number or [undefined]: NaN, 0 and [undefined] are
    falsy. *)
Definition orZero (x : option JsNumber) : JsNumber :=
  match x with
  | Some NaN => Finite 0
  | Some (Finite q) => if Qeq_bool q 0 then Finite 0 else Finite q
  | Some PosInfinity => PosInfinity
  | Some NegInfinity => NegInfinity
  | None => Finite 0
  end.

(** [x < y] and [x > y] on numbers; a comparison with NaN is false. *)
Definition jsLt (x y : JsNumber) : bool :=
  match x, y with
  | Finite p, Finite q => negb (Qle_bool q p)
  | Finite _, PosInfinity => true
  | NegInfinity, Finite _ => true
  | NegInfinity, PosInfinity => true
  | _, _ => false
  end.

Definition jsGt (x y : JsNumber) : bool := jsLt y x.

(* ===================================================================== *)
(** * hash/version.ts                                                     *)
(* ===================================================================== *)

Definition MIN_SAFE_VERSION : string := "0.1.0".

Definition getVersion (version : string) : string :=
  match split "+" version with
  | EmptyString :: _ => EmptyString
  | piece :: _ => piece
  | [] => EmptyString
  end.

(** The [for] loop of [compareVersions], started at index [i] with
    [todo] iterations left. *)
Fixpoint compareFrom (todo i : nat) (parts1 parts2 : list JsNumber) : Z :=
  match todo with
  | O => 0%Z
  | S todo' =>
      let part1 := orZero (nth_error parts1 i) in
      let part2 := orZero (nth_error parts2 i) in
      if jsGt part1 part2 then 1%Z
      else if jsLt part1 part2 then (-1)%Z
      else compareFrom todo' (S i) parts1 parts2
  end.

Definition compareVersions (v1 v2 : string) : Z :=
  let parts1 := map Number (split "." v1) in
  let parts2 := map Number (split "." v2) in
  compareFrom (Nat.max (length parts1) (length parts2)) 0 parts1 parts2.

Definition isVersionGte (v1 v2 : string) : bool :=
  (compareVersions v1 v2 >=? 0)%Z.

Definition isVersionLte (v1 v2 : string) : bool :=
  (compareVersions v1 v2 <=? 0)%Z.

Definition isVersionLt (v1 v2 : string) : bool :=
  (compareVersions v1 v2 <? 0)%Z.

Definition dquote : string := String (ascii_of_nat 34) EmptyString.

Definition validateVersion (version : string) : Exc unit :=
  if String.eqb version EmptyString then
    Throw "No Safe multisig contract found for the specified network. Please ensure that you have selected the correct network."
  else
    let cleanVersion := getVersion version in
    if negb (isVersionGte cleanVersion MIN_SAFE_VERSION) then
      Throw ("Safe multisig version " ++ dquote ++ cleanVersion ++ dquote
             ++ " is not supported!")%string
    else Return tt.

(* ===================================================================== *)
(** * types.ts                                                            *)
(* ===================================================================== *)

Definition Address := string.

Record SafeTransactionData : Type := {
  to : Address;
  value : N;
  data : Hex;
  operation : N;
  safeTxGas : N;
  baseGas : N;
  gasPrice : N;
  gasToken : Address;
  refundReceiver : Address;
  nonce : N
}.

(* ===================================================================== *)
(** * hash/constants.ts, hash/domain.ts, hash/message.ts,                 *)
(** * hash/calculator.ts                                                  *)
(* ===================================================================== *)

Definition DOMAIN_SEPARATOR_TYPEHASH : Hex :=
  hex "0x47e79534a245952e8b16893a336b85a3d9ea9fa8c573f3d803afb92a79469218".
Definition DOMAIN_SEPARATOR_TYPEHASH_OLD : Hex :=
  hex "0x035aff83d86937d35b32e04f0ddc6ff469290eef2f1b692d8a815c89404d4749".
Definition SAFE_TX_TYPEHASH : Hex :=
  hex "0xbb8310d486368db6bd6f849402fdd73ad53d316b5a4b2644ad6efe0f941286d8".
Definition SAFE_TX_TYPEHASH_OLD : Hex :=
  hex "0x14d461bc7412367e924637b363c7bf29b8f47e2f84869f4426e5633d8af47b20".

(** The parameter types and argument values the hash calculator passes to
    viem's [encodeAbiParameters]. *)
Inductive AbiType : Type := bytes32 | address | uint256 | uint8.

Inductive AbiArg : Type :=
| ArgHex (h : Hex)
| ArgAddress (a : Address)
| ArgBigInt (n : N)
| ArgNumber (n : N).

Record SafeTxHashResult : Type := {
  domainHash : Hex;
  messageHash : Hex;
  safeTxHash : Hex
}.

Section HashCalculator.

(** viem's ABI encoder, the external collaborator of the hash
    calculator. *)
Variable encodeAbiParameters : list AbiType -> list AbiArg -> Hex.

Definition calculateDomainHash (chainId : N) (safeAddress : Address)
           (version : string) : Hex :=
  let cleanVersion := getVersion version in
  if isVersionLte cleanVersion "1.2.0" then
    let encoded :=
      encodeAbiParameters [bytes32; address]
        [ArgHex DOMAIN_SEPARATOR_TYPEHASH_OLD; ArgAddress safeAddress] in
    keccak256 encoded
  else
    let encoded :=
      encodeAbiParameters [bytes32; uint256; address]
        [ArgHex DOMAIN_SEPARATOR_TYPEHASH; ArgBigInt chainId;
         ArgAddress safeAddress] in
    keccak256 encoded.

Definition calculateMessageHash (txData : SafeTransactionData)
           (version : string) : Hex :=
  let cleanVersion := getVersion version in
  let dataHash := keccak256 (data txData) in
  let safeTxTypeHash :=
    if isVersionLt cleanVersion "1.0.0" then SAFE_TX_TYPEHASH_OLD
    else SAFE_TX_TYPEHASH in
  let encoded :=
    encodeAbiParameters
      [bytes32; address; uint256; bytes32; uint8; uint256; uint256;
       uint256; address; address; uint256]
      [ArgHex safeTxTypeHash; ArgAddress (to txData);
       ArgBigInt (value txData); ArgHex dataHash;
       ArgNumber (operation txData); ArgBigInt (safeTxGas txData);
       ArgBigInt (baseGas txData); ArgBigInt (gasPrice txData);
       ArgAddress (gasToken txData); ArgAddress (refundReceiver txData);
       ArgBigInt (nonce txData)] in
  keccak256 encoded.

Definition calculateSafeTxHash (chainId : N) (safeAddress : Address)
           (txData : SafeTransactionData) (version : string)
  : Exc SafeTxHashResult :=
  _ <- validateVersion version ;;
  let domainHash := calculateDomainHash chainId safeAddress version in
  let messageHash := calculateMessageHash txData version in
  let safeTxHash :=
    keccak256 (concat [hex "0x1901"; domainHash; messageHash]) in
  Return {| domainHash := domainHash;
            messageHash := messageHash;
            safeTxHash := safeTxHash |}.

End HashCalculator.

(** The ABI encoding of the static types above, one 32-byte word per
    argument. *)
Definition abiWord (a : AbiArg) : Hex :=
  match a with
  | ArgHex h => firstn 32 (h ++ repeat x00 32)
  | ArgAddress s => repeat x00 12 ++ firstn 20 (hex s ++ repeat x00 20)
  | ArgBigInt n => N_to_be 32 n
  | ArgNumber n => N_to_be 32 n
  end.

Definition encodeStatic (_ : list AbiType) (args : list AbiArg) : Hex :=
  flat_map abiWord args.

Example domainHash_scenario_1 :
  calculateDomainHash encodeStatic 1
    "0xf65475e74C1Ed6d004d5240b06E3088724dFDA5d" "1.3.0"
  = hex "0xaf88393f1c14cf4d8f0b773c4f37cf80a29d606bed88e0fd8f61350debb3ac65".
Proof. vm_compute. reflexivity. Qed.

(* ===================================================================== *)
(** * viem's [encodeFunctionData] and [decodeFunctionData] for the ABI    *)
(** * [multiSend(bytes transactions)]                                     *)
(* ===================================================================== *)

(** Slices counted in [N], so that a length read from the wire is never
    turned into a unary number. *)
Fixpoint takeN {A} (l : list A) (n : N) : list A :=
  match l with
  | [] => []
  | x :: rest => if n =? 0 then [] else x :: takeN rest (N.pred n)
  end.

Fixpoint dropN {A} (l : list A) (n : N) : list A :=
  match l with
  | [] => []
  | x :: rest => if n =? 0 then l else dropN rest (N.pred n)
  end.

Definition size (h : Hex) : N := N.of_nat (length h).

Module Viem.

Record DecodedFunctionData : Type := {
  functionName : string;
  args : option (list Hex)
}.

(** [isHex(value, { strict: false })] *)
Definition isHex (value : string) : bool := startsWith value "0x".

(** [size(value)]: the number of bytes of a hex text, the length of any
    other value. *)
Definition sizeOf (value : string) : N :=
  if isHex value then N.of_nat ((String.length value - 2 + 1) / 2)
  else N.of_nat (String.length value).

(** [slice(value, start, end)], not strict.  On a hex text it answers
    ['0x'] followed by the digits of the bytes from [start] to [end] (the
    text has its ['0x'] in front, which [replace('0x', '')] takes off);
    on another text it is [String.prototype.slice]. *)
Definition slice (value : string) (start : nat) (end_ : option nat)
  : Exc string :=
  if (0 <? start)%nat && (sizeOf value <=? N.of_nat start)
  then Throw "SliceOffsetOutOfBoundsError"
  else if isHex value then
    let digits := substring 2 (String.length value - 2) value in
    let last := match end_ with
                | Some e => e
                | None => String.length value
                end in
    Return ("0x" ++ substring (start * 2) (last * 2 - start * 2) digits)%string
  else
    let last := match end_ with
                | Some e => e
                | None => String.length value
                end in
    Return (substring start (last - start) value).

(** [hexToBytes(hex)]: the two characters in front are dropped, an odd
    run of digits gets a [0] in front, and a character that is not a hex
    digit is an error. *)
Definition hexToBytes (hex : string) : Exc Hex :=
  let hexString := substring 2 (String.length hex - 2) hex in
  let hexString :=
    if Nat.odd (String.length hexString) then String "0" hexString
    else hexString in
  match hexPairs hexString with
  | Some bytes => Return bytes
  | None => Throw "Invalid byte sequence"
  end.

(** [Cursor.readBytes(length)] at [position]: the last byte read must be
    inside the buffer. *)
Definition readBytes (bytes : Hex) (position len : N) : Exc Hex :=
  if (1 <=? position + len) && (position + len <=? size bytes)
  then Return (takeN (dropN bytes position) len)
  else Throw "PositionOutOfBoundsError".

(** [Cursor.setPosition(position)] *)
Definition setPosition (bytes : Hex) (position : N) : Exc unit :=
  if position <? size bytes then Return tt
  else Throw "PositionOutOfBoundsError".

(** [decodeAbiParameters([{ type: 'bytes' }], data)] on the bytes of
    [data]: the head word is the offset of the tail, which holds the
    length and the bytes; after the tail has been read the cursor is set
    to the slot after the head. *)
Definition decodeAbiParameters (data : Hex) : Exc (list Hex) :=
  if size data =? 0 then Throw "AbiDecodingZeroDataError"
  else if size data <? 32 then Throw "AbiDecodingDataSizeTooSmallError"
  else
    head <- readBytes data 0 32 ;;
    let offset := be_to_N head in
    _ <- setPosition data offset ;;
    lengthWord <- readBytes data offset 32 ;;
    let len := be_to_N lengthWord in
    if len =? 0 then
      _ <- setPosition data 32 ;;
      Return [[]]
    else
      payload <- readBytes data (offset + 32) len ;;
      _ <- setPosition data 32 ;;
      Return [payload].

(** [toFunctionSelector('multiSend(bytes)')], the text viem compares the
    selector of the call with. *)
Definition MULTISEND_SELECTOR : string :=
  Eval vm_compute in bytesToHex (toFunctionSelector "multiSend(bytes)").

(** [decodeFunctionData({ abi: MULTISEND_ABI, data })]: the selector is
    compared as text. *)
Definition decodeFunctionData (data : string) : Exc DecodedFunctionData :=
  selector <- slice data 0 (Some 4%nat) ;;
  if String.eqb selector MULTISEND_SELECTOR then
    body <- slice data 4 None ;;
    bytes <- hexToBytes body ;;
    decodedArgs <- decodeAbiParameters bytes ;;
    Return {| functionName := "multiSend"; args := Some decodedArgs |}
  else Throw "AbiFunctionSignatureNotFoundError".

Definition padRight32 (h : Hex) : Hex :=
  h ++ repeat x00 ((32 - length h mod 32) mod 32)%nat.

(** [encodeFunctionData({ abi: MULTISEND_ABI, functionName: 'multiSend',
    args: [transactions] })] *)
Definition encodeFunctionData (transactions : Hex) : string :=
  bytesToHex
    (toFunctionSelector "multiSend(bytes)" ++ N_to_be 32 32
       ++ N_to_be 32 (size transactions) ++ padRight32 transactions).

End Viem.

(* ===================================================================== *)
(** * security/multisend-decoder.ts                                       *)
(* ===================================================================== *)

Module MultiSend.

Record DecodedMultiSendTransaction : Type := {
  operation : N;
  to : Hex;
  value : N;
  data : Hex
}.

End MultiSend.

Definition DecodedMultiSendTransaction : Type :=
  MultiSend.DecodedMultiSendTransaction.

Lemma length_dropN {A} (l : list A) (n : N) :
  (length (dropN l n) <= length l)%nat.
Proof.
  revert n. induction l as [| x rest IH]; intro n; simpl.
  - lia.
  - destruct (n =? 0); simpl; [lia |]. specialize (IH (N.pred n)). lia.
Qed.

(** One turn of the [while (offset < packedData.length)] loop of
    [decodeMultiSend].  The arguments are the byte at [offset] and the
    part of [packedData] after it: a [slice(offset, offset + 2 * k)] is the
    first [k] bytes of what is left (fewer when the text ends before) and
    [offset += 2 * k] drops them.  The result is the sub-call pushed and
    what is left for the next turn, [None] when [offset] has become NaN.

    - [BigInt('0x' + valueHex)] throws a [SyntaxError] when [valueHex] is
      empty and reads the digits that are there otherwise.
    - [parseInt(dataLengthHex, 16)] is NaN when [dataLengthHex] is empty;
      then [slice(offset, NaN)] is empty, [offset] becomes NaN and the loop
      test [offset < packedData.length] fails.
    - [parseInt] rounds lengths from 2^53 on to a double; such a length
      exceeds the length of any text, so the slice and the loop test are
      those of the exact length. *)
Definition readRecord (op : byte) (afterOp : list byte)
  : Exc (DecodedMultiSendTransaction * option (list byte)) :=
  let operation := Byte.to_N op in
  let to := takeN afterOp 20 in
  let afterTo := dropN afterOp 20 in
  let valueHex := takeN afterTo 32 in
  let afterValue := dropN afterTo 32 in
  match valueHex with
  | [] => Throw "SyntaxError: Cannot convert 0x to a BigInt"
  | _ :: _ =>
      let value := be_to_N valueHex in
      let dataLengthHex := takeN afterValue 32 in
      let afterLength := dropN afterValue 32 in
      match dataLengthHex with
      | [] =>
          Return ({| MultiSend.operation := operation;
                     MultiSend.to := to;
                     MultiSend.value := value;
                     MultiSend.data := [] |}, None)
      | _ :: _ =>
          let dataLength := be_to_N dataLengthHex in
          let txData := takeN afterLength dataLength in
          Return ({| MultiSend.operation := operation;
                     MultiSend.to := to;
                     MultiSend.value := value;
                     MultiSend.data := txData |},
                  Some (dropN afterLength dataLength))
      end
  end.

Lemma readRecord_rest op afterOp tx rest :
  readRecord op afterOp = Return (tx, Some rest) ->
  (length rest <= length afterOp)%nat.
Proof.
  unfold readRecord.
  destruct (takeN (dropN afterOp 20) 32); [discriminate |].
  destruct (takeN (dropN (dropN afterOp 20) 32) 32); [discriminate |].
  intro H. injection H as _ <-.
  repeat (etransitivity; [apply length_dropN |]). lia.
Qed.

Definition inspect {A} (a : A) : { b : A | a = b } := exist _ a eq_refl.

(** The loop itself: one sub-call per turn until the text is used up. *)
Equations? decodePacked (rest : list byte)
  : Exc (list DecodedMultiSendTransaction) by wf (length rest) lt :=
  decodePacked [] := Return [];
  decodePacked (op :: afterOp) with inspect (readRecord op afterOp) := {
    | exist _ (Throw e) _ => Throw e
    | exist _ (Return (tx, None)) _ => Return [tx]
    | exist _ (Return (tx, Some rest')) Hread =>
        transactions <- decodePacked rest' ;;
        Return (tx :: transactions) }.
Proof.
  apply readRecord_rest in Hread. simpl. lia.
Qed.

Definition decodeMultiSend (data : string)
  : option (list DecodedMultiSendTransaction) :=
  tryCatch
    (decoded <- Viem.decodeFunctionData data ;;
     match Viem.args decoded with
     | Some (packedData :: _) =>
         if negb (String.eqb (Viem.functionName decoded) "multiSend")
         then Return None
         else transactions <- decodePacked packedData ;;
              Return (Some transactions)
     | _ => Return None
     end)
    (fun _ => None).

Definition isMultiSend (data : string) : bool :=
  tryCatch
    (decoded <- Viem.decodeFunctionData data ;;
     Return (String.eqb (Viem.functionName decoded) "multiSend"))
    (fun _ => false).

(** The packed form of a batch, as the decoder's documentation and the
    test-suite lay it out: per sub-call one byte of operation, the 20 bytes
    of the target, the value and the payload length on 32 bytes each,
    big-endian, then the payload. *)
Definition packTransaction (tx : DecodedMultiSendTransaction) : Hex :=
  [byte_of_N (MultiSend.operation tx)] ++ MultiSend.to tx
    ++ N_to_be 32 (MultiSend.value tx)
    ++ N_to_be 32 (size (MultiSend.data tx))
    ++ MultiSend.data tx.

Definition packTransactions (txs : list DecodedMultiSendTransaction) : Hex :=
  flat_map packTransaction txs.

Definition encodeMultiSend (txs : list DecodedMultiSendTransaction)
  : string :=
  Viem.encodeFunctionData (packTransactions txs).

(* ===================================================================== *)
(** * security/constants.ts, security/types.ts                            *)
(* ===================================================================== *)

Definition MULTISEND_CALL_ONLY : list Address :=
  [ "0x40A2aCCbd92BCA938b02010E17A5b8929b49130D";
    "0xA1dabEF33b3B82c7814B6D82A79e50F4AC44102B";
    "0xf220D3b4DFb23C4ade8C88E526C1353AbAcbC38F";
    "0x9641d764fc13c8B624c04430C7356C1C7C8102e2";
    "0x0408EF011960d02349d50286D20531229BCef773";
    "0xA83c336B20401Af773B6219BA5027174338D1836" ].

Definition SAFE_MIGRATION : list Address :=
  [ "0x526643F69b81B008F46d95CD5ced5eC0edFFDaC6";
    "0x817756C6c555A94BCEE39eB5a102AbC1678b09A7";
    "0x6439e7ABD8Bb915A5263094784C5CF561c4172AC" ].

Definition SIGN_MESSAGE_LIB : list Address :=
  [ "0xA65387F16B013cf2Af4605Ad8aA5ec25a2cbA3a2";
    "0x98FFBBF51bb33A056B08ddf711f289936AafF717";
    "0x357147caf9C0cCa67DfA0CF5369318d8193c8407";
    "0xd53cd0aB83D845Ac265BE939c57F53AD838012c9";
    "0xAca1ec0a1A575CDCCF1DC3d5d296202Eb6061888";
    "0x4FfeF8222648872B3dE295Ba1e49110E61f5b5aa" ].

Definition TRUSTED_DELEGATE_CALL_ADDRESSES : list Address :=
  MULTISEND_CALL_ONLY ++ SAFE_MIGRATION ++ SIGN_MESSAGE_LIB.

Definition OWNER_MODIFICATION_FUNCTIONS : list string :=
  [ "addOwnerWithThreshold"; "removeOwner"; "swapOwner"; "changeThreshold" ].

Definition MODULE_MANAGEMENT_FUNCTIONS : list string :=
  [ "enableModule"; "disableModule" ].

Definition TRUSTED_MODULES : list Address :=
  [ "0xcfbfac74c26f8647cbdb8c5caf80bb5b32e43134" ].

Definition GUARD_MANAGEMENT_FUNCTIONS : list string := [ "setGuard" ].

Definition TRUSTED_GUARDS : list Address := [].

Definition ZERO_ADDRESS : Address :=
  "0x0000000000000000000000000000000000000000".

Inductive WarningLevel : Type :=
| WCritical | WHigh | WMedium | WLow | WInfo.

Inductive RiskLevel : Type :=
| Critical | High | Medium | Low | RiskNone.

Module DelegateCallCheckResult.
Record t : Type := {
  isDelegateCall : bool;
  isTrusted : bool;
  targetAddress : option Address;
  warning : option string;
  warningLevel : option WarningLevel
}.
End DelegateCallCheckResult.

Module GasTokenCheckResult.
Record t : Type := {
  usesCustomGasToken : bool;
  usesCustomRefundReceiver : bool;
  hasNonZeroGasPrice : bool;
  gasToken : Address;
  refundReceiver : Address;
  gasPrice : N;
  riskLevel : RiskLevel;
  warnings : list string;
  warningLevel : option WarningLevel
}.
End GasTokenCheckResult.

Module OwnerModificationDetection.
Record t : Type := {
  functionName : string;
  isNested : bool;
  depth : nat
}.
End OwnerModificationDetection.

Module OwnerModificationCheckResult.
Record t : Type := {
  modifiesOwners : bool;
  modifications : list OwnerModificationDetection.t;
  warning : option string;
  warningLevel : WarningLevel
}.
End OwnerModificationCheckResult.

Inductive DetectionType : Type := module | guard.

Module ModuleGuardDetection.
Record t : Type := {
  type : DetectionType;
  functionName : string;
  targetAddress : option Hex;
  isTrusted : bool;
  isNested : bool;
  depth : nat
}.
End ModuleGuardDetection.

Module ModuleGuardCheckResult.
Record t : Type := {
  hasModuleOperation : bool;
  hasGuardOperation : bool;
  detections : list ModuleGuardDetection.t;
  warnings : option (list string);
  warningLevel : WarningLevel
}.
End ModuleGuardCheckResult.

Module SecurityAnalysisResult.
Record t : Type := {
  delegateCall : DelegateCallCheckResult.t;
  gasToken : GasTokenCheckResult.t;
  ownerModification : OwnerModificationCheckResult.t;
  moduleGuard : ModuleGuardCheckResult.t;
  overallRisk : RiskLevel;
  requiresCarefulReview : bool
}.
End SecurityAnalysisResult.

(* ===================================================================== *)
(** * security/delegate-call.ts                                           *)
(* ===================================================================== *)

Module OperationType.
Definition Call : N := 0.
Definition DelegateCall : N := 1.
End OperationType.

Definition isTrustedForDelegateCall (address : Address) : bool :=
  let normalizedAddress := toLowerCase address in
  existsb (fun trusted => String.eqb (toLowerCase trusted) normalizedAddress)
          TRUSTED_DELEGATE_CALL_ADDRESSES.

Definition checkDelegateCall (operation : N) (to : Address)
  : DelegateCallCheckResult.t :=
  let isDelegateCall := operation =? OperationType.DelegateCall in
  if negb isDelegateCall then
    {| DelegateCallCheckResult.isDelegateCall := false;
       DelegateCallCheckResult.isTrusted := false;
       DelegateCallCheckResult.targetAddress := None;
       DelegateCallCheckResult.warning := None;
       DelegateCallCheckResult.warningLevel := None |}
  else
    let isTrusted := isTrustedForDelegateCall to in
    if isTrusted then
      {| DelegateCallCheckResult.isDelegateCall := true;
         DelegateCallCheckResult.isTrusted := true;
         DelegateCallCheckResult.targetAddress := Some to;
         DelegateCallCheckResult.warning := None;
         DelegateCallCheckResult.warningLevel := None |}
    else
      {| DelegateCallCheckResult.isDelegateCall := true;
         DelegateCallCheckResult.isTrusted := false;
         DelegateCallCheckResult.targetAddress := Some to;
         DelegateCallCheckResult.warning :=
           Some ("WARNING: The transaction includes an untrusted delegate call to address "
                 ++ to
                 ++ "! This may lead to unexpected behaviour or vulnerabilities. Please review it carefully before you sign!")%string;
         DelegateCallCheckResult.warningLevel := Some WCritical |}.

(* ===================================================================== *)
(** * security/gas-token.ts                                               *)
(* ===================================================================== *)

Definition GAS_WARNING_BOTH : string :=
  "WARNING: This transaction uses a custom gas token and a custom refund receiver. This combination can be used to hide a rerouting of funds through gas refunds.".
Definition GAS_WARNING_PRICE : string :=
  "Furthermore, the gas price is non-zero, which increases the potential for hidden value transfers.".
Definition GAS_WARNING_TOKEN : string :=
  "WARNING: This transaction uses a custom gas token. Please verify that this is intended.".
Definition GAS_WARNING_RECEIVER : string :=
  "WARNING: This transaction uses a custom refund receiver. Please verify that this is intended.".

Definition checkGasTokenAttack (gasPrice : N) (gasToken refundReceiver : Address)
  : GasTokenCheckResult.t :=
  let warnings : list string := [] in
  let gasPriceBigInt := gasPrice in
  let usesCustomGasToken :=
    negb (String.eqb (toLowerCase gasToken) (toLowerCase ZERO_ADDRESS)) in
  let usesCustomRefundReceiver :=
    negb (String.eqb (toLowerCase refundReceiver) (toLowerCase ZERO_ADDRESS)) in
  let hasNonZeroGasPrice := 0 <? gasPriceBigInt in
  let result riskLevel warnings warningLevel :=
    {| GasTokenCheckResult.usesCustomGasToken := usesCustomGasToken;
       GasTokenCheckResult.usesCustomRefundReceiver := usesCustomRefundReceiver;
       GasTokenCheckResult.hasNonZeroGasPrice := hasNonZeroGasPrice;
       GasTokenCheckResult.gasToken := gasToken;
       GasTokenCheckResult.refundReceiver := refundReceiver;
       GasTokenCheckResult.gasPrice := gasPrice;
       GasTokenCheckResult.riskLevel := riskLevel;
       GasTokenCheckResult.warnings := warnings;
       GasTokenCheckResult.warningLevel := warningLevel |} in
  if usesCustomGasToken && usesCustomRefundReceiver then
    let warnings := warnings ++ [GAS_WARNING_BOTH] in
    if hasNonZeroGasPrice then
      let warnings := warnings ++ [GAS_WARNING_PRICE] in
      result Critical warnings (Some WCritical)
    else result High warnings (Some WHigh)
  else if usesCustomGasToken then
    let warnings := warnings ++ [GAS_WARNING_TOKEN] in
    result Medium warnings (Some WMedium)
  else if usesCustomRefundReceiver then
    let warnings := warnings ++ [GAS_WARNING_RECEIVER] in
    result Low warnings (Some WLow)
  else result RiskNone warnings None.

(* ===================================================================== *)
(** * security/owner-checks.ts                                            *)
(* ===================================================================== *)

(** [Map.prototype.get] on a map built from a list of entries with
    distinct keys; the keys are texts and are compared as such. *)
Fixpoint mapGet (m : list (string * string)) (key : string) : option string :=
  match m with
  | [] => None
  | (k, v) :: rest => if String.eqb k key then Some v else mapGet rest key
  end.

Module OwnerChecks.

(** The keys are the texts [toFunctionSelector] returns: ['0x'] and
    eight lower-case digits. *)
Definition OWNER_MODIFICATION_SELECTORS : list (string * string) :=
  Eval vm_compute in
  [ (bytesToHex (toFunctionSelector "addOwnerWithThreshold(address,uint256)"),
     "addOwnerWithThreshold");
    (bytesToHex (toFunctionSelector "removeOwner(address,address,uint256)"),
     "removeOwner");
    (bytesToHex (toFunctionSelector "swapOwner(address,address,address)"),
     "swapOwner");
    (bytesToHex (toFunctionSelector "changeThreshold(uint256)"),
     "changeThreshold") ].

Definition getFunctionSelector (data : string) : option string :=
  if String.eqb data "" || String.eqb data "0x"
     || (String.length data <? 10)%nat
  then None
  else Some (substring 0 10 data).

Definition isOwnerModificationFunction (functionName : string) : bool :=
  existsb (String.eqb functionName) OWNER_MODIFICATION_FUNCTIONS.

(** [checkTransactionData], with the depth of the JavaScript call stack
    bounded by [fuel]; a batch is longer than each sub-call it packs, so
    the length of [data] bounds the nesting.  The [data] of a sub-call is
    the text the decoder cut out of viem's output, [bytesToHex] of its
    bytes. *)
Fixpoint checkTransactionData_rec (fuel : nat) (data : string) (depth : nat)
  : list OwnerModificationDetection.t :=
  match fuel with
  | O => []
  | S fuel' =>
      if String.eqb data "" || String.eqb data "0x" then []
      else
        let selector := getFunctionSelector data in
        match match selector with
              | Some sel => mapGet OWNER_MODIFICATION_SELECTORS sel
              | None => None
              end with
        | Some functionName =>
            [ {| OwnerModificationDetection.functionName := functionName;
                 OwnerModificationDetection.isNested := (0 <? depth)%nat;
                 OwnerModificationDetection.depth := depth |} ]
        | None =>
            match decodeMultiSend data with
            | Some multiSendTxs =>
                flat_map
                  (fun tx =>
                     checkTransactionData_rec
                       fuel' (bytesToHex (MultiSend.data tx)) (depth + 1))
                  multiSendTxs
            | None => []
            end
        end
  end.

Definition checkTransactionData (data : string) (depth : nat)
  : list OwnerModificationDetection.t :=
  checkTransactionData_rec (S (String.length data)) data depth.

Definition ownerWarning (modifications : list OwnerModificationDetection.t)
  : string :=
  let functionNames :=
    join ", " (map OwnerModificationDetection.functionName modifications) in
  ("WARNING: This transaction modifies the owners or threshold of the Safe! Functions: "
     ++ functionNames ++ ". Proceed with caution!")%string.

Definition checkOwnerModifications (data : string)
  : OwnerModificationCheckResult.t :=
  let modifications := checkTransactionData data 0 in
  match modifications with
  | [] =>
      {| OwnerModificationCheckResult.modifiesOwners := false;
         OwnerModificationCheckResult.modifications := [];
         OwnerModificationCheckResult.warning := None;
         OwnerModificationCheckResult.warningLevel := WInfo |}
  | _ :: _ =>
      {| OwnerModificationCheckResult.modifiesOwners := true;
         OwnerModificationCheckResult.modifications := modifications;
         OwnerModificationCheckResult.warning :=
           Some (ownerWarning modifications);
         OwnerModificationCheckResult.warningLevel := WCritical |}
  end.

End OwnerChecks.

(* ===================================================================== *)
(** * security/module-guard-checks.ts                                     *)
(* ===================================================================== *)

(** A decoder for [count] address parameters, as viem decodes an ABI item
    in parsed form: after the selector one 32-byte word per address, of
    which the last 20 bytes are the address. *)
Fixpoint decodeAddressWords (count : nat) (body : Hex) (position : N)
  : Exc (list Hex) :=
  match count with
  | O => Return []
  | S count' =>
      _ <- Viem.setPosition body position ;;
      word <- Viem.readBytes body position 32 ;;
      others <- decodeAddressWords count' body (position + 32) ;;
      Return (dropN word 12 :: others)
  end.

Definition decodeAddressArgs (count : nat) (data : string)
  : Exc (list Hex) :=
  text <- Viem.slice data 4 None ;;
  body <- Viem.hexToBytes text ;;
  if size body =? 0 then Throw "AbiDecodingZeroDataError"
  else if size body <? 32 then Throw "AbiDecodingDataSizeTooSmallError"
  else decodeAddressWords count body 0.

Module ModuleGuardChecks.

Definition MODULE_SELECTORS : list (string * string) :=
  Eval vm_compute in
  [ (bytesToHex (toFunctionSelector "enableModule(address)"),
     "enableModule");
    (bytesToHex (toFunctionSelector "disableModule(address,address)"),
     "disableModule") ].

Definition GUARD_SELECTORS : list (string * string) :=
  Eval vm_compute in
  [ (bytesToHex (toFunctionSelector "setGuard(address)"), "setGuard") ].

Definition getFunctionSelector (data : string) : option string :=
  if String.eqb data "" || String.eqb data "0x"
     || (String.length data <? 10)%nat
  then None
  else Some (substring 0 10 data).

(** The addresses the trust lists are compared with come from viem's
    decoder; lower-cased they are the hex text of their 20 bytes. *)
Definition isTrustedModule (address : Hex) : bool :=
  let normalizedAddress := bytesToHex address in
  existsb (fun trusted => String.eqb (toLowerCase trusted) normalizedAddress)
          TRUSTED_MODULES.

Definition isTrustedGuard (address : Hex) : bool :=
  let normalizedAddress := bytesToHex address in
  existsb (fun trusted => String.eqb (toLowerCase trusted) normalizedAddress)
          TRUSTED_GUARDS.

Definition isModuleManagementFunction (functionName : string) : bool :=
  existsb (String.eqb functionName) MODULE_MANAGEMENT_FUNCTIONS.

Definition isGuardManagementFunction (functionName : string) : bool :=
  existsb (String.eqb functionName) GUARD_MANAGEMENT_FUNCTIONS.

Section WithDecoder.

(** viem's [decodeFunctionData] on the one-item ABI the detector hands
    it, given here by the number of address parameters of the item; it
    returns the decoded arguments or throws. *)
Variable decodeFunctionData : nat -> string -> Exc (list Hex).

Definition detection (type : DetectionType) (functionName : string)
           (targetAddress : option Hex) (isTrusted : bool) (depth : nat)
  : ModuleGuardDetection.t :=
  {| ModuleGuardDetection.type := type;
     ModuleGuardDetection.functionName := functionName;
     ModuleGuardDetection.targetAddress := targetAddress;
     ModuleGuardDetection.isTrusted := isTrusted;
     ModuleGuardDetection.isNested := (0 <? depth)%nat;
     ModuleGuardDetection.depth := depth |}.

Definition moduleDetection (moduleFunctionName : string) (data : string)
           (depth : nat) : ModuleGuardDetection.t :=
  tryCatch
    (decodedArgs <-
       decodeFunctionData
         (if String.eqb moduleFunctionName "enableModule" then 1 else 2)%nat
         data ;;
     match (if String.eqb moduleFunctionName "enableModule"
            then nth_error decodedArgs 0 else nth_error decodedArgs 1) with
     | Some moduleAddress =>
         Return (detection module moduleFunctionName (Some moduleAddress)
                           (isTrustedModule moduleAddress) depth)
     | None => Throw "Failed to decode module address"
     end)
    (fun _ => detection module moduleFunctionName None false depth).

Definition guardDetection (guardFunctionName : string) (data : string)
           (depth : nat) : ModuleGuardDetection.t :=
  tryCatch
    (decodedArgs <- decodeFunctionData 1%nat data ;;
     match nth_error decodedArgs 0 with
     | Some guardAddress =>
         Return (detection guard guardFunctionName (Some guardAddress)
                           (isTrustedGuard guardAddress) depth)
     | None => Throw "Failed to decode guard address"
     end)
    (fun _ => detection guard guardFunctionName None false depth).

Fixpoint checkTransactionData_rec (fuel : nat) (data : string) (depth : nat)
  : list ModuleGuardDetection.t :=
  match fuel with
  | O => []
  | S fuel' =>
      if String.eqb data "" || String.eqb data "0x" then []
      else
        let nested :=
          match decodeMultiSend data with
          | Some multiSendTxs =>
              flat_map
                (fun tx =>
                   checkTransactionData_rec
                     fuel' (bytesToHex (MultiSend.data tx)) (depth + 1))
                multiSendTxs
          | None => []
          end in
        match getFunctionSelector data with
        | Some selector =>
            match mapGet MODULE_SELECTORS selector with
            | Some moduleFunctionName =>
                [ moduleDetection moduleFunctionName data depth ]
            | None =>
                match mapGet GUARD_SELECTORS selector with
                | Some guardFunctionName =>
                    [ guardDetection guardFunctionName data depth ]
                | None => nested
                end
            end
        | None => nested
        end
  end.

Definition checkTransactionData (data : string) (depth : nat)
  : list ModuleGuardDetection.t :=
  checkTransactionData_rec (S (String.length data)) data depth.

Definition isModule (d : ModuleGuardDetection.t) : bool :=
  match ModuleGuardDetection.type d with module => true | guard => false end.

Definition isGuard (d : ModuleGuardDetection.t) : bool :=
  match ModuleGuardDetection.type d with guard => true | module => false end.

Definition checkModuleGuardOperations (data : string)
  : ModuleGuardCheckResult.t :=
  let detections := checkTransactionData data 0 in
  match detections with
  | [] =>
      {| ModuleGuardCheckResult.hasModuleOperation := false;
         ModuleGuardCheckResult.hasGuardOperation := false;
         ModuleGuardCheckResult.detections := [];
         ModuleGuardCheckResult.warnings := None;
         ModuleGuardCheckResult.warningLevel := WInfo |}
  | _ :: _ =>
      let moduleOps := filter isModule detections in
      let guardOps := filter isGuard detections in
      let moduleWarnings :=
        if (0 <? length moduleOps)%nat then
          let trustedCount :=
            length (filter ModuleGuardDetection.isTrusted moduleOps) in
          let untrustedCount := (length moduleOps - trustedCount)%nat in
          let functionNames :=
            join ", " (map ModuleGuardDetection.functionName moduleOps) in
          if (0 <? untrustedCount)%nat then
            [ ("WARNING: This transaction modifies Safe modules ("
                 ++ functionNames
                 ++ ")! Modules have unlimited access to the Safe and can execute arbitrary transactions, bypassing signature requirements. This is a significant security risk.")%string ]
          else if (0 <? trustedCount)%nat then
            [ ("WARNING: This transaction modifies Safe modules ("
                 ++ functionNames
                 ++ ")! Even though this involves a trusted module, modules have significant power and risk. Verify the module address and ensure this change is intended.")%string ]
          else []
        else [] in
      let guardWarnings :=
        if (0 <? length guardOps)%nat then
          let functionNames :=
            join ", " (map ModuleGuardDetection.functionName guardOps) in
          [ ("WARNING: This transaction modifies the Safe guard ("
               ++ functionNames
               ++ ")! Guards can block transaction execution. An improperly configured guard can cause denial of service, effectively bricking the Safe. Proceed with extreme caution!")%string ]
        else [] in
      {| ModuleGuardCheckResult.hasModuleOperation :=
           (0 <? length moduleOps)%nat;
         ModuleGuardCheckResult.hasGuardOperation :=
           (0 <? length guardOps)%nat;
         ModuleGuardCheckResult.detections := detections;
         ModuleGuardCheckResult.warnings :=
           Some (moduleWarnings ++ guardWarnings);
         ModuleGuardCheckResult.warningLevel := WHigh |}
  end.

End WithDecoder.

End ModuleGuardChecks.

(* ===================================================================== *)
(** * security/analyzer.ts                                                *)
(* ===================================================================== *)

Definition isLevel (l : WarningLevel) (x : WarningLevel) : bool :=
  match l, x with
  | WCritical, WCritical | WHigh, WHigh | WMedium, WMedium
  | WLow, WLow | WInfo, WInfo => true
  | _, _ => false
  end.

(** [x === 'critical'] and the like, for an optional warning level and for
    a risk level. *)
Definition optLevelIs (x : option WarningLevel) (l : WarningLevel) : bool :=
  match x with Some w => isLevel l w | None => false end.

Definition riskIs (x : RiskLevel) (l : WarningLevel) : bool :=
  match x, l with
  | Critical, WCritical | High, WHigh | Medium, WMedium | Low, WLow => true
  | _, _ => false
  end.

Section SecurityAnalyzer.

Variable decodeFunctionData : nat -> string -> Exc (list Hex).

(** The record holds the bytes of its [data]; the two detectors get them
    as text, in the lower-case form of [bytesToHex]. *)
Definition analyzeSecurity (txData : SafeTransactionData)
: SecurityAnalysisResult.t :=
let delegateCall := checkDelegateCall (operation txData) (to txData) in
let gasToken :=
  checkGasTokenAttack (gasPrice txData) (gasToken txData)
                      (refundReceiver txData) in
let ownerModification :=
  OwnerChecks.checkOwnerModifications (bytesToHex (data txData)) in
let moduleGuard :=
  ModuleGuardChecks.checkModuleGuardOperations decodeFunctionData
                                                (bytesToHex (data txData)) in
let anyIs (l : WarningLevel) : bool :=
  optLevelIs (DelegateCallCheckResult.warningLevel delegateCall) l
  || riskIs (GasTokenCheckResult.riskLevel gasToken) l
  || isLevel l (OwnerModificationCheckResult.warningLevel ownerModification)
  || isLevel l (ModuleGuardCheckResult.warningLevel moduleGuard) in
let overallRisk :=
  if anyIs WCritical then Critical
  else if anyIs WHigh then High
  else if anyIs WMedium then Medium
  else if anyIs WLow then Low
  else RiskNone in
let requiresCarefulReview :=
  riskIs overallRisk WCritical
  || riskIs overallRisk WHigh
  || (match DelegateCallCheckResult.warningLevel delegateCall with
      | Some _ => true
      | None => false
      end)
  || (0 <? length (GasTokenCheckResult.warnings gasToken))%nat
  || OwnerModificationCheckResult.modifiesOwners ownerModification
  || ModuleGuardCheckResult.hasModuleOperation moduleGuard
  || ModuleGuardCheckResult.hasGuardOperation moduleGuard in
{| SecurityAnalysisResult.delegateCall := delegateCall;
   SecurityAnalysisResult.gasToken := gasToken;
   SecurityAnalysisResult.ownerModification := ownerModification;
   SecurityAnalysisResult.moduleGuard := moduleGuard;
   SecurityAnalysisResult.overallRisk := overallRisk;
   SecurityAnalysisResult.requiresCarefulReview := requiresCarefulReview |}.

End SecurityAnalyzer.

(* ===================================================================== *)
(** * utils/verify-decoded.ts                                             *)
(* ===================================================================== *)

Module DecodeVerificationResult.
Record t : Type := {
  verified : bool;
  error : option string;
  reencoded : option string
}.
End DecodeVerificationResult.

Module SafeApiParameter.
Record t : Type := {
  name : string;
  type : string;
  value : string
}.
End SafeApiParameter.

Module SafeApiDataDecoded.
Record t : Type := {
  method : string;
  parameters : list SafeApiParameter.t
}.
End SafeApiDataDecoded.

Section VerifyDecoded.

(** viem and the JavaScript runtime, the external collaborators of the
    verifier; each of them returns or throws. *)
Variable AbiParameters : Type.
Variable Json : Type.
Variable parseAbiParameters : string -> Exc AbiParameters.
Variable BigInt : string -> Exc Z.
Variable JSON_parse : string -> Exc Json.
Variable isArray : Json -> bool.

(** The values the claim's texts are converted to. *)
Inductive Arg : Type :=
| ArgText (s : string)
| ArgInteger (z : Z)
| ArgBool (b : bool)
| ArgJson (j : Json)
| ArgList (l : list Json).

Variable encodeFunctionData :
  string -> AbiParameters -> list Arg -> Exc string.

(** The conversion of one declared value, the callback of
    [decoded.parameters.map]. *)
Definition convertValue (param : SafeApiParameter.t) : Exc Arg :=
  let type := SafeApiParameter.type param in
  let value := SafeApiParameter.value param in
  if String.eqb type "address" || String.eqb type "address[]" then
    Return (ArgText value)
  else if startsWith type "uint" || startsWith type "int" then
    z <- BigInt value ;; Return (ArgInteger z)
  else if String.eqb type "bool" then
    let strValue := toLowerCase value in
    Return (ArgBool (String.eqb strValue "true"))
  else if String.eqb type "bytes" || startsWith type "bytes" then
    Return (ArgText value)
  else if endsWith type "[]" then
    Return (tryCatch
              (parsed <- JSON_parse value ;;
               Return (if isArray parsed then ArgJson parsed
                       else ArgList [parsed]))
              (fun _ => ArgText value))
  else Return (ArgText value).

(** The body of the [try] block, for raw data that is neither missing
    nor ['0x']. *)
Definition verifyBody (rawData : string) (decoded : SafeApiDataDecoded.t)
  : Exc DecodeVerificationResult.t :=
  let functionSelector := substring 0 10 rawData in
  let parameters :=
    map (fun param => (SafeApiParameter.name param,
                       SafeApiParameter.type param))
        (SafeApiDataDecoded.parameters decoded) in
  match parameters with
  | [] =>
      let verified := String.eqb rawData functionSelector in
      Return {| DecodeVerificationResult.verified := verified;
                DecodeVerificationResult.error :=
                  if verified then None
                  else Some "Raw data has extra bytes beyond function selector";
                DecodeVerificationResult.reencoded := Some functionSelector |}
  | _ :: _ =>
      abiParameters <-
        parseAbiParameters
          (join ", " (map (fun p => (snd p ++ " " ++ fst p)%string)
                          parameters)) ;;
      args <- mapM convertValue (SafeApiDataDecoded.parameters decoded) ;;
      reencoded <-
        encodeFunctionData (SafeApiDataDecoded.method decoded)
                           abiParameters args ;;
      let verified :=
        String.eqb (toLowerCase reencoded) (toLowerCase rawData) in
      Return {| DecodeVerificationResult.verified := verified;
                DecodeVerificationResult.error :=
                  if verified then None
                  else Some "Re-encoded data does not match raw data";
                DecodeVerificationResult.reencoded := Some reencoded |}
  end.

Definition failed (message : string) : DecodeVerificationResult.t :=
  {| DecodeVerificationResult.verified := false;
     DecodeVerificationResult.error := Some message;
     DecodeVerificationResult.reencoded := None |}.

Definition verifyDecodedData (rawData : option string)
           (decoded : option SafeApiDataDecoded.t)
  : DecodeVerificationResult.t :=
  match decoded with
  | None => failed "No decoded data provided"
  | Some decoded =>
      match rawData with
      | None => failed "No raw data to verify against"
      | Some rawData =>
          if String.eqb rawData "" || String.eqb rawData "0x" then
            failed "No raw data to verify against"
          else
            tryCatch (verifyBody rawData decoded)
                     (fun message =>
                        failed ("Verification failed: " ++ message)%string)
      end
  end.

Definition verifyNestedTransactions
           (nestedTxs : list (string * option SafeApiDataDecoded.t))
  : list DecodeVerificationResult.t :=
  map (fun tx => verifyDecodedData (Some (fst tx)) (snd tx)) nestedTxs.

End VerifyDecoded.

Arguments convertValue {Json} BigInt JSON_parse isArray param.
Arguments verifyBody {AbiParameters Json} parseAbiParameters BigInt JSON_parse
  isArray encodeFunctionData rawData decoded.
Arguments verifyDecodedData {AbiParameters Json} parseAbiParameters BigInt
  JSON_parse isArray encodeFunctionData rawData decoded.
Arguments verifyNestedTransactions {AbiParameters Json} parseAbiParameters
  BigInt JSON_parse isArray encodeFunctionData nestedTxs.

(* ===================================================================== *)
(** * hash/calculator.ts ([verifySafeTxHash]), utils/format.ts            *)
(* ===================================================================== *)

(** [verifySafeTxHash] compares the two hashes as texts: the expected hash
    is the text the transaction service sent, in whatever case. *)
Definition verifySafeTxHash (calculated expected : string) : bool :=
  String.eqb (toLowerCase calculated) (toLowerCase expected).

Definition upperChar (c : ascii) : ascii :=
  let n := N_of_ascii c in
  if (97 <=? n) && (n <=? 122) then ascii_of_N (n - 32) else c.

(** [String.prototype.toUpperCase] on ASCII text. *)
Fixpoint toUpperCase (s : string) : string :=
  match s with
  | EmptyString => EmptyString
  | String c rest => String (upperChar c) (toUpperCase rest)
  end.

(** [formatHash]; [hash.slice(0, 2)] is the first two characters and
    [hash.slice(2)] what follows them. *)
Definition formatHash (hash : string) : Exc string :=
  if negb (startsWith hash "0x") then Throw "Hash must start with 0x prefix"
  else
    let prefix := toLowerCase (substring 0 2 hash) in
    let rest := toUpperCase (substring 2 (String.length hash - 2) hash) in
    Return (prefix ++ rest)%string.

(* ===================================================================== *)
(** * security/delegate-call.ts ([getOperationDescription])               *)
(* ===================================================================== *)

Definition getOperationDescription (operation : N) (to : Address) : string :=
  if operation =? OperationType.Call then "Call"
  else if operation =? OperationType.DelegateCall then
    let isTrusted := isTrustedForDelegateCall to in
    if isTrusted then "DelegateCall (trusted)"
    else "DelegateCall (UNTRUSTED - carefully verify before proceeding!)"
  else "Unknown".

(* ===================================================================== *)
(** * security/owner-checks.ts, security/module-guard-checks.ts:          *)
(** * the checks on decoded data                                          *)
(* ===================================================================== *)

(** The [parameters] argument of [checkOwnerModificationsFromDecoded]:
    the value of a parameter is a text or an array; the items of an array
    that are strings are the texts of calls, the others are skipped by
    the [typeof nestedData === 'string'] test. *)
Module DecodedParameter.

Inductive Item : Type :=
| ItemString (nestedData : string)
| ItemOther.

Inductive Value : Type :=
| Text (s : string)
| Items (l : list Item).

Record t : Type := {
  name : string;
  type : string;
  value : Value
}.

End DecodedParameter.

Definition checkOwnerModificationsFromDecoded (method : string)
           (parameters : option (list DecodedParameter.t))
  : OwnerModificationCheckResult.t :=
  let direct :=
    if OwnerChecks.isOwnerModificationFunction method then
      [ {| OwnerModificationDetection.functionName := method;
           OwnerModificationDetection.isNested := false;
           OwnerModificationDetection.depth := 0 |} ]
    else [] in
  let nested :=
    match parameters with
    | Some parameters =>
        if String.eqb method "multiSend" then
          match find (fun p =>
                        String.eqb (DecodedParameter.name p) "data"
                        || String.eqb (DecodedParameter.type p) "bytes[]")
                     parameters with
          | Some dataParam =>
              match DecodedParameter.value dataParam with
              | DecodedParameter.Items items =>
                  flat_map
                    (fun nestedData =>
                       match nestedData with
                       | DecodedParameter.ItemString nestedData =>
                           OwnerChecks.checkTransactionData nestedData 1
                       | DecodedParameter.ItemOther => []
                       end)
                    items
              | DecodedParameter.Text _ => []
              end
          | None => []
          end
        else []
    | None => []
    end in
  let modifications := direct ++ nested in
  match modifications with
  | [] =>
      {| OwnerModificationCheckResult.modifiesOwners := false;
         OwnerModificationCheckResult.modifications := [];
         OwnerModificationCheckResult.warning := None;
         OwnerModificationCheckResult.warningLevel := WInfo |}
  | _ :: _ =>
      {| OwnerModificationCheckResult.modifiesOwners := true;
         OwnerModificationCheckResult.modifications := modifications;
         OwnerModificationCheckResult.warning :=
           Some (OwnerChecks.ownerWarning modifications);
         OwnerModificationCheckResult.warningLevel := WCritical |}
  end.

Definition checkModuleGuardOperationsFromDecoded (method : string)
  : ModuleGuardCheckResult.t :=
  let decodedDetection (type : DetectionType) :=
    {| ModuleGuardDetection.type := type;
       ModuleGuardDetection.functionName := method;
       ModuleGuardDetection.targetAddress := None;
       ModuleGuardDetection.isTrusted := false;
       ModuleGuardDetection.isNested := false;
       ModuleGuardDetection.depth := 0 |} in
  let detections :=
    (if ModuleGuardChecks.isModuleManagementFunction method
     then [decodedDetection module] else [])
    ++ (if ModuleGuardChecks.isGuardManagementFunction method
        then [decodedDetection guard] else []) in
  match detections with
  | [] =>
      {| ModuleGuardCheckResult.hasModuleOperation := false;
         ModuleGuardCheckResult.hasGuardOperation := false;
         ModuleGuardCheckResult.detections := [];
         ModuleGuardCheckResult.warnings := None;
         ModuleGuardCheckResult.warningLevel := WInfo |}
  | _ :: _ =>
      let warnings :=
        (if existsb ModuleGuardChecks.isModule detections then
           [ "WARNING: This transaction modifies Safe modules! Modules have unlimited access and can bypass signatures." ]
         else [])
        ++ (if existsb ModuleGuardChecks.isGuard detections then
              [ "WARNING: This transaction modifies the Safe guard! Improperly configured guards can brick the Safe." ]
            else []) in
      {| ModuleGuardCheckResult.hasModuleOperation :=
           existsb ModuleGuardChecks.isModule detections;
         ModuleGuardCheckResult.hasGuardOperation :=
           existsb ModuleGuardChecks.isGuard detections;
         ModuleGuardCheckResult.detections := detections;
         ModuleGuardCheckResult.warnings := Some warnings;
         ModuleGuardCheckResult.warningLevel := WHigh |}
  end.

(* ===================================================================== *)
(** * utils/address-tags.ts                                               *)
(* ===================================================================== *)

(** A JavaScript [Map] with string keys: its entries in insertion order.
    [set] on a key that is present replaces the value in place, on a new
    key it appends an entry. *)
Module JsMap.

Definition t (V : Type) : Type := list (string * V).

Fixpoint get {V} (m : t V) (key : string) : option V :=
  match m with
  | [] => None
  | (k, v) :: rest => if String.eqb k key then Some v else get rest key
  end.

Fixpoint has {V} (m : t V) (key : string) : bool :=
  match m with
  | [] => false
  | (k, _) :: rest => String.eqb k key || has rest key
  end.

Fixpoint set {V} (m : t V) (key : string) (value : V) : t V :=
  match m with
  | [] => [(key, value)]
  | (k, v) :: rest =>
      if String.eqb k key then (k, value) :: rest
      else (k, v) :: set rest key value
  end.

Definition entries {V} (m : t V) : list (string * V) := m.

Definition values {V} (m : t V) : list V := map snd m.

End JsMap.

Inductive TagCategory : Type :=
| SafeContract
| Protocol
| Token
| Other.

Module AddressTag.

Record t : Type := {
  label : string;
  description : string;
  category : TagCategory
}.

End AddressTag.

(** The state of the module-level map [ADDRESS_TAGS]; the functions that
    read it take it as an argument and [registerAddressTag], which
    changes it, returns the new state. *)
Definition AddressTags : Type := JsMap.t AddressTag.t.

(** [for (const addr of addresses) ADDRESS_TAGS.set(addr.toLowerCase(),
    tag)] *)
Definition tagAll (addresses : list Address) (tag : AddressTag.t)
           (tags : AddressTags) : AddressTags :=
  fold_left (fun tags addr => JsMap.set tags (toLowerCase addr) tag)
            addresses tags.

(** The map after the module has been loaded. *)
Definition ADDRESS_TAGS : AddressTags :=
  let tags := [] in
  let tags :=
    tagAll MULTISEND_CALL_ONLY
      {| AddressTag.label := "MultiSendCallOnly";
         AddressTag.description := "Safe batching contract for multiple calls";
         AddressTag.category := SafeContract |} tags in
  let tags :=
    tagAll SAFE_MIGRATION
      {| AddressTag.label := "SafeMigration";
         AddressTag.description := "Safe contract migration library";
         AddressTag.category := SafeContract |} tags in
  let tags :=
    tagAll SIGN_MESSAGE_LIB
      {| AddressTag.label := "SignMessageLib";
         AddressTag.description := "Off-chain message signing library";
         AddressTag.category := SafeContract |} tags in
  let tags :=
    tagAll TRUSTED_MODULES
      {| AddressTag.label := "Allowance Module";
         AddressTag.description := "Spending limit module for Safe";
         AddressTag.category := SafeContract |} tags in
  JsMap.set tags "0xce01c90de7fd1bcfa39e237fe6d8d9f569e8a6a3"
    {| AddressTag.label := "LockstakeEngine";
       AddressTag.description := "Sky Protocol staking and rewards contract";
       AddressTag.category := Protocol |}.

Definition getAddressTag (tags : AddressTags) (address : Address)
  : option AddressTag.t :=
  JsMap.get tags (toLowerCase address).

Definition hasAddressTag (tags : AddressTags) (address : Address) : bool :=
  JsMap.has tags (toLowerCase address).

Definition registerAddressTag (tags : AddressTags) (address : Address)
           (tag : AddressTag.t) : AddressTags :=
  JsMap.set tags (toLowerCase address) tag.

Definition getAllAddressTags (tags : AddressTags)
  : list (Address * AddressTag.t) :=
  JsMap.entries tags.

(* ===================================================================== *)
(** * decoders/types.ts, decoders/registry.ts,                            *)
(** * decoders/lockstake-engine.ts ([canDecode])                          *)
(* ===================================================================== *)

(** [CustomDecoder]: the interface of a decoder, for decoded data of type
    [Decoded]; [decode] returns or throws. *)
Module CustomDecoder.

Record t (Decoded : Type) : Type := {
  contractAddress : Address;
  contractName : string;
  network : option string;
  canDecode : Address -> string -> bool;
  decode : string -> Exc Decoded;
  getSupportedFunctions : list string
}.

Arguments contractAddress {Decoded} t.
Arguments contractName {Decoded} t.
Arguments network {Decoded} t.
Arguments canDecode {Decoded} t.
Arguments decode {Decoded} t.
Arguments getSupportedFunctions {Decoded} t.

End CustomDecoder.

(** [DecoderRegistry]: the state of an instance is its map [decoders];
    the methods take the state and, when they change it, return the new
    one.  The text [decode] writes to the console is left out. *)
Module DecoderRegistry.

Section Registry.

Variable Decoded : Type.

Definition t : Type := JsMap.t (CustomDecoder.t Decoded).

Definition empty : t := [].

(** [network ? ... : ...]: an absent network and the empty text are
    falsy. *)
Definition given (network : option string) : bool :=
  match network with
  | Some name => negb (String.eqb name "")
  | None => false
  end.

Definition makeKey (address : Address) (network : option string) : string :=
  let normalizedAddress := toLowerCase address in
  if given network then
    match network with
    | Some name => (name ++ ":" ++ normalizedAddress)%string
    | None => normalizedAddress
    end
  else normalizedAddress.

Definition register (decoders : t) (decoder : CustomDecoder.t Decoded) : t :=
  let key := makeKey (CustomDecoder.contractAddress decoder)
                     (CustomDecoder.network decoder) in
  JsMap.set decoders key decoder.

Definition getDecoder (decoders : t) (address : Address)
           (network : option string) : option (CustomDecoder.t Decoded) :=
  let specific :=
    if given network then
      let networkKey := makeKey address network in
      JsMap.get decoders networkKey
    else None in
  match specific with
  | Some decoder => Some decoder
  | None =>
      let genericKey := makeKey address None in
      JsMap.get decoders genericKey
  end.

Definition decode (decoders : t) (to : Address) (data : string)
           (network : option string) : option Decoded :=
  match getDecoder decoders to network with
  | None => None
  | Some decoder =>
      if negb (CustomDecoder.canDecode decoder to data) then None
      else tryCatch (decoded <- CustomDecoder.decode decoder data ;;
                     Return (Some decoded))
                    (fun _ => None)
  end.

Definition hasDecoder (decoders : t) (address : Address)
           (network : option string) : bool :=
  match getDecoder decoders address network with
  | Some _ => true
  | None => false
  end.

Definition getAllDecoders (decoders : t) : list (CustomDecoder.t Decoded) :=
  JsMap.values decoders.

End Registry.

End DecoderRegistry.

(** [LockstakeEngineDecoder], with the body of its [decode] method as a
    parameter. *)
Definition LockstakeEngineDecoder {Decoded : Type}
           (decode : string -> Exc Decoded) : CustomDecoder.t Decoded :=
  let contractAddress := "0xCe01C90dE7FD1bcFa39e237FE6D8D9F569e8A6a3" in
  {| CustomDecoder.contractAddress := contractAddress;
     CustomDecoder.contractName := "LockstakeEngine";
     CustomDecoder.network := Some "ethereum";
     CustomDecoder.canDecode :=
       fun to data =>
         String.eqb (toLowerCase to) (toLowerCase contractAddress)
         && (10 <? String.length data)%nat;
     CustomDecoder.decode := decode;
     CustomDecoder.getSupportedFunctions :=
       [ "open"; "hope"; "nope"; "lock"; "free"; "freeNoFee";
         "selectVoteDelegate"; "selectFarm"; "draw"; "wipe"; "wipeAll";
         "getReward"; "multicall" ] |}.

(* ===================================================================== *)
(** * Notions of the specification                                        *)
(* ===================================================================== *)

(** A version component: a non-empty run of decimal digits. *)
Definition isComponent (s : string) : bool :=
  negb (String.eqb s "") && allDigits s.

Fixpoint noChar (c : ascii) (s : string) : bool :=
  match s with
  | EmptyString => true
  | String x rest => negb (Ascii.eqb x c) && noChar c rest
  end.

(** The dotted triple [major.minor.patch]. *)
Definition triple (major minor patch : string) : string :=
  (major ++ "." ++ minor ++ "." ++ patch)%string.

(** A version string of the data model: a dotted triple of components,
    optionally followed by [+] and a tag. *)
Definition validVersion (v : string) : bool :=
  match split "+" v with
  | t :: _ =>
      match split "." t with
      | [a; b; c] => isComponent a && isComponent b && isComponent c
      | _ => false
      end
  | [] => false
  end.

(** The value of a component. *)
Definition componentValue (s : string) : Z := Z.of_N (digitsValue 0 s).

(** [needle] occurs in [s]. *)
Fixpoint contains (needle s : string) : bool :=
  startsWith s needle
  || match s with
     | EmptyString => false
     | String _ rest => contains needle rest
     end.

(** Severities in the order none < low < medium < high < critical. *)
Definition rank (r : RiskLevel) : nat :=
  match r with
  | RiskNone => 0 | Low => 1 | Medium => 2 | High => 3 | Critical => 4
  end%nat.

Definition riskMax (a b : RiskLevel) : RiskLevel :=
  if (rank a <? rank b)%nat then b else a.

(** The severity a warning level stands for; [info] and an absent level
    carry no risk. *)
Definition severity (w : option WarningLevel) : RiskLevel :=
  match w with
  | Some WCritical => Critical
  | Some WHigh => High
  | Some WMedium => Medium
  | Some WLow => Low
  | Some WInfo => RiskNone
  | None => RiskNone
  end.

(** An address is the zero address when it equals it up to the case of
    its letters. *)
Definition isZeroAddress (a : Address) : bool :=
  String.eqb (toLowerCase a) (toLowerCase ZERO_ADDRESS).

(** [Found data base d name]: the call [data], itself at nesting level
    [base], carries the owner-modification function [name] at level [d],
    directly or inside the batches it unwinds to. *)
Inductive Found : string -> nat -> nat -> string -> Prop :=
| FoundDirect data base sel name :
    OwnerChecks.getFunctionSelector data = Some sel ->
    mapGet OwnerChecks.OWNER_MODIFICATION_SELECTORS sel = Some name ->
    Found data base base name
| FoundNested data base d name txs tx :
    (forall sel, OwnerChecks.getFunctionSelector data = Some sel ->
                 mapGet OwnerChecks.OWNER_MODIFICATION_SELECTORS sel = None) ->
    decodeMultiSend data = Some txs ->
    In tx txs ->
    Found (bytesToHex (MultiSend.data tx)) (S base) d name ->
    Found data base d name.

(** A sub-call that the packed format can carry: a one-byte operation, a
    20-byte target, a value and a payload length below 2^256. *)
Definition wellFormed (tx : DecodedMultiSendTransaction) : Prop :=
  MultiSend.operation tx < 256
  /\ length (MultiSend.to tx) = 20%nat
  /\ MultiSend.value tx < 2 ^ 256
  /\ size (MultiSend.data tx) < 2 ^ 256.

(** The selector lookup of the owner check and the entry it records. *)
Definition ownerLookup (data : string) : option string :=
  match OwnerChecks.getFunctionSelector data with
  | Some sel => mapGet OwnerChecks.OWNER_MODIFICATION_SELECTORS sel
  | None => None
  end.

Definition ownerDetection (name : string) (depth : nat)
  : OwnerModificationDetection.t :=
  {| OwnerModificationDetection.functionName := name;
     OwnerModificationDetection.isNested := (0 <? depth)%nat;
     OwnerModificationDetection.depth := depth |}.

(** The lexicographic comparison of two triples of integers, with the
    results of [compareVersions]. *)
Definition compareTriples (p q : Z * Z * Z) : Z :=
  let '(a, b, c) := p in
  let '(x, y, z) := q in
  match (a ?= x)%Z with
  | Lt => (-1)%Z
  | Gt => 1%Z
  | Eq => match (b ?= y)%Z with
          | Lt => (-1)%Z
          | Gt => 1%Z
          | Eq => match (c ?= z)%Z with
                  | Lt => (-1)%Z
                  | Gt => 1%Z
                  | Eq => 0%Z
                  end
          end
  end.

(** The three hashes of a Safe transaction, by the two choices that
    depend on the version: the legacy domain separator (without the chain
    id) and the legacy type hash of the transaction. *)
Definition hashesOf (encodeAbiParameters : list AbiType -> list AbiArg -> Hex)
           (chainId : N) (safeAddress : Address) (txData : SafeTransactionData)
           (legacyDomain legacyMessage : bool) : SafeTxHashResult :=
  let domainHash :=
    if legacyDomain then
      keccak256 (encodeAbiParameters [bytes32; address]
                   [ArgHex DOMAIN_SEPARATOR_TYPEHASH_OLD;
                    ArgAddress safeAddress])
    else
      keccak256 (encodeAbiParameters [bytes32; uint256; address]
                   [ArgHex DOMAIN_SEPARATOR_TYPEHASH; ArgBigInt chainId;
                    ArgAddress safeAddress]) in
  let messageHash :=
    keccak256
      (encodeAbiParameters
         [bytes32; address; uint256; bytes32; uint8; uint256; uint256;
          uint256; address; address; uint256]
         [ArgHex (if legacyMessage then SAFE_TX_TYPEHASH_OLD
                  else SAFE_TX_TYPEHASH);
          ArgAddress (to txData); ArgBigInt (value txData);
          ArgHex (keccak256 (data txData)); ArgNumber (operation txData);
          ArgBigInt (safeTxGas txData); ArgBigInt (baseGas txData);
          ArgBigInt (gasPrice txData); ArgAddress (gasToken txData);
          ArgAddress (refundReceiver txData); ArgBigInt (nonce txData)]) in
  {| domainHash := domainHash;
     messageHash := messageHash;
     safeTxHash := keccak256 (concat [hex "0x1901"; domainHash; messageHash]) |}.

(** The selector lookups of the module and guard check. *)
Definition moduleLookup (data : string) : option string :=
  match ModuleGuardChecks.getFunctionSelector data with
  | Some sel => mapGet ModuleGuardChecks.MODULE_SELECTORS sel
  | None => None
  end.

Definition guardLookup (data : string) : option string :=
  match ModuleGuardChecks.getFunctionSelector data with
  | Some sel => mapGet ModuleGuardChecks.GUARD_SELECTORS sel
  | None => None
  end.

(** What a detection of the module and guard check looks like, found at
    nesting level [base] or deeper: the kind and name of its function,
    the nesting flag of its depth, and a trust flag that is only set for
    a decoded address of the module trust list. *)
Definition detectionOk (base : nat) (det : ModuleGuardDetection.t) : Prop :=
  ModuleGuardDetection.isNested det
  = (0 <? ModuleGuardDetection.depth det)%nat
  /\ (base <= ModuleGuardDetection.depth det)%nat
  /\ match ModuleGuardDetection.type det with
     | module => In (ModuleGuardDetection.functionName det)
                    MODULE_MANAGEMENT_FUNCTIONS
     | guard => In (ModuleGuardDetection.functionName det)
                   GUARD_MANAGEMENT_FUNCTIONS
     end
  /\ (ModuleGuardDetection.isTrusted det = true ->
      ModuleGuardDetection.type det = module
      /\ exists address,
           ModuleGuardDetection.targetAddress det = Some address
           /\ In (bytesToHex address) (map toLowerCase TRUSTED_MODULES)).

(** The keys of a tag map are distinct and in lower case. *)
Definition wellKeyed (tags : AddressTags) : Prop :=
  NoDup (map fst tags)
  /\ Forall (fun key => toLowerCase key = key) (map fst tags).

(* ===================================================================== *)
(** * Inputs of the examples                                              *)
(* ===================================================================== *)

Definition exampleTransfer : SafeTransactionData :=
  {| to := "0xA0b86991c6218b36c1d19D4a2e9Eb0cE3606eB48";
     value := 0;
     data := hex "0xa9059cbb00000000000000000000000012345678901234567890123456789012345678900000000000000000000000000000000000000000000000000000000000000064";
     operation := 0;
     safeTxGas := 0;
     baseGas := 0;
     gasPrice := 0;
     gasToken := ZERO_ADDRESS;
     refundReceiver := ZERO_ADDRESS;
     nonce := 1 |}.

Definition safeAddressBytes : Hex :=
  hex "0xf65475e74C1Ed6d004d5240b06E3088724dFDA5d".

Definition addOwnerCall : Hex :=
  hex "0x0d582f1300000000000000000000000012345678901234567890123456789012345678900000000000000000000000000000000000000000000000000000000000000002".

(** The same call as a caller may write it: the letters of the
    selector in upper case. *)
Definition addOwnerCallUpper : string :=
  "0x0D582F1300000000000000000000000012345678901234567890123456789012345678900000000000000000000000000000000000000000000000000000000000000002".

(** The batch of scenario 4, and the same text with the letters of the
    [multiSend] selector in upper case. *)
Definition addOwnerBatch : string :=
  encodeMultiSend
    [ {| MultiSend.operation := 0;
         MultiSend.to := safeAddressBytes;
         MultiSend.value := 0;
         MultiSend.data := addOwnerCall |} ].

Definition addOwnerBatchUpper : string :=
  ("0x8D80FF0A"
     ++ substring 10 (String.length addOwnerBatch - 10) addOwnerBatch)%string.

Definition exampleBatch : list DecodedMultiSendTransaction :=
  [ {| MultiSend.operation := 0;
       MultiSend.to := safeAddressBytes;
       MultiSend.value := 0;
       MultiSend.data := addOwnerCall |};
    {| MultiSend.operation := 1;
       MultiSend.to := safeAddressBytes;
       MultiSend.value := 1000000000000000000;
       MultiSend.data := [] |} ].

(** A packed payload whose only record announces 4 bytes of data and
    carries 2. *)
Definition truncatedPayload : Hex :=
  [x00] ++ safeAddressBytes ++ N_to_be 32 0 ++ N_to_be 32 4 ++ [x0d; x58].

(** A packed payload that ends inside the value field of its record. *)
Definition truncatedValue : Hex :=
  [x00] ++ safeAddressBytes ++ [x2a].

(** A stand-in for viem on calls whose parameters have the types address,
    bool, uintN and intN, enough to run the verifier on the calls of its
    test-suite: types are parsed from ["type name, type name"], integers
    from decimal digits, and a call is encoded as the selector of
    [method(types)] followed by one 32-byte word per argument. *)
Module MiniAbi.

Definition AbiParameters : Type := list string.
Definition Json : Type := unit.

Definition typeOf (piece : string) : string :=
  hd EmptyString (split " " (trimStart piece)).

Definition knownType (type : string) : bool :=
  String.eqb type "address" || String.eqb type "bool"
  || startsWith type "uint" || startsWith type "int".

Definition parseAbiParameters (text : string) : Exc AbiParameters :=
  mapM (fun piece =>
          let type := typeOf piece in
          if knownType type then Return type
          else Throw ("Unknown type: " ++ type)%string)
       (split "," text).

Definition BigInt (text : string) : Exc Z :=
  if allDigits text then Return (Z.of_N (digitsValue 0 text))
  else Throw ("Cannot convert " ++ text ++ " to a BigInt")%string.

Definition JSON_parse (text : string) : Exc Json :=
  Throw "Unexpected token in JSON".

Definition isArray (_ : Json) : bool := false.

Definition encodeWord (type : string) (arg : Arg Json) : Exc Hex :=
  match arg with
  | ArgText _ text =>
      match hexToBytes text with
      | Some bytes =>
          if String.eqb type "address" && (length bytes =? 20)%nat
          then Return (repeat x00 12 ++ bytes)
          else Throw ("Address " ++ text ++ " is invalid")%string
      | None => Throw ("Address " ++ text ++ " is invalid")%string
      end
  | ArgInteger _ z =>
      if (0 <=? z)%Z && (z <? 2 ^ 256)%Z
      then Return (N_to_be 32 (Z.to_N z))
      else Throw "Number is not in safe 256-bit unsigned integer range"
  | ArgBool _ b => Return (N_to_be 32 (if b then 1 else 0))
  | _ => Throw "Unsupported argument"
  end.

Fixpoint encodeWords (types : list string) (args : list (Arg Json))
  : Exc Hex :=
  match types, args with
  | [], [] => Return []
  | type :: types', arg :: args' =>
      word <- encodeWord type arg ;;
      others <- encodeWords types' args' ;;
      Return (word ++ others)
  | _, _ => Throw "ABI encoding params/values length mismatch"
  end.

Definition encodeFunctionData (method : string) (types : AbiParameters)
           (args : list (Arg Json)) : Exc string :=
  words <- encodeWords types args ;;
  Return (bytesToHex
            (toFunctionSelector (method ++ "(" ++ join "," types ++ ")")%string
               ++ words)).

Definition verifyDecodedData :=
  verifyDecodedData parseAbiParameters BigInt JSON_parse isArray
                    encodeFunctionData.

End MiniAbi.

Definition transferRaw : string :=
  "0xa9059cbb000000000000000000000000d8da6bf26964af9d7eed9e03e53415d37aa960450000000000000000000000000000000000000000000000000de0b6b3a7640000".

Definition transferClaim (amount : string) : SafeApiDataDecoded.t :=
  {| SafeApiDataDecoded.method := "transfer";
     SafeApiDataDecoded.parameters :=
       [ {| SafeApiParameter.name := "to";
            SafeApiParameter.type := "address";
            SafeApiParameter.value :=
              "0xd8dA6BF26964aF9D7eEd9e03E53415D37aA96045" |};
         {| SafeApiParameter.name := "value";
            SafeApiParameter.type := "uint256";
            SafeApiParameter.value := amount |} ] |}.

Definition enableModuleCall : Hex :=
  hex "0x610b59250000000000000000000000001234567890123456789012345678901234567890".

(** The same call with the letters of its selector in upper case. *)
Definition enableModuleCallUpper : string :=
  "0x610B59250000000000000000000000001234567890123456789012345678901234567890".

Definition plainRecord (to : Address) (data : Hex) (operation : N)
  : SafeTransactionData :=
  {| to := to; value := 0; data := data; operation := operation;
     safeTxGas := 0; baseGas := 0; gasPrice := 0;
     gasToken := ZERO_ADDRESS; refundReceiver := ZERO_ADDRESS; nonce := 1 |}.

(* ===================================================================== *)
(** * Properties: strings and versions                                    *)
(* ===================================================================== *)

Lemma split_nonempty sep s : split sep s <> [].
Proof.
  destruct s as [| c rest]; simpl; [discriminate |].
  destruct (Ascii.eqb c sep); [discriminate |].
  destruct (split sep rest); discriminate.
Qed.

Lemma split_app_sep sep a r :
  split sep (a ++ String sep r)%string = split sep a ++ split sep r.
Proof.
  induction a as [| c a IH]; simpl.
  - rewrite Ascii.eqb_refl. reflexivity.
  - destruct (Ascii.eqb c sep).
    + rewrite IH. reflexivity.
    + rewrite IH. pose proof (split_nonempty sep a) as Hne.
      destruct (split sep a) as [| p ps]; [congruence |]. reflexivity.
Qed.

Lemma split_noChar sep s : noChar sep s = true -> split sep s = [s].
Proof.
  induction s as [| c s IH]; simpl; [reflexivity |].
  destruct (Ascii.eqb c sep); simpl; [discriminate |].
  intro H. rewrite (IH H). reflexivity.
Qed.

Lemma hd_split_app sep a X :
  hd EmptyString (split sep (a ++ String sep X)%string)
  = hd EmptyString (split sep a).
Proof.
  rewrite split_app_sep. pose proof (split_nonempty sep a) as Hne.
  destruct (split sep a); [congruence | reflexivity].
Qed.

Lemma getVersion_hd version :
  getVersion version = hd EmptyString (split "+" version).
Proof.
  unfold getVersion. destruct (split "+" version) as [| p ps]; [reflexivity |].
  destruct p; reflexivity.
Qed.

Lemma getVersion_suffix v X :
  getVersion (v ++ "+" ++ X)%string = getVersion v.
Proof. rewrite !getVersion_hd. apply (hd_split_app "+"%char). Qed.

Lemma getVersion_clean v : noChar "+" v = true -> getVersion v = v.
Proof.
  intro H. rewrite getVersion_hd, (split_noChar _ _ H). reflexivity.
Qed.

Lemma allDigits_noChar c s :
  isDigit c = false -> allDigits s = true -> noChar c s = true.
Proof.
  intro Hc. induction s as [| x s IH]; simpl; [reflexivity |].
  intro H. apply andb_true_iff in H. destruct H as [Hx Hs].
  rewrite (IH Hs), andb_true_r.
  destruct (Ascii.eqb_spec x c) as [-> |]; [congruence | reflexivity].
Qed.

Lemma noChar_app c a b :
  noChar c (a ++ b)%string = noChar c a && noChar c b.
Proof.
  induction a as [| x a IH]; simpl; [reflexivity |].
  rewrite IH, andb_assoc. reflexivity.
Qed.

Lemma isComponent_digits s : isComponent s = true -> allDigits s = true.
Proof. unfold isComponent. intro H. apply andb_true_iff in H. tauto. Qed.

Lemma split_triple a b c :
  isComponent a = true -> isComponent b = true -> noChar "." c = true ->
  split "." (triple a b c) = [a; b; c].
Proof.
  intros Ha Hb Hc. unfold triple. simpl.
  rewrite split_app_sep, split_app_sep.
  rewrite (split_noChar _ a), (split_noChar _ b), (split_noChar _ _ Hc);
    [reflexivity | |];
    apply allDigits_noChar; auto using isComponent_digits.
Qed.

Lemma triple_noPlus a b c :
  isComponent a = true -> isComponent b = true -> isComponent c = true ->
  noChar "+" (triple a b c) = true.
Proof.
  intros Ha Hb Hc. unfold triple.
  rewrite !noChar_app. simpl.
  rewrite !(allDigits_noChar "+"%char) by auto using isComponent_digits.
  reflexivity.
Qed.

Lemma isDigit_not_whiteSpace c : isDigit c = true -> isWhiteSpace c = false.
Proof.
  unfold isDigit, isWhiteSpace. intro H. apply andb_true_iff in H.
  destruct H as [H1 H2]. apply N.leb_le in H1, H2.
  apply orb_false_iff. split.
  - apply andb_false_iff. right. apply N.leb_gt. lia.
  - apply N.eqb_neq. lia.
Qed.

Lemma isDigit_not_char c x :
  isDigit x = false -> isDigit c = true -> Ascii.eqb c x = false.
Proof.
  intros Hx Hc. destruct (Ascii.eqb_spec c x) as [-> |]; congruence.
Qed.

Lemma trimEnd_keeps a c b :
  isWhiteSpace c = false ->
  trimEnd (a ++ String c b)%string = (a ++ String c (trimEnd b))%string.
Proof.
  intro Hc. induction a as [| x a IH]; cbn [append trimEnd].
  - rewrite Hc. destruct (trimEnd b); reflexivity.
  - rewrite IH. destruct a; reflexivity.
Qed.

Lemma trimEnd_digits s : allDigits s = true -> trimEnd s = s.
Proof.
  induction s as [| c s IH]; cbn [allDigits trimEnd]; [reflexivity |].
  intro H. apply andb_true_iff in H. destruct H as [Hc Hs].
  rewrite (IH Hs), (isDigit_not_whiteSpace _ Hc). destruct s; reflexivity.
Qed.

Lemma spanDigits_app p others :
  allDigits p = true ->
  (forall c rest, others = String c rest -> isDigit c = false) ->
  spanDigits (p ++ others)%string = (p, others).
Proof.
  intros Hp Hothers. induction p as [| x p IH]; cbn [append].
  - destruct others as [| c rest]; [reflexivity |].
    cbn [spanDigits]. now rewrite (Hothers c rest eq_refl).
  - cbn [allDigits] in Hp. apply andb_true_iff in Hp. destruct Hp as [Hx Hp].
    cbn [spanDigits]. rewrite Hx, (IH Hp). reflexivity.
Qed.

(** A text that starts with a digit and goes on with a digit, with [+] or
    not at all is not a radix literal. *)
Lemma radixLiteral_none c rest :
  isDigit c = true ->
  (forall p more, rest = String p more ->
                  isDigit p = true \/ p = "+"%char) ->
  radixLiteral (String c rest) = None.
Proof.
  intros Hc Hrest. unfold radixLiteral.
  destruct (Ascii.eqb_spec c "0") as [-> | Hne].
  - destruct rest as [| p more]; [reflexivity |].
    destruct (Hrest p more eq_refl) as [Hp | ->]; [| reflexivity].
    rewrite !(isDigit_not_char p) by (auto; reflexivity). reflexivity.
  - destruct c as [[] [] [] [] [] [] [] []]; try reflexivity; congruence.
Qed.

Lemma unsignedDecimal_digit_first c rest :
  isDigit c = true ->
  String.eqb (String c rest) "Infinity" = false.
Proof.
  intro Hc. cbn. now rewrite (isDigit_not_char c "I"%char) by (auto; reflexivity).
Qed.

Lemma append_nil_r (s : string) : (s ++ "")%string = s.
Proof. induction s as [| c s IH]; simpl; [reflexivity | now rewrite IH]. Qed.

Lemma Number_component s :
  allDigits s = true -> Number s = Finite (inject_Z (componentValue s)).
Proof.
  intro Hs. unfold Number.
  destruct s as [| c rest]; [reflexivity |].
  pose proof Hs as Hs'. cbn [allDigits] in Hs'.
  apply andb_true_iff in Hs'. destruct Hs' as [Hc Hrest].
  cbn [trimStart]. rewrite (isDigit_not_whiteSpace _ Hc).
  rewrite (trimEnd_digits _ Hs).
  assert (Hne : String.eqb (String c rest) "" = false) by reflexivity.
  rewrite Hne, radixLiteral_none; auto.
  - assert (Hbody : unsignedDecimal (String c rest)
                    = Finite (inject_Z (componentValue (String c rest)))).
    { unfold unsignedDecimal. rewrite (unsignedDecimal_digit_first _ rest Hc).
      rewrite <- (append_nil_r (String c rest)) at 1.
      rewrite spanDigits_app by (auto; discriminate).
      rewrite Hne. reflexivity. }
    rewrite <- Hbody. clear Hbody.
    destruct c as [[] [] [] [] [] [] [] []]; try reflexivity;
      cbv in Hc; discriminate.
  - intros p more ->. cbn [allDigits] in Hrest.
    apply andb_true_iff in Hrest. tauto.
Qed.

Lemma allDigits_app a b :
  allDigits (a ++ b)%string = allDigits a && allDigits b.
Proof.
  induction a as [| x a IH]; simpl; [reflexivity |].
  rewrite IH, andb_assoc. reflexivity.
Qed.

(** A component followed by [+] and a tag is not a number. *)
Lemma Number_tagged p tag :
  isComponent p = true -> Number (p ++ "+" ++ tag)%string = NaN.
Proof.
  intro Hp. unfold isComponent in Hp. apply andb_true_iff in Hp.
  destruct Hp as [Hne Hdigits].
  destruct p as [| c rest]; [discriminate |].
  pose proof Hdigits as Hd. cbn [allDigits] in Hd.
  apply andb_true_iff in Hd. destruct Hd as [Hc Hrest].
  unfold Number.
  change (String c rest ++ "+" ++ tag)%string
    with (String c (rest ++ String "+" tag))%string.
  cbn [trimStart]. rewrite (isDigit_not_whiteSpace _ Hc).
  change (String c (rest ++ String "+" tag))%string
    with (String c rest ++ String "+" tag)%string.
  rewrite trimEnd_keeps by reflexivity.
  change (String c rest ++ String "+" (trimEnd tag))%string
    with (String c (rest ++ String "+" (trimEnd tag)))%string.
  assert (Hne' : String.eqb (String c (rest ++ String "+" (trimEnd tag))) ""
                 = false) by reflexivity.
  rewrite Hne', radixLiteral_none; auto.
  - assert (Hbody : unsignedDecimal (String c (rest ++ String "+" (trimEnd tag)))
                    = NaN).
    { unfold unsignedDecimal. rewrite (unsignedDecimal_digit_first _ _ Hc).
      change (String c (rest ++ String "+" (trimEnd tag)))%string
        with (String c rest ++ String "+" (trimEnd tag))%string.
      rewrite spanDigits_app;
        [reflexivity | exact Hdigits
         | intros x more E; injection E as <- _; reflexivity]. }
    rewrite <- Hbody. clear Hbody.
    destruct c as [[] [] [] [] [] [] [] []]; try reflexivity;
      cbv in Hc; discriminate.
  - intros x more E. destruct rest as [| y rest'].
    + injection E as <- _. now right.
    + injection E as <- _. cbn [allDigits] in Hrest.
      apply andb_true_iff in Hrest. tauto.
Qed.

Lemma jsLt_irrefl x : jsLt x x = false.
Proof.
  destruct x as [| q | |]; cbn; try reflexivity.
  apply negb_false_iff. apply Qle_bool_iff. apply Qle_refl.
Qed.

Lemma jsLt_inject a b :
  jsLt (Finite (inject_Z a)) (Finite (inject_Z b)) = (a <? b)%Z.
Proof.
  cbn. unfold Qle_bool. cbn. rewrite !Z.mul_1_r.
  now rewrite Z.ltb_antisym.
Qed.

Lemma orZero_inject z :
  orZero (Some (Finite (inject_Z z))) = Finite (inject_Z z).
Proof.
  cbn. unfold Qeq_bool. cbn. rewrite Z.mul_1_r.
  destruct (Z.eqb_spec z 0) as [-> | _]; reflexivity.
Qed.

(** The loop returns 0 on two lists whose components, read through
    [|| 0], agree at every index. *)
Lemma compareFrom_agree todo i parts1 parts2 :
  (forall j, orZero (nth_error parts1 j) = orZero (nth_error parts2 j)) ->
  compareFrom todo i parts1 parts2 = 0%Z.
Proof.
  intro H. revert i. induction todo as [| todo IH]; intro i; simpl.
  - reflexivity.
  - unfold jsGt. rewrite H, jsLt_irrefl. apply IH.
Qed.

Lemma compareVersions_refl v : compareVersions v v = 0%Z.
Proof. unfold compareVersions. apply compareFrom_agree. reflexivity. Qed.


Lemma append_assoc (a b c : string) :
  ((a ++ b) ++ c = a ++ (b ++ c))%string.
Proof. induction a as [| x a IH]; simpl; [reflexivity | now rewrite IH]. Qed.


Lemma orZero_nth_snoc l x j :
  orZero (Some x) = Finite 0 ->
  orZero (nth_error (l ++ [x]) j) = orZero (nth_error l j).
Proof.
  intro Hx. revert j. induction l as [| z l IH]; intro j.
  - destruct j as [| [| j]]; [exact Hx | reflexivity | reflexivity].
  - destruct j; simpl; [reflexivity | apply IH].
Qed.

(** A missing trailing component counts as 0. *)
Lemma compareVersions_missing_zero v :
  compareVersions v (v ++ ".0")%string = 0%Z.
Proof.
  unfold compareVersions.
  change (v ++ ".0")%string with (v ++ String "." "0")%string.
  rewrite split_app_sep, map_app.
  change (map Number (split "." "0")) with [Number "0"].
  apply compareFrom_agree. intro j. symmetry.
  apply orZero_nth_snoc. reflexivity.
Qed.

Lemma componentValue_nonneg c : (0 <= componentValue c)%Z.
Proof. unfold componentValue. lia. Qed.

(** On a tagged triple the comparison with the cleaned version sees the
    last component as NaN, hence as 0. *)
Lemma compareVersions_tagged a b c tag :
  isComponent a = true -> isComponent b = true -> isComponent c = true ->
  noChar "." tag = true ->
  compareVersions (triple a b c ++ "+" ++ tag)%string
                  (getVersion (triple a b c ++ "+" ++ tag)%string)
  = if (0 <? componentValue c)%Z then (-1)%Z else 0%Z.
Proof.
  intros Ha Hb Hc Htag.
  rewrite getVersion_suffix, getVersion_clean by now apply triple_noPlus.
  assert (Hre : (triple a b c ++ "+" ++ tag)%string
                = triple a b (c ++ "+" ++ tag)%string).
  { unfold triple. now rewrite !append_assoc. }
  rewrite Hre. unfold compareVersions.
  rewrite !split_triple; auto.
  - cbn [map]. rewrite Number_tagged by assumption.
    rewrite !Number_component by auto using isComponent_digits.
    cbn [length Nat.max compareFrom nth_error]. unfold jsGt.
    rewrite !orZero_inject, !jsLt_irrefl.
    change (orZero (Some NaN)) with (Finite (inject_Z 0)).
    rewrite !jsLt_inject.
    pose proof (componentValue_nonneg c) as Hnn.
    destruct (componentValue c <? 0)%Z eqn:E; [lia |].
    destruct (0 <? componentValue c)%Z; reflexivity.
  - apply allDigits_noChar; auto using isComponent_digits.
  - rewrite noChar_app. simpl. rewrite Htag.
    rewrite (allDigits_noChar "."%char) by auto using isComponent_digits.
    reflexivity.
Qed.


(* ===================================================================== *)
(** * Properties: SemVer comparator (hash/version.ts)                     *)
(* ===================================================================== *)

(** C9 (as amended).  For every dotted triple [v] of components, with or
    without a [+tag]: cleaning [v ++ "+X"] gives what cleaning [v] gives;
    [compareVersions v (getVersion v)] is 0 when [v] carries no tag; when
    [v] carries a tag (without dots) the comparison reads the tagged last
    component as 0, so the result is 0 if the patch component is 0 and -1
    otherwise; a missing trailing component counts as 0, so ["1.3"] and
    ["1.3.0"] compare equal. *)
Theorem version_clean_compare (a b c : string) :
  isComponent a = true -> isComponent b = true -> isComponent c = true ->
  (forall X, getVersion (triple a b c ++ "+" ++ X)%string
             = getVersion (triple a b c))
  /\ (forall tag X,
         getVersion ((triple a b c ++ "+" ++ tag) ++ "+" ++ X)%string
         = getVersion (triple a b c ++ "+" ++ tag)%string)
  /\ compareVersions (triple a b c) (getVersion (triple a b c)) = 0%Z
  /\ (forall tag, noChar "." tag = true ->
         compareVersions (triple a b c ++ "+" ++ tag)%string
                         (getVersion (triple a b c ++ "+" ++ tag)%string)
         = if (0 <? componentValue c)%Z then (-1)%Z else 0%Z)
  /\ compareVersions (a ++ "." ++ b)%string (triple a b "0") = 0%Z
  /\ compareVersions "1.3" "1.3.0" = 0%Z.
Proof.
  intros Ha Hb Hc. repeat split.
  - intro X. apply getVersion_suffix.
  - intros tag X. apply getVersion_suffix.
  - rewrite getVersion_clean by now apply triple_noPlus.
    apply compareVersions_refl.
  - intros tag Htag. now apply compareVersions_tagged.
  - replace (triple a b "0") with ((a ++ "." ++ b) ++ ".0")%string
      by (unfold triple; now rewrite !append_assoc).
    apply compareVersions_missing_zero.
Qed.

Lemma version_clean_compare_witness :
  isComponent "1" = true /\ isComponent "4" = true
  /\ compareVersions (triple "1" "4" "1" ++ "+" ++ "L2")%string
                     (getVersion (triple "1" "4" "1" ++ "+" ++ "L2")%string)
     = (-1)%Z.
Proof.
  split; [reflexivity | split; [reflexivity |]].
  exact (proj1 (proj2 (proj2 (proj2
           (version_clean_compare "1" "4" "1" eq_refl eq_refl eq_refl))))
         "L2" eq_refl).
Defined.

(** C9, as stated, fails: ["1.4.1+L2"] is a valid version string and does
    not compare equal to its cleaned form. *)
Lemma version_compare_clean_counterexample :
  validVersion "1.4.1+L2" = true
  /\ compareVersions "1.4.1+L2" (getVersion "1.4.1+L2") <> 0%Z.
Proof. split; [reflexivity | vm_compute; discriminate]. Qed.




(** On a dotted triple the comparison with ["1.2.0"] is the lexicographic
    comparison of the component values with (1, 2, 0). *)
Lemma isVersionLte_1_2_0 a b c :
  isComponent a = true -> isComponent b = true -> isComponent c = true ->
  isVersionLte (triple a b c) "1.2.0" = true
  <-> (componentValue a < 1
       \/ (componentValue a = 1
           /\ (componentValue b < 2
               \/ (componentValue b = 2 /\ componentValue c <= 0))))%Z.
Proof.
  intros Ha Hb Hc. unfold isVersionLte, compareVersions.
  rewrite split_triple by
    (auto; apply allDigits_noChar; auto using isComponent_digits).
  cbn [map]. rewrite !Number_component by auto using isComponent_digits.
  change (split "." "1.2.0") with ["1"; "2"; "0"]. cbn [map].
  change (Number "1") with (Finite (inject_Z 1)).
  change (Number "2") with (Finite (inject_Z 2)).
  change (Number "0") with (Finite (inject_Z 0)).
  cbn [length Nat.max compareFrom nth_error]. unfold jsGt.
  rewrite !orZero_inject, !jsLt_inject.
  generalize (componentValue a) (componentValue b) (componentValue c).
  intros x y z.
  destruct (Z.ltb_spec 1 x), (Z.ltb_spec x 1),
           (Z.ltb_spec 2 y), (Z.ltb_spec y 2),
           (Z.ltb_spec 0 z), (Z.ltb_spec z 0);
    cbn; split; intro Hgoal; try discriminate; try reflexivity; try lia.
Qed.

(* ===================================================================== *)
(** * Properties: hash calculator (hash/domain.ts, hash/calculator.ts)    *)
(* ===================================================================== *)

Arguments keccak256 : simpl never.

(** C2.  [calculateDomainHash] hashes the encoding of (legacy type hash,
    safeAddress) when the cleaned version is at most 1.2.0 and the encoding
    of (current type hash, chainId, safeAddress) for every later version;
    in the first case the result does not depend on [chainId].  On a dotted
    triple, with or without a tag, "at most 1.2.0" is the lexicographic
    order of the components. *)
Theorem calculateDomainHash_by_version
        (encodeAbiParameters : list AbiType -> list AbiArg -> Hex)
        (chainId : N) (safeAddress : Address) (version : string) :
  calculateDomainHash encodeAbiParameters chainId safeAddress version
  = (if isVersionLte (getVersion version) "1.2.0"
     then keccak256 (encodeAbiParameters [bytes32; address]
                       [ArgHex DOMAIN_SEPARATOR_TYPEHASH_OLD;
                        ArgAddress safeAddress])
     else keccak256 (encodeAbiParameters [bytes32; uint256; address]
                       [ArgHex DOMAIN_SEPARATOR_TYPEHASH;
                        ArgBigInt chainId; ArgAddress safeAddress]))
  /\ (isVersionLte (getVersion version) "1.2.0" = true ->
      forall chainId',
        calculateDomainHash encodeAbiParameters chainId' safeAddress version
        = calculateDomainHash encodeAbiParameters chainId safeAddress version)
  /\ (forall a b c tag,
         isComponent a = true -> isComponent b = true ->
         isComponent c = true ->
         version = triple a b c \/ version = (triple a b c ++ "+" ++ tag)%string ->
         (isVersionLte (getVersion version) "1.2.0" = true
          <-> (componentValue a < 1
               \/ (componentValue a = 1
                   /\ (componentValue b < 2
                       \/ (componentValue b = 2
                           /\ componentValue c <= 0))))%Z)).
Proof.
  split; [reflexivity |]. split.
  - intros Hle chainId'. unfold calculateDomainHash. rewrite Hle. reflexivity.
  - intros a b c tag Ha Hb Hc [-> | ->].
    + rewrite getVersion_clean by now apply triple_noPlus.
      now apply isVersionLte_1_2_0.
    + rewrite getVersion_suffix, getVersion_clean by now apply triple_noPlus.
      now apply isVersionLte_1_2_0.
Qed.




(** A version that [validateVersion] rejects makes the calculation throw
    the same error. *)
Lemma calculateSafeTxHash_rejects encodeAbiParameters chainId safeAddress
      txData version message :
  validateVersion version = Throw message ->
  calculateSafeTxHash encodeAbiParameters chainId safeAddress txData version
  = Throw message.
Proof. intro H. unfold calculateSafeTxHash. rewrite H. reflexivity. Qed.

(* ===================================================================== *)
(** * Properties: gas-token check and combiner (security/)                *)
(* ===================================================================== *)

Lemma toLowerCase_idempotent s : toLowerCase (toLowerCase s) = toLowerCase s.
Proof.
  induction s as [| c s IH]; simpl; [reflexivity |]. rewrite IH. f_equal.
  unfold lowerChar.
  destruct ((65 <=? N_of_ascii c) && (N_of_ascii c <=? 90)) eqn:E.
  - apply andb_true_iff in E. destruct E as [E1 E2].
    apply N.leb_le in E1, E2.
    rewrite N_ascii_embedding by lia.
    replace (N_of_ascii c + 32 <=? 90) with false
      by (symmetry; apply N.leb_gt; lia).
    rewrite andb_false_r. reflexivity.
  - rewrite E. reflexivity.
Qed.

(** C4.  The risk level of [checkGasTokenAttack] by combination, where an
    address is custom when it differs from the zero address up to the case
    of its letters: both custom and a non-zero gas price give [critical]
    with exactly two warnings, the second about the non-zero gas price;
    both custom and a zero gas price give [high] with one warning; only the
    gas token custom gives [medium]; only the refund receiver custom gives
    [low]; neither gives [none] with no warning. *)
Theorem checkGasTokenAttack_levels
        (gasPrice : N) (gasToken refundReceiver : Address) :
  let r := checkGasTokenAttack gasPrice gasToken refundReceiver in
  GasTokenCheckResult.usesCustomGasToken r = negb (isZeroAddress gasToken)
  /\ GasTokenCheckResult.usesCustomRefundReceiver r
     = negb (isZeroAddress refundReceiver)
  /\ GasTokenCheckResult.usesCustomGasToken r
     = GasTokenCheckResult.usesCustomGasToken
         (checkGasTokenAttack gasPrice (toLowerCase gasToken) refundReceiver)
  /\ GasTokenCheckResult.usesCustomRefundReceiver r
     = GasTokenCheckResult.usesCustomRefundReceiver
         (checkGasTokenAttack gasPrice gasToken (toLowerCase refundReceiver))
  /\ (isZeroAddress gasToken = false -> isZeroAddress refundReceiver = false ->
      gasPrice <> 0 ->
      GasTokenCheckResult.riskLevel r = Critical
      /\ exists first second,
           GasTokenCheckResult.warnings r = [first; second]
           /\ contains "non-zero" second = true
           /\ contains "gas price" second = true)
  /\ (isZeroAddress gasToken = false -> isZeroAddress refundReceiver = false ->
      gasPrice = 0 ->
      GasTokenCheckResult.riskLevel r = High
      /\ exists only, GasTokenCheckResult.warnings r = [only])
  /\ (isZeroAddress gasToken = false -> isZeroAddress refundReceiver = true ->
      GasTokenCheckResult.riskLevel r = Medium)
  /\ (isZeroAddress gasToken = true -> isZeroAddress refundReceiver = false ->
      GasTokenCheckResult.riskLevel r = Low)
  /\ (isZeroAddress gasToken = true -> isZeroAddress refundReceiver = true ->
      GasTokenCheckResult.riskLevel r = RiskNone
      /\ GasTokenCheckResult.warnings r = []).
Proof.
  unfold checkGasTokenAttack, isZeroAddress.
  rewrite !toLowerCase_idempotent.
  destruct (String.eqb (toLowerCase gasToken) (toLowerCase ZERO_ADDRESS));
    destruct (String.eqb (toLowerCase refundReceiver)
                         (toLowerCase ZERO_ADDRESS));
    destruct (N.ltb_spec 0 gasPrice) as [Hpos | Hzero];
    cbn -[contains GAS_WARNING_BOTH GAS_WARNING_PRICE];
    repeat match goal with |- _ /\ _ => split end;
    try reflexivity; try discriminate; intros; try lia;
    try (split; reflexivity).
  - split; [reflexivity |].
    exists GAS_WARNING_BOTH, GAS_WARNING_PRICE.
    repeat split; reflexivity.
  - split; [reflexivity |]. exists GAS_WARNING_BOTH. reflexivity.
Qed.

(** The five scenarios of the test-suite. *)
Example checkGasTokenAttack_scenarios :
  let usdc : Address := "0xA0b86991c6218b36c1d19D4a2e9Eb0cE3606eB48" in
  let other : Address := "0x1234567890123456789012345678901234567890" in
  GasTokenCheckResult.riskLevel (checkGasTokenAttack 1000000000 usdc other)
  = Critical
  /\ length (GasTokenCheckResult.warnings
               (checkGasTokenAttack 1000000000 usdc other)) = 2%nat
  /\ GasTokenCheckResult.riskLevel (checkGasTokenAttack 0 usdc other) = High
  /\ GasTokenCheckResult.riskLevel (checkGasTokenAttack 0 usdc ZERO_ADDRESS)
     = Medium
  /\ GasTokenCheckResult.riskLevel (checkGasTokenAttack 0 ZERO_ADDRESS other)
     = Low
  /\ GasTokenCheckResult.riskLevel
       (checkGasTokenAttack 0 ZERO_ADDRESS ZERO_ADDRESS) = RiskNone.
Proof. repeat split. Qed.

Lemma checkDelegateCall_warning operation to :
  DelegateCallCheckResult.warning (checkDelegateCall operation to) <> None
  <-> DelegateCallCheckResult.warningLevel (checkDelegateCall operation to)
      <> None.
Proof.
  unfold checkDelegateCall.
  destruct (operation =? OperationType.DelegateCall);
    [destruct (isTrustedForDelegateCall to) |];
    cbn [negb DelegateCallCheckResult.warning
         DelegateCallCheckResult.warningLevel];
    split; intro H; congruence.
Qed.

Lemma length_positive {A} (l : list A) :
  (0 <? length l)%nat = true <-> l <> [].
Proof.
  destruct l; cbn; split; intro H; congruence.
Qed.

Lemma checkOwnerModifications_matched data :
  OwnerModificationCheckResult.modifiesOwners
    (OwnerChecks.checkOwnerModifications data) = true
  <-> OwnerModificationCheckResult.modifications
        (OwnerChecks.checkOwnerModifications data) <> [].
Proof.
  unfold OwnerChecks.checkOwnerModifications.
  destruct (OwnerChecks.checkTransactionData data 0); cbn;
    split; intro H; congruence.
Qed.

Lemma checkModuleGuardOperations_matched decodeFunctionData data :
  let mg :=
    ModuleGuardChecks.checkModuleGuardOperations decodeFunctionData data in
  (ModuleGuardCheckResult.hasModuleOperation mg = true
   \/ ModuleGuardCheckResult.hasGuardOperation mg = true)
  <-> ModuleGuardCheckResult.detections mg <> [].
Proof.
  unfold ModuleGuardChecks.checkModuleGuardOperations.
  destruct (ModuleGuardChecks.checkTransactionData decodeFunctionData data 0)
    as [| d ds]; cbn -[Nat.ltb].
  - split; [intros [H | H]; discriminate | congruence].
  - split; [discriminate | intros _].
    unfold ModuleGuardChecks.isModule, ModuleGuardChecks.isGuard.
    destruct (ModuleGuardDetection.type d); cbn; auto.
Qed.

(** C5.  The verdict of [analyzeSecurity] holds the results of the four
    checks on the record; [overallRisk] is the maximum of their severities
    in the order none < low < medium < high < critical, and
    [requiresCarefulReview] is true exactly when [overallRisk] is high or
    critical, or the delegate-call check produced a warning, or the
    gas-token warnings are not empty, or the owner check matched, or the
    module/guard check matched. *)
Theorem analyzeSecurity_combiner
        (decodeFunctionData : nat -> string -> Exc (list Hex))
        (txData : SafeTransactionData) :
  let r := analyzeSecurity decodeFunctionData txData in
  let dc := checkDelegateCall (operation txData) (to txData) in
  let gt := checkGasTokenAttack (gasPrice txData) (gasToken txData)
                                (refundReceiver txData) in
  let om :=
    OwnerChecks.checkOwnerModifications (bytesToHex (data txData)) in
  let mg :=
    ModuleGuardChecks.checkModuleGuardOperations
      decodeFunctionData (bytesToHex (data txData)) in
  SecurityAnalysisResult.delegateCall r = dc
  /\ SecurityAnalysisResult.gasToken r = gt
  /\ SecurityAnalysisResult.ownerModification r = om
  /\ SecurityAnalysisResult.moduleGuard r = mg
  /\ SecurityAnalysisResult.overallRisk r
     = riskMax
         (riskMax (severity (DelegateCallCheckResult.warningLevel dc))
                  (GasTokenCheckResult.riskLevel gt))
         (riskMax
            (severity (Some (OwnerModificationCheckResult.warningLevel om)))
            (severity (Some (ModuleGuardCheckResult.warningLevel mg))))
  /\ (SecurityAnalysisResult.requiresCarefulReview r = true
      <-> (SecurityAnalysisResult.overallRisk r = High
           \/ SecurityAnalysisResult.overallRisk r = Critical
           \/ DelegateCallCheckResult.warning dc <> None
           \/ GasTokenCheckResult.warnings gt <> []
           \/ OwnerModificationCheckResult.modifications om <> []
           \/ ModuleGuardCheckResult.detections mg <> [])).
Proof.
  cbv zeta.
  repeat match goal with |- _ /\ _ => split end; try reflexivity.
  - unfold analyzeSecurity. cbn [SecurityAnalysisResult.overallRisk].
    destruct (DelegateCallCheckResult.warningLevel
                (checkDelegateCall (operation txData) (to txData)))
      as [[] |];
      destruct (GasTokenCheckResult.riskLevel
                  (checkGasTokenAttack (gasPrice txData) (gasToken txData)
                                       (refundReceiver txData)));
      destruct (OwnerModificationCheckResult.warningLevel
                  (OwnerChecks.checkOwnerModifications
                     (bytesToHex (data txData))));
      destruct (ModuleGuardCheckResult.warningLevel
                  (ModuleGuardChecks.checkModuleGuardOperations
                     decodeFunctionData (bytesToHex (data txData))));
      reflexivity.
  - rewrite (checkDelegateCall_warning (operation txData) (to txData)).
    rewrite <- (checkOwnerModifications_matched (bytesToHex (data txData))).
    rewrite <- (checkModuleGuardOperations_matched decodeFunctionData
                  (bytesToHex (data txData))).
    rewrite <- length_positive.
    unfold analyzeSecurity.
    cbn [SecurityAnalysisResult.overallRisk
           SecurityAnalysisResult.requiresCarefulReview].
    match goal with
    | |- context [riskIs ?o WCritical] => generalize o
    end.
    intro o.
    destruct (DelegateCallCheckResult.warningLevel
                (checkDelegateCall (operation txData) (to txData)))
      as [w |];
      destruct (0 <? length (GasTokenCheckResult.warnings
                               (checkGasTokenAttack (gasPrice txData)
                                  (gasToken txData) (refundReceiver txData))))%nat;
      destruct (OwnerModificationCheckResult.modifiesOwners
                  (OwnerChecks.checkOwnerModifications
                     (bytesToHex (data txData))));
      destruct (ModuleGuardCheckResult.hasModuleOperation
                  (ModuleGuardChecks.checkModuleGuardOperations
                     decodeFunctionData (bytesToHex (data txData))));
      destruct (ModuleGuardCheckResult.hasGuardOperation
                  (ModuleGuardChecks.checkModuleGuardOperations
                     decodeFunctionData (bytesToHex (data txData))));
      destruct o; cbn; intuition congruence.
Qed.

(* ===================================================================== *)
(** * Properties: bytes                                                   *)
(* ===================================================================== *)

Lemma decodePacked_cons op afterOp :
  decodePacked (op :: afterOp)
  = match readRecord op afterOp with
    | Throw e => Throw e
    | Return (tx, None) => Return [tx]
    | Return (tx, Some rest') =>
        transactions <- decodePacked rest' ;; Return (tx :: transactions)
    end.
Proof.
  simp decodePacked. unfold inspect.
  assert (Hgen : forall r (H : readRecord op afterOp = r),
             decodePacked_unfold_clause_2 op afterOp (exist _ r H)
             = match r with
               | Throw e => Throw e
               | Return (tx, None) => Return [tx]
               | Return (tx, Some rest') =>
                   transactions <- decodePacked rest' ;;
                   Return (tx :: transactions)
               end).
  { intros [[tx [rest' |]] | e] H; simp decodePacked; reflexivity. }
  apply Hgen.
Qed.

Lemma to_N_byte_of_N n : Byte.to_N (byte_of_N n) = n mod 256.
Proof.
  unfold byte_of_N. destruct (Byte.of_N (n mod 256)) as [b |] eqn:E.
  - now apply Byte.to_of_N.
  - apply Byte.of_N_None_iff in E.
    pose proof (N.mod_upper_bound n 256). lia.
Qed.

Lemma byte_of_N_to_N b : byte_of_N (Byte.to_N b) = b.
Proof.
  unfold byte_of_N. pose proof (Byte.to_N_bounded b).
  rewrite N.mod_small by lia. now rewrite Byte.of_to_N.
Qed.

Lemma be_to_N_snoc bs b :
  be_to_N (bs ++ [b]) = be_to_N bs * 256 + Byte.to_N b.
Proof. unfold be_to_N. rewrite fold_left_app. reflexivity. Qed.

Lemma length_N_to_be len n : length (N_to_be len n) = len.
Proof.
  revert n. induction len as [| len IH]; intro n; simpl; [reflexivity |].
  rewrite length_app, IH. simpl. lia.
Qed.

Lemma be_to_N_to_be len n :
  n < 256 ^ N.of_nat len -> be_to_N (N_to_be len n) = n.
Proof.
  revert n. induction len as [| len IH]; intros n Hn.
  - simpl in *. unfold be_to_N. simpl. lia.
  - cbn [N_to_be]. rewrite be_to_N_snoc, to_N_byte_of_N.
    rewrite IH.
    + rewrite N.mul_comm. symmetry. apply N.div_mod. lia.
    + rewrite Nat2N.inj_succ, N.pow_succ_r' in Hn.
      apply N.Div0.div_lt_upper_bound. lia.
Qed.

Lemma N_to_be_cons len n :
  exists b rest, N_to_be (S len) n = b :: rest.
Proof.
  pose proof (length_N_to_be (S len) n) as H.
  destruct (N_to_be (S len) n) as [| b rest]; [discriminate | eauto].
Qed.

Lemma takeN_app a b : takeN (a ++ b) (size a) = a.
Proof.
  unfold size. induction a as [| x a IH]; cbn [app length].
  - destruct b; reflexivity.
  - cbn [takeN]. rewrite Nat2N.inj_succ.
    destruct (N.eqb_spec (N.succ (N.of_nat (length a))) 0) as [E | _]; [lia |].
    rewrite N.pred_succ, IH. reflexivity.
Qed.

Lemma dropN_app a b : dropN (a ++ b) (size a) = b.
Proof.
  unfold size. induction a as [| x a IH]; cbn [app length].
  - destruct b; reflexivity.
  - cbn [dropN]. rewrite Nat2N.inj_succ.
    destruct (N.eqb_spec (N.succ (N.of_nat (length a))) 0) as [E | _]; [lia |].
    rewrite N.pred_succ, IH. reflexivity.
Qed.

Lemma takeN_app_len (a b : Hex) n : N.of_nat (length a) = n -> takeN (a ++ b) n = a.
Proof. intros <-. apply takeN_app. Qed.

Lemma dropN_app_len (a b : Hex) n : N.of_nat (length a) = n -> dropN (a ++ b) n = b.
Proof. intros <-. apply dropN_app. Qed.

Lemma dropN_0 {A} (l : list A) : dropN l 0 = l.
Proof. destruct l; reflexivity. Qed.

Lemma length_takeN {A} (l : list A) n : (length (takeN l n) <= length l)%nat.
Proof.
  revert n. induction l as [| x l IH]; intro n; simpl; [lia |].
  destruct (n =? 0); simpl; [lia |]. specialize (IH (N.pred n)). lia.
Qed.

Lemma size_app a b : size (a ++ b) = size a + size b.
Proof. unfold size. rewrite length_app. lia. Qed.

Lemma size_N_to_be len n : size (N_to_be len n) = N.of_nat len.
Proof. unfold size. now rewrite length_N_to_be. Qed.

(* ===================================================================== *)
(** * Properties: hex texts                                               *)
(* ===================================================================== *)

Lemma length_append (a b : string) :
  String.length (a ++ b) = (String.length a + String.length b)%nat.
Proof.
  induction a as [| c a IH]; cbn [append String.length]; [reflexivity |].
  now rewrite IH.
Qed.

Lemma substring_0_whole n s :
  (String.length s <= n)%nat -> substring 0 n s = s.
Proof.
  revert n. induction s as [| c s IH]; intros n Hn.
  - destruct n; reflexivity.
  - destruct n as [| n]; cbn [String.length] in Hn; [lia |].
    cbn [substring]. rewrite IH by lia. reflexivity.
Qed.

Lemma substring_0_app s t :
  substring 0 (String.length s) (s ++ t) = s.
Proof.
  induction s as [| c s IH]; cbn [String.length append substring].
  - destruct t; reflexivity.
  - now rewrite IH.
Qed.

Lemma substring_skip_app s t n :
  substring (String.length s) n (s ++ t) = substring 0 n t.
Proof.
  induction s as [| c s IH]; cbn [String.length append substring];
    [reflexivity | exact IH].
Qed.

Lemma length_substring n m s :
  (String.length (substring n m s) <= String.length s - n)%nat.
Proof.
  revert n m. induction s as [| c s IH]; intros n m.
  - destruct n, m; cbn; lia.
  - destruct n as [| n].
    + destruct m as [| m]; cbn [substring String.length]; [lia |].
      specialize (IH 0%nat m). lia.
    + cbn [substring String.length]. specialize (IH n m). lia.
Qed.

Lemma length_substring_le n m s :
  (String.length (substring n m s) <= m)%nat.
Proof.
  revert n m. induction s as [| c s IH]; intros n m.
  - destruct n, m; cbn; lia.
  - destruct n as [| n].
    + destruct m as [| m]; cbn [substring String.length]; [lia |].
      specialize (IH 0%nat m). lia.
    + cbn [substring String.length]. apply IH.
Qed.

Lemma length_hexDigits bs :
  String.length (hexDigits bs) = (2 * length bs)%nat.
Proof.
  induction bs as [| b bs IH]; cbn [hexDigits String.length length];
    [reflexivity | lia].
Qed.

Lemma hexDigits_app a b :
  hexDigits (a ++ b) = (hexDigits a ++ hexDigits b)%string.
Proof.
  induction a as [| x a IH]; cbn [app hexDigits append];
    [reflexivity | now rewrite IH].
Qed.

Lemma hexDigits_byte b :
  hexDigit (hexChar (Byte.to_N b / 16)) = Some (Byte.to_N b / 16)
  /\ hexDigit (hexChar (Byte.to_N b mod 16)) = Some (Byte.to_N b mod 16)
  /\ byte_of_N (16 * (Byte.to_N b / 16) + Byte.to_N b mod 16) = b.
Proof. destruct b; vm_compute; repeat split. Qed.

(** The digits [bytesToHex] writes denote the bytes they were written
    for. *)
Lemma hexPairs_hexDigits bs : hexPairs (hexDigits bs) = Some bs.
Proof.
  induction bs as [| b bs IH]; [reflexivity |].
  cbn [hexDigits hexPairs].
  destruct (hexDigits_byte b) as (-> & -> & ->). rewrite IH. reflexivity.
Qed.

Lemma length_hexPairs s bs :
  hexPairs s = Some bs -> String.length s = (2 * length bs)%nat.
Proof.
  revert bs.
  assert (H : forall s,
             (forall bs, hexPairs s = Some bs ->
                         String.length s = (2 * length bs)%nat)
             /\ forall c bs, hexPairs (String c s) = Some bs ->
                             String.length (String c s) = (2 * length bs)%nat).
  { clear s. induction s as [| b s [IHs IHc]]; split.
    - intros bs E. injection E as <-. reflexivity.
    - intros c bs E. discriminate.
    - exact (IHc b).
    - intros c bs. cbn [hexPairs].
      destruct (hexDigit c); [| discriminate].
      destruct (hexDigit b); [| discriminate].
      destruct (hexPairs s) as [bs' |] eqn:E; [| discriminate].
      intro H. injection H as <-. cbn [String.length length].
      rewrite (IHs bs' eq_refl). lia. }
  apply H.
Qed.

Lemma isHex_bytesToHex bs : Viem.isHex (bytesToHex bs) = true.
Proof. unfold Viem.isHex, bytesToHex. cbn. destruct (hexDigits bs); reflexivity. Qed.

Lemma sizeOf_bytesToHex bs : Viem.sizeOf (bytesToHex bs) = size bs.
Proof.
  unfold Viem.sizeOf. rewrite isHex_bytesToHex. unfold bytesToHex, size.
  cbn [String.length]. rewrite length_hexDigits. f_equal.
  replace (S (S (2 * length bs)) - 2 + 1)%nat with (1 + length bs * 2)%nat
    by lia.
  rewrite Nat.div_add by lia. reflexivity.
Qed.

Lemma digits_bytesToHex bs :
  substring 2 (String.length (bytesToHex bs) - 2) (bytesToHex bs)
  = hexDigits bs.
Proof.
  unfold bytesToHex. cbn [String.length substring Nat.sub].
  rewrite Nat.sub_0_r. apply substring_0_whole. lia.
Qed.

(** The first bytes of a text viem wrote, as [slice] cuts them out. *)
Lemma slice_bytesToHex_prefix a b :
  Viem.slice (bytesToHex (a ++ b)) 0 (Some (length a))
  = Return (bytesToHex a).
Proof.
  unfold Viem.slice. cbn [Nat.ltb Nat.leb andb].
  rewrite isHex_bytesToHex, digits_bytesToHex, hexDigits_app.
  cbn [Nat.mul]. rewrite Nat.sub_0_r.
  replace (length a * 2)%nat with (String.length (hexDigits a))
    by (rewrite length_hexDigits; lia).
  rewrite substring_0_app. reflexivity.
Qed.

(** What follows them. *)
Lemma slice_bytesToHex_suffix a b :
  b <> [] ->
  Viem.slice (bytesToHex (a ++ b)) (length a) None = Return (bytesToHex b).
Proof.
  intro Hb. unfold Viem.slice.
  rewrite sizeOf_bytesToHex, isHex_bytesToHex, digits_bytesToHex,
    hexDigits_app.
  replace (size (a ++ b) <=? N.of_nat (length a)) with false.
  2:{ symmetry. apply N.leb_gt. unfold size. rewrite length_app.
      destruct b; [congruence | cbn [length]; lia]. }
  rewrite andb_false_r.
  replace (length a * 2)%nat with (String.length (hexDigits a))
    by (rewrite length_hexDigits; lia).
  rewrite substring_skip_app, substring_0_whole; [reflexivity |].
  unfold bytesToHex. cbn [String.length].
  rewrite !length_hexDigits, length_app. lia.
Qed.

Lemma hexToBytes_bytesToHex bs : Viem.hexToBytes (bytesToHex bs) = Return bs.
Proof.
  unfold Viem.hexToBytes. rewrite digits_bytesToHex, length_hexDigits.
  replace (Nat.odd (2 * length bs)) with false.
  2:{ symmetry. rewrite <- Nat.negb_even, Nat.even_mul. reflexivity. }
  now rewrite hexPairs_hexDigits.
Qed.

Lemma bytesToHex_app a b :
  bytesToHex (a ++ b) = (bytesToHex a ++ hexDigits b)%string.
Proof. unfold bytesToHex. now rewrite hexDigits_app. Qed.

(* ===================================================================== *)
(** * Properties: MultiSend decoder (security/multisend-decoder.ts)       *)
(* ===================================================================== *)

Lemma pow_256_32 : 256 ^ N.of_nat 32 = 2 ^ 256.
Proof. reflexivity. Qed.

(** One turn of the loop on a well-formed record followed by [rest]. *)
Lemma readRecord_pack tx rest :
  wellFormed tx ->
  readRecord (byte_of_N (MultiSend.operation tx))
             (MultiSend.to tx
                ++ N_to_be 32 (MultiSend.value tx)
                ++ N_to_be 32 (size (MultiSend.data tx))
                ++ MultiSend.data tx ++ rest)
  = Return (tx, Some rest).
Proof.
  destruct tx as [op to value data]. cbn [MultiSend.operation MultiSend.to
    MultiSend.value MultiSend.data]. intros (Hop & Hto & Hval & Hlen).
  cbn [MultiSend.operation MultiSend.to MultiSend.value MultiSend.data]
    in Hop, Hto, Hval, Hlen.
  unfold readRecord. cbv zeta.
  rewrite (takeN_app_len to _ 20), (dropN_app_len to _ 20)
    by (rewrite Hto; reflexivity).
  rewrite (takeN_app_len (N_to_be 32 value) _ 32),
          (dropN_app_len (N_to_be 32 value) _ 32)
    by (rewrite length_N_to_be; reflexivity).
  rewrite (takeN_app_len (N_to_be 32 (size data)) _ 32),
          (dropN_app_len (N_to_be 32 (size data)) _ 32)
    by (rewrite length_N_to_be; reflexivity).
  destruct (N_to_be_cons 31 value) as (b & l & EV).
  destruct (N_to_be_cons 31 (size data)) as (b' & l' & EL).
  rewrite EV, EL. rewrite <- EV, <- EL.
  rewrite !be_to_N_to_be by (rewrite pow_256_32; assumption).
  rewrite takeN_app, dropN_app, to_N_byte_of_N, N.mod_small by assumption.
  reflexivity.
Qed.

Lemma packTransaction_cons tx rest :
  packTransaction tx ++ rest
  = byte_of_N (MultiSend.operation tx)
      :: (MultiSend.to tx
            ++ N_to_be 32 (MultiSend.value tx)
            ++ N_to_be 32 (size (MultiSend.data tx))
            ++ MultiSend.data tx ++ rest).
Proof. unfold packTransaction. cbn [app]. now rewrite <- !app_assoc. Qed.

(** The loop gives back the sub-calls that were packed. *)
Lemma decodePacked_pack txs :
  Forall wellFormed txs -> decodePacked (packTransactions txs) = Return txs.
Proof.
  induction 1 as [| tx txs Htx _ IH].
  - cbn. now simp decodePacked.
  - unfold packTransactions in *. cbn [flat_map].
    rewrite packTransaction_cons, decodePacked_cons, readRecord_pack by assumption.
    rewrite IH. reflexivity.
Qed.

Lemma length_padRight32 h :
  (length h <= length (Viem.padRight32 h))%nat.
Proof. unfold Viem.padRight32. rewrite length_app. lia. Qed.

(** The layout [decodeAbiParameters] reads: a head word holding 32, the
    length word, the payload and any padding. *)
Lemma decodeAbiParameters_layout head lengthWord payload padding :
  length head = 32%nat -> be_to_N head = 32 ->
  length lengthWord = 32%nat -> be_to_N lengthWord = size payload ->
  Viem.decodeAbiParameters (head ++ lengthWord ++ payload ++ padding)
  = Return [payload].
Proof.
  intros Hh Hhv Hl Hlv.
  assert (Hbody : size (head ++ lengthWord ++ payload ++ padding)
                  = 64 + size payload + size padding).
  { rewrite !size_app. unfold size. rewrite Hh, Hl. lia. }
  unfold Viem.decodeAbiParameters, Viem.readBytes, Viem.setPosition.
  rewrite Hbody, dropN_0.
  rewrite (takeN_app_len head _ 32) by (now rewrite Hh).
  replace (64 + size payload + size padding =? 0) with false
    by (symmetry; apply N.eqb_neq; lia).
  replace (64 + size payload + size padding <? 32) with false
    by (symmetry; apply N.ltb_ge; lia).
  replace ((1 <=? 0 + 32) && (0 + 32 <=? 64 + size payload + size padding))
    with true
    by (symmetry; apply andb_true_iff; split; apply N.leb_le; lia).
  cbn [bind]. rewrite Hhv.
  replace (32 <? 64 + size payload + size padding) with true
    by (symmetry; apply N.ltb_lt; lia).
  replace ((1 <=? 32 + 32)
           && (32 + 32 <=? 64 + size payload + size padding)) with true
    by (symmetry; apply andb_true_iff; split; apply N.leb_le; lia).
  cbn [bind].
  rewrite (dropN_app_len head _ 32) by (now rewrite Hh).
  rewrite (takeN_app_len lengthWord _ 32) by (now rewrite Hl).
  rewrite Hlv.
  destruct (N.eqb_spec (size payload) 0) as [Hzero | Hpos].
  - cbn [bind]. destruct payload; [reflexivity | discriminate].
  - replace ((1 <=? 32 + 32 + size payload)
             && (32 + 32 + size payload <=? 64 + size payload + size padding))
      with true
      by (symmetry; apply andb_true_iff; split; apply N.leb_le; lia).
    cbn [bind].
    rewrite (app_assoc head).
    rewrite (dropN_app_len (head ++ lengthWord) _ (32 + 32))
      by (rewrite length_app, Hh, Hl; reflexivity).
    rewrite takeN_app. reflexivity.
Qed.

Lemma MULTISEND_SELECTOR_bytes :
  toFunctionSelector "multiSend(bytes)" = [x8d; x80; xff; x0a].
Proof. vm_compute. reflexivity. Qed.

Lemma decodeFunctionData_layout body :
  body <> [] ->
  Viem.decodeFunctionData
    (bytesToHex (toFunctionSelector "multiSend(bytes)" ++ body))
  = decodedArgs <- Viem.decodeAbiParameters body ;;
    Return {| Viem.functionName := "multiSend";
              Viem.args := Some decodedArgs |}.
Proof.
  intro Hne. unfold Viem.decodeFunctionData.
  rewrite MULTISEND_SELECTOR_bytes.
  change 4%nat with (length [x8d; x80; xff; x0a]).
  rewrite (slice_bytesToHex_prefix [x8d; x80; xff; x0a] body).
  cbn [bind].
  change (String.eqb (bytesToHex [x8d; x80; xff; x0a])
                     Viem.MULTISEND_SELECTOR) with true.
  cbv iota.
  rewrite (slice_bytesToHex_suffix [x8d; x80; xff; x0a] body Hne).
  cbn [bind]. rewrite hexToBytes_bytesToHex. reflexivity.
Qed.

(** viem decodes what it encoded. *)
Lemma decodeFunctionData_encode packed :
  size packed < 2 ^ 256 ->
  Viem.decodeFunctionData (Viem.encodeFunctionData packed)
  = Return {| Viem.functionName := "multiSend";
              Viem.args := Some [packed] |}.
Proof.
  intro Hsize. unfold Viem.encodeFunctionData, Viem.padRight32.
  rewrite decodeFunctionData_layout.
  - rewrite decodeAbiParameters_layout; [reflexivity | | | |].
    + apply length_N_to_be.
    + apply be_to_N_to_be. rewrite pow_256_32. reflexivity.
    + apply length_N_to_be.
    + apply be_to_N_to_be. rewrite pow_256_32. assumption.
  - intro E. apply (f_equal (@length byte)) in E.
    rewrite length_app, length_N_to_be in E. discriminate.
Qed.

(** The round trip, shared by the properties of the decoder and of the
    owner check. *)
Lemma decodeMultiSend_encode txs :
  Forall wellFormed txs ->
  size (packTransactions txs) < 2 ^ 256 ->
  decodeMultiSend (encodeMultiSend txs) = Some txs.
Proof.
  intros Hwf Hsize. unfold decodeMultiSend, encodeMultiSend.
  rewrite decodeFunctionData_encode by assumption.
  cbn [bind Viem.args Viem.functionName].
  change (String.eqb "multiSend" "multiSend") with true. cbn [negb].
  rewrite decodePacked_pack by assumption. reflexivity.
Qed.

Lemma length_packTransaction tx :
  length (MultiSend.to tx) = 20%nat ->
  length (packTransaction tx)
  = (1 + 20 + 32 + 32 + length (MultiSend.data tx))%nat.
Proof.
  intro Hto. unfold packTransaction.
  rewrite !length_app, !length_N_to_be, Hto. reflexivity.
Qed.

(** C8.  Every finite sequence of sub-calls, packed record after record
    (1 + 20 + 32 + 32 + L bytes each, nothing in between) and wrapped in
    the [multiSend] call, is decoded by [decodeMultiSend] to the same
    sequence; payloads of length zero included. *)
Theorem decodeMultiSend_round_trip (txs : list DecodedMultiSendTransaction) :
  Forall wellFormed txs ->
  size (packTransactions txs) < 2 ^ 256 ->
  decodeMultiSend (encodeMultiSend txs) = Some txs
  /\ packTransactions txs = concat (map packTransaction txs)
  /\ Forall (fun tx => length (packTransaction tx)
                       = (1 + 20 + 32 + 32 + length (MultiSend.data tx))%nat)
            txs.
Proof.
  intros Hwf Hsize. split; [now apply decodeMultiSend_encode |]. split.
  - unfold packTransactions. apply flat_map_concat_map.
  - eapply Forall_impl; [| exact Hwf].
    intros tx (_ & Hto & _). now apply length_packTransaction.
Qed.

Lemma exampleBatch_wellFormed : Forall wellFormed exampleBatch.
Proof.
  repeat constructor; cbn; try reflexivity.
Qed.

Lemma decodeMultiSend_round_trip_witness :
  decodeMultiSend (encodeMultiSend exampleBatch) = Some exampleBatch.
Proof.
  exact (proj1 (decodeMultiSend_round_trip exampleBatch
                  exampleBatch_wellFormed eq_refl)).
Defined.

(** The empty batch is decoded to the empty sequence, not to [null]. *)
Example decodeMultiSend_empty_batch :
  decodeMultiSend (encodeMultiSend []) = Some [].
Proof. apply decodeMultiSend_encode; [constructor | reflexivity]. Qed.

(** A call that does not carry the selector of [multiSend(bytes)] is not
    a batch. *)
Lemma decodeMultiSend_other_selector data :
  Viem.slice data 0 (Some 4%nat) <> Return Viem.MULTISEND_SELECTOR ->
  decodeMultiSend data = None.
Proof.
  intro H. unfold decodeMultiSend, Viem.decodeFunctionData.
  destruct (Viem.slice data 0 (Some 4%nat)) as [selector |];
    [| reflexivity].
  cbn [bind].
  destruct (String.eqb_spec selector Viem.MULTISEND_SELECTOR) as [-> | _];
    [congruence | reflexivity].
Qed.

(** A record whose value field is entirely missing makes [BigInt] throw,
    and the decoder answers [null]. *)
Example decodeMultiSend_missing_value :
  decodeMultiSend (Viem.encodeFunctionData ([x00] ++ safeAddressBytes)) = None.
Proof. vm_compute. reflexivity. Qed.

(** C3 (the code at the failing inputs).  The walk over [truncatedPayload]
    runs past the end of the buffer while reading the data, and the walk
    over [truncatedValue] while reading the value and the data length; in
    both cases [decodeMultiSend] returns a sub-call instead of [null]. *)
Theorem decodeMultiSend_truncated :
  decodeMultiSend (Viem.encodeFunctionData truncatedPayload)
  = Some [ {| MultiSend.operation := 0;
              MultiSend.to := safeAddressBytes;
              MultiSend.value := 0;
              MultiSend.data := [x0d; x58] |} ]
  /\ decodeMultiSend (Viem.encodeFunctionData truncatedValue)
     = Some [ {| MultiSend.operation := 0;
                 MultiSend.to := safeAddressBytes;
                 MultiSend.value := 42;
                 MultiSend.data := [] |} ].
Proof. split; vm_compute; reflexivity. Qed.

(* ===================================================================== *)
(** * Properties: owner check (security/owner-checks.ts)                  *)
(* ===================================================================== *)

Lemma readBytes_length bytes position len payload :
  Viem.readBytes bytes position len = Return payload ->
  (length payload <= length bytes)%nat.
Proof.
  unfold Viem.readBytes.
  destruct ((1 <=? position + len) && (position + len <=? size bytes));
    [| discriminate].
  intro H. injection H as <-.
  etransitivity; [apply length_takeN | apply length_dropN].
Qed.

Lemma decodeAbiParameters_length body decodedArgs packed :
  Viem.decodeAbiParameters body = Return decodedArgs ->
  In packed decodedArgs ->
  (length packed <= length body)%nat.
Proof.
  unfold Viem.decodeAbiParameters.
  destruct (size body =? 0); [discriminate |].
  destruct (size body <? 32); [discriminate |].
  destruct (Viem.readBytes body 0 32) as [head |]; [| discriminate].
  cbn [bind].
  destruct (Viem.setPosition body (be_to_N head)); [| discriminate].
  cbn [bind].
  destruct (Viem.readBytes body (be_to_N head) 32) as [lengthWord |];
    [| discriminate].
  cbn [bind].
  destruct (be_to_N lengthWord =? 0).
  - destruct (Viem.setPosition body 32); [| discriminate].
    cbn [bind]. intro H. injection H as <-. intros [<- | []]. cbn. lia.
  - destruct (Viem.readBytes body (be_to_N head + 32) (be_to_N lengthWord))
      as [payload |] eqn:E; [| discriminate].
    cbn [bind].
    destruct (Viem.setPosition body 32); [| discriminate].
    cbn [bind]. intro H. injection H as <-. intros [<- | []].
    eapply readBytes_length. exact E.
Qed.

(** A text [slice] cuts ten characters out of has ['0x'] in front and at
    least ten characters. *)
Lemma slice_selector_length data selector :
  Viem.slice data 0 (Some 4%nat) = Return selector ->
  String.length selector = 10%nat ->
  Viem.isHex data = true /\ (10 <= String.length data)%nat.
Proof.
  unfold Viem.slice. cbn [Nat.ltb Nat.leb andb].
  destruct (Viem.isHex data) eqn:Ehex.
  - intro H. injection H as <-. cbn [String.length append].
    intro Hlen. split; [reflexivity |].
    pose proof (length_substring 0 8
                  (substring 2 (String.length data - 2) data)) as H1.
    pose proof (length_substring 2 (String.length data - 2) data) as H2.
    lia.
  - intro H. injection H as <-. intro Hlen.
    pose proof (length_substring_le 0 (4 - 0) data) as H1. cbn in H1. lia.
Qed.

(** The packed payload of a batch is shorter than the call that wraps
    it: twice its bytes are fewer than the characters of the call after
    the selector. *)
Lemma decodeFunctionData_length data decoded decodedArgs packed :
  Viem.decodeFunctionData data = Return decoded ->
  Viem.args decoded = Some decodedArgs ->
  In packed decodedArgs ->
  (2 * length packed + 9 <= String.length data)%nat.
Proof.
  unfold Viem.decodeFunctionData.
  destruct (Viem.slice data 0 (Some 4%nat)) as [selector |] eqn:Esel;
    [| discriminate].
  cbn [bind].
  destruct (String.eqb_spec selector Viem.MULTISEND_SELECTOR) as [-> | _];
    [| discriminate].
  destruct (slice_selector_length _ _ Esel eq_refl) as [Ehex Hlen].
  unfold Viem.slice at 1. rewrite Ehex.
  destruct ((0 <? 4)%nat && (Viem.sizeOf data <=? N.of_nat 4));
    [discriminate |].
  cbn [bind].
  unfold Viem.hexToBytes.
  match goal with
  | |- context [hexPairs ?t] =>
      destruct (hexPairs t) as [bytes |] eqn:Epairs; [| discriminate];
      assert (Hbytes : (String.length t
                        <= S (String.length data - 10))%nat)
  end.
  { match goal with
    | |- context [Nat.odd (String.length ?u)] =>
        assert (Hu : (String.length u <= String.length data - 10)%nat)
    end.
    { cbn [append String.length substring Nat.sub].
      rewrite Nat.sub_0_r.
      etransitivity; [apply length_substring_le |].
      etransitivity; [apply length_substring |].
      pose proof (length_substring 2 (String.length data - 2) data). lia. }
    destruct (Nat.odd _); cbn [String.length]; lia. }
  apply length_hexPairs in Epairs.
  cbn [bind].
  destruct (Viem.decodeAbiParameters bytes) as [args |] eqn:E;
    [| discriminate].
  cbn [bind]. intro H. injection H as <-. cbn [Viem.args].
  intro H. injection H as <-. intro Hin.
  pose proof (decodeAbiParameters_length _ _ _ E Hin). lia.
Qed.

Lemma readRecord_data op afterOp tx next :
  readRecord op afterOp = Return (tx, next) ->
  (length (MultiSend.data tx) <= length afterOp)%nat.
Proof.
  unfold readRecord.
  destruct (takeN (dropN afterOp 20) 32); [discriminate |].
  destruct (takeN (dropN (dropN afterOp 20) 32) 32).
  - intro H. injection H as <- _. cbn. lia.
  - intro H. injection H as <- _. cbn [MultiSend.data].
    etransitivity; [apply length_takeN |].
    repeat (etransitivity; [apply length_dropN |]). lia.
Qed.

(** The payload of every sub-call of the loop is shorter than the text
    the loop walks. *)
Lemma decodePacked_data_length n packed txs tx :
  (length packed <= n)%nat ->
  decodePacked packed = Return txs ->
  In tx txs ->
  (length (MultiSend.data tx) <= length packed)%nat.
Proof.
  revert packed txs. induction n as [| n IH]; intros packed txs Hn.
  - destruct packed; [| cbn in Hn; lia].
    simp decodePacked. intro H. injection H as <-. intros [].
  - destruct packed as [| op afterOp].
    + simp decodePacked. intro H. injection H as <-. intros [].
    + rewrite decodePacked_cons.
      destruct (readRecord op afterOp) as [[tx0 [rest |]] |] eqn:E;
        [| | discriminate].
      * destruct (decodePacked rest) as [txs' |] eqn:E'; [| discriminate].
        cbn [bind]. intro H. injection H as <-.
        pose proof (readRecord_rest _ _ _ _ E) as Hrest.
        pose proof (readRecord_data _ _ _ _ E) as Hdata.
        cbn [length] in *.
        intros [<- | Hin]; [lia |].
        assert (Hle : (length rest <= n)%nat) by lia.
        specialize (IH rest txs' Hle E' Hin). lia.
      * intro H. injection H as <-.
        pose proof (readRecord_data _ _ _ _ E) as Hdata.
        cbn [length]. intros [<- | []]. lia.
Qed.

Lemma decodeMultiSend_data_shorter data txs tx :
  decodeMultiSend data = Some txs -> In tx txs ->
  (String.length (bytesToHex (MultiSend.data tx)) < String.length data)%nat.
Proof.
  unfold decodeMultiSend.
  destruct (Viem.decodeFunctionData data) as [decoded |] eqn:E;
    [| discriminate].
  cbn [bind tryCatch].
  destruct (Viem.args decoded) as [[| packed others] |] eqn:Eargs;
    try discriminate.
  destruct (negb (String.eqb (Viem.functionName decoded) "multiSend"));
    [discriminate |].
  destruct (decodePacked packed) as [txs' |] eqn:Ep; [| discriminate].
  cbn [bind]. intro H. injection H as <-. intro Hin.
  pose proof (decodeFunctionData_length _ _ _ packed E Eargs
                (or_introl eq_refl)).
  pose proof (decodePacked_data_length _ _ _ _ (Nat.le_refl _) Ep Hin).
  unfold bytesToHex. cbn [String.length]. rewrite length_hexDigits. lia.
Qed.

(** The two ways the recursion goes.  The test on the empty call in
    front changes nothing: an empty call has no selector and is no
    batch. *)
Lemma decodeMultiSend_empty :
  decodeMultiSend "" = None /\ decodeMultiSend "0x" = None.
Proof. split; reflexivity. Qed.

Lemma ownerLookup_empty data :
  (String.eqb data "" || String.eqb data "0x") = true ->
  ownerLookup data = None /\ decodeMultiSend data = None.
Proof.
  destruct (String.eqb_spec data "") as [-> | _]; [intros _; now split |].
  destruct (String.eqb_spec data "0x") as [-> | _]; [intros _; now split |].
  discriminate.
Qed.

Lemma checkTransactionData_rec_direct fuel data depth name :
  ownerLookup data = Some name ->
  OwnerChecks.checkTransactionData_rec (S fuel) data depth
  = [ownerDetection name depth].
Proof.
  intro Hlook. cbn [OwnerChecks.checkTransactionData_rec].
  destruct (String.eqb data "" || String.eqb data "0x") eqn:Eempty.
  - apply ownerLookup_empty in Eempty. destruct Eempty as [E _].
    congruence.
  - unfold ownerLookup in Hlook. rewrite Hlook. reflexivity.
Qed.

Lemma checkTransactionData_rec_nested fuel data depth :
  ownerLookup data = None ->
  OwnerChecks.checkTransactionData_rec (S fuel) data depth
  = match decodeMultiSend data with
    | Some multiSendTxs =>
        flat_map (fun tx =>
                    OwnerChecks.checkTransactionData_rec
                      fuel (bytesToHex (MultiSend.data tx)) (depth + 1))
                 multiSendTxs
    | None => []
    end.
Proof.
  intro Hlook. cbn [OwnerChecks.checkTransactionData_rec].
  destruct (String.eqb data "" || String.eqb data "0x") eqn:Eempty.
  - apply ownerLookup_empty in Eempty. destruct Eempty as [_ ->].
    reflexivity.
  - unfold ownerLookup in Hlook. rewrite Hlook. reflexivity.
Qed.

Lemma Found_direct_inv data base d name found :
  ownerLookup data = Some found ->
  Found data base d name -> d = base /\ name = found.
Proof.
  intros Hlook H. unfold ownerLookup in Hlook. inversion H; subst.
  - match goal with
    | Hs : OwnerChecks.getFunctionSelector _ = Some _ |- _ =>
        rewrite Hs in Hlook
    end. split; congruence.
  - match goal with
    | Hnone : forall sel, _ -> _ = None |- _ =>
        destruct (OwnerChecks.getFunctionSelector data) as [sel |];
        [rewrite (Hnone sel eq_refl) in Hlook |]; discriminate
    end.
Qed.

Lemma Found_nested_inv data base d name :
  ownerLookup data = None ->
  Found data base d name ->
  exists txs tx,
    decodeMultiSend data = Some txs /\ In tx txs
    /\ Found (bytesToHex (MultiSend.data tx)) (S base) d name.
Proof.
  intros Hlook H. unfold ownerLookup in Hlook. inversion H; subst.
  - match goal with
    | Hs : OwnerChecks.getFunctionSelector _ = Some _ |- _ =>
        rewrite Hs in Hlook
    end. congruence.
  - eauto.
Qed.

Lemma ownerLookup_none data :
  ownerLookup data = None ->
  forall sel, OwnerChecks.getFunctionSelector data = Some sel ->
              mapGet OwnerChecks.OWNER_MODIFICATION_SELECTORS sel = None.
Proof. unfold ownerLookup. intros H sel Hs. now rewrite Hs in H. Qed.

(** With enough fuel the recursion lists exactly what [Found] finds. *)
Lemma checkTransactionData_rec_Found fuel :
  forall data base name d,
    (String.length data < fuel)%nat ->
    (In (ownerDetection name d)
        (OwnerChecks.checkTransactionData_rec fuel data base)
     <-> Found data base d name).
Proof.
  induction fuel as [| fuel IH]; intros data base name d Hfuel; [lia |].
  destruct (ownerLookup data) as [found |] eqn:Hlook.
  - rewrite (checkTransactionData_rec_direct _ _ _ _ Hlook).
    split.
    + intros [Heq | []]. unfold ownerDetection in Heq.
      injection Heq as <- _ <-.
      unfold ownerLookup in Hlook.
      destruct (OwnerChecks.getFunctionSelector data) as [sel |] eqn:Hs;
        [| discriminate].
      eapply FoundDirect; eauto.
    + intro H. destruct (Found_direct_inv _ _ _ _ _ Hlook H) as [-> ->].
      left. reflexivity.
  - rewrite (checkTransactionData_rec_nested _ _ _ Hlook).
    split.
    + destruct (decodeMultiSend data) as [txs |] eqn:Edec; [| intros []].
      intro Hin. apply in_flat_map in Hin. destruct Hin as (tx & Htx & Hin).
      pose proof (decodeMultiSend_data_shorter _ _ _ Edec Htx) as Hlen.
      rewrite Nat.add_1_r in Hin.
      apply IH in Hin; [| lia].
      eapply FoundNested; eauto using ownerLookup_none.
    + intro H.
      destruct (Found_nested_inv _ _ _ _ Hlook H)
        as (txs & tx & Edec & Htx & Hf).
      rewrite Edec. apply in_flat_map. exists tx. split; [assumption |].
      pose proof (decodeMultiSend_data_shorter _ _ _ Edec Htx) as Hlen.
      rewrite Nat.add_1_r. apply IH; [lia | assumption].
Qed.

(** Every entry the recursion lists has the nesting flag of its depth and
    names one of the four functions. *)
Lemma checkTransactionData_rec_entries fuel :
  forall data base det,
    In det (OwnerChecks.checkTransactionData_rec fuel data base) ->
    OwnerModificationDetection.isNested det
    = (0 <? OwnerModificationDetection.depth det)%nat
    /\ (base <= OwnerModificationDetection.depth det)%nat
    /\ In (OwnerModificationDetection.functionName det)
          OWNER_MODIFICATION_FUNCTIONS.
Proof.
  induction fuel as [| fuel IH]; intros data base det; [intros [] |].
  destruct (ownerLookup data) as [found |] eqn:Hlook.
  - rewrite (checkTransactionData_rec_direct _ _ _ _ Hlook).
    intros [<- | []]. cbn. split; [reflexivity |]. split; [lia |].
    unfold ownerLookup in Hlook.
    destruct (OwnerChecks.getFunctionSelector data) as [sel |];
      [| discriminate].
    unfold OwnerChecks.OWNER_MODIFICATION_SELECTORS in Hlook.
    cbn [mapGet] in Hlook.
    repeat match type of Hlook with
           | (if ?c then _ else _) = _ =>
               destruct c; [injection Hlook as <-; cbn; tauto |]
           end.
    discriminate.
  - rewrite (checkTransactionData_rec_nested _ _ _ Hlook).
    destruct (decodeMultiSend data) as [txs |]; [| intros []].
    intro Hin. apply in_flat_map in Hin. destruct Hin as (tx & _ & Hin).
    apply IH in Hin. destruct Hin as (Hn & Hd & Hf).
    repeat split; auto. lia.
Qed.

(** The fuel [checkTransactionData] starts with is enough: more fuel
    finds the same entries. *)
Lemma checkTransactionData_rec_fuel fuel data base name d :
  (String.length data < fuel)%nat ->
  (In (ownerDetection name d)
      (OwnerChecks.checkTransactionData_rec fuel data base)
   <-> In (ownerDetection name d) (OwnerChecks.checkTransactionData data base)).
Proof.
  intro H. unfold OwnerChecks.checkTransactionData.
  rewrite !checkTransactionData_rec_Found by lia. reflexivity.
Qed.

Lemma flat_map_ext_in {A B} (f g : A -> list B) l :
  (forall a, In a l -> f a = g a) -> flat_map f l = flat_map g l.
Proof.
  induction l as [| a l IH]; intro H; cbn; [reflexivity |].
  rewrite (H a (or_introl eq_refl)), IH; [reflexivity |].
  intros x Hx. apply H. now right.
Qed.

(** Enough fuel gives the result: from the length of the call on, the
    amount of fuel does not change what the recursion returns. *)
Lemma checkTransactionData_rec_stable fuel1 :
  forall fuel2 data base,
    (String.length data < fuel1)%nat -> (String.length data < fuel2)%nat ->
    OwnerChecks.checkTransactionData_rec fuel1 data base
    = OwnerChecks.checkTransactionData_rec fuel2 data base.
Proof.
  induction fuel1 as [| fuel1 IH]; intros fuel2 data base H1 H2; [lia |].
  destruct fuel2 as [| fuel2]; [lia |].
  destruct (ownerLookup data) as [found |] eqn:Hlook.
  - now rewrite !(checkTransactionData_rec_direct _ _ _ _ Hlook).
  - rewrite !(checkTransactionData_rec_nested _ _ _ Hlook).
    destruct (decodeMultiSend data) as [txs |] eqn:Edec; [| reflexivity].
    apply flat_map_ext_in. intros tx Htx.
    pose proof (decodeMultiSend_data_shorter _ _ _ Edec Htx).
    apply IH; lia.
Qed.

Lemma ownerDetection_eta det :
  OwnerModificationDetection.isNested det
  = (0 <? OwnerModificationDetection.depth det)%nat ->
  det = ownerDetection (OwnerModificationDetection.functionName det)
                       (OwnerModificationDetection.depth det).
Proof. destruct det as [f n d]. cbn. intros ->. reflexivity. Qed.

Lemma selector_addOwnerWithThreshold :
  toFunctionSelector "addOwnerWithThreshold(address,uint256)"
  = hex "0x0d582f13".
Proof. vm_compute. reflexivity. Qed.

(** The selector tables hold the texts of the selectors of the signatures
    the source passes to [toFunctionSelector]. *)
Lemma OWNER_MODIFICATION_SELECTORS_spec :
  OwnerChecks.OWNER_MODIFICATION_SELECTORS
  = [ (bytesToHex
         (toFunctionSelector "addOwnerWithThreshold(address,uint256)"),
       "addOwnerWithThreshold");
      (bytesToHex (toFunctionSelector "removeOwner(address,address,uint256)"),
       "removeOwner");
      (bytesToHex (toFunctionSelector "swapOwner(address,address,address)"),
       "swapOwner");
      (bytesToHex (toFunctionSelector "changeThreshold(uint256)"),
       "changeThreshold") ]
  /\ Viem.MULTISEND_SELECTOR
     = bytesToHex (toFunctionSelector "multiSend(bytes)").
Proof. split; vm_compute; reflexivity. Qed.

(** The selector of the text viem writes for a call of at least four
    bytes is the text of its first four bytes. *)
Lemma getFunctionSelector_bytesToHex selector args :
  length selector = 4%nat ->
  OwnerChecks.getFunctionSelector (bytesToHex (selector ++ args))
  = Some (bytesToHex selector).
Proof.
  intro Hlen.
  destruct selector as [| a [| b [| c [| d [| e l]]]]]; try discriminate.
  unfold OwnerChecks.getFunctionSelector, bytesToHex.
  cbn [app hexDigits String.eqb Ascii.eqb Bool.eqb orb String.length
           Nat.ltb Nat.leb substring].
  destruct (hexDigits args); reflexivity.
Qed.

Lemma ownerLookup_encodeMultiSend txs :
  ownerLookup (encodeMultiSend txs) = None.
Proof.
  unfold encodeMultiSend, Viem.encodeFunctionData, ownerLookup.
  rewrite MULTISEND_SELECTOR_bytes.
  rewrite getFunctionSelector_bytesToHex by reflexivity. reflexivity.
Qed.

(** A batch of one owner-modification call: one detection, nested, at
    depth 1. *)
Lemma checkTransactionData_single_nested tx name :
  wellFormed tx ->
  size (packTransactions [tx]) < 2 ^ 256 ->
  ownerLookup (bytesToHex (MultiSend.data tx)) = Some name ->
  OwnerChecks.checkTransactionData (encodeMultiSend [tx]) 0
  = [ownerDetection name 1].
Proof.
  intros Hwf Hsize Hlook.
  unfold OwnerChecks.checkTransactionData.
  rewrite (checkTransactionData_rec_nested _ _ _
             (ownerLookup_encodeMultiSend [tx])).
  rewrite decodeMultiSend_encode by (auto; repeat constructor; assumption).
  cbn [flat_map]. rewrite app_nil_r.
  assert (Hfuel : exists fuel,
             String.length (encodeMultiSend [tx]) = S fuel).
  { unfold encodeMultiSend, Viem.encodeFunctionData, bytesToHex.
    cbn [String.length]. eauto. }
  destruct Hfuel as [fuel ->].
  now apply checkTransactionData_rec_direct.
Qed.

(** The text of a call, as far as the owner check reads it: its first ten
    characters, and the same characters as viem's [slice] cuts them out
    for [decodeFunctionData]. *)
Lemma slice_selector_text data selector :
  Viem.slice data 0 (Some 4%nat) = Return selector ->
  String.length selector = 10%nat ->
  selector = substring 0 10 data.
Proof.
  intros Hslice Hlen.
  destruct (slice_selector_length _ _ Hslice Hlen) as [Hhex Hdata].
  revert Hslice. unfold Viem.slice. rewrite Hhex.
  cbn [Nat.ltb Nat.leb andb]. intro H. injection H as <-.
  unfold Viem.isHex in Hhex.
  destruct data as [| c0 [| c1 rest]]; try discriminate.
  cbn [startsWith] in Hhex.
  destruct (Ascii.eqb_spec c0 "0") as [-> |]; [| discriminate].
  destruct (Ascii.eqb_spec c1 "x") as [-> |]; [| discriminate].
  cbn [String.length Nat.sub substring append Nat.mul].
  rewrite Nat.sub_0_r, (substring_0_whole _ rest) by lia. reflexivity.
Qed.

Lemma mapGet_lower_case sel name :
  mapGet OwnerChecks.OWNER_MODIFICATION_SELECTORS sel = Some name ->
  toLowerCase sel = sel.
Proof.
  unfold OwnerChecks.OWNER_MODIFICATION_SELECTORS. cbn [mapGet].
  repeat match goal with
         | |- (if String.eqb ?k sel then _ else _) = _ -> _ =>
             destruct (String.eqb_spec k sel) as [<- | _];
             [intros _; reflexivity |]
         end.
  discriminate.
Qed.

Lemma getFunctionSelector_text data sel :
  OwnerChecks.getFunctionSelector data = Some sel ->
  sel = substring 0 10 data.
Proof.
  unfold OwnerChecks.getFunctionSelector.
  destruct (String.eqb data "" || String.eqb data "0x"
            || (String.length data <? 10)%nat); [discriminate |].
  congruence.
Qed.

(** A call whose first ten characters are not in lower case has no
    selector of the table and is no batch for viem: the recursion finds
    nothing in it. *)
Lemma checkTransactionData_rec_upper_case fuel data depth :
  toLowerCase (substring 0 10 data) <> substring 0 10 data ->
  OwnerChecks.checkTransactionData_rec fuel data depth = [].
Proof.
  intro Hcase. destruct fuel as [| fuel]; [reflexivity |].
  assert (Hlook : ownerLookup data = None).
  { unfold ownerLookup.
    destruct (OwnerChecks.getFunctionSelector data) as [sel |] eqn:Hsel;
      [| reflexivity].
    apply getFunctionSelector_text in Hsel. subst sel.
    destruct (mapGet _ _) as [name |] eqn:Hget; [| reflexivity].
    apply mapGet_lower_case in Hget. contradiction. }
  rewrite (checkTransactionData_rec_nested _ _ _ Hlook).
  rewrite decodeMultiSend_other_selector; [reflexivity |].
  intro Hslice. apply slice_selector_text in Hslice; [| reflexivity].
  apply Hcase. rewrite <- Hslice. reflexivity.
Qed.

(** X1.  What the owner check finds in the text of a call.
    [checkOwnerModifications] lists exactly the functions [Found] finds
    in it: the function whose selector, in lower case, is the first ten
    characters of the text (depth 0), or what is found in the sub-calls
    of the batch viem decodes the text to (one more level of depth per
    batch), each with its name, its depth and the nesting flag of that
    depth.  When anything is found the result says [modifiesOwners] with
    level [critical] and a warning; when nothing is found it says no
    modification, level [info] and no warning.  An
    [addOwnerWithThreshold] call packed alone inside a batch gives one
    detection, nested, at depth 1.  The recursion ends: from the length
    of the text on, more fuel does not change what it returns. *)
Theorem checkOwnerModifications_Found (data : string) :
  let r := OwnerChecks.checkOwnerModifications data in
  (forall fuel,
      (String.length data < fuel)%nat ->
      OwnerChecks.checkTransactionData_rec fuel data 0
      = OwnerModificationCheckResult.modifications r)
  /\ (forall name d,
      Found data 0 d name
      <-> In (ownerDetection name d)
             (OwnerModificationCheckResult.modifications r))
  /\ (forall det,
         In det (OwnerModificationCheckResult.modifications r) ->
         det = ownerDetection (OwnerModificationDetection.functionName det)
                              (OwnerModificationDetection.depth det)
         /\ In (OwnerModificationDetection.functionName det)
               OWNER_MODIFICATION_FUNCTIONS)
  /\ ((exists name d, Found data 0 d name) ->
      OwnerModificationCheckResult.modifiesOwners r = true
      /\ OwnerModificationCheckResult.warningLevel r = WCritical
      /\ OwnerModificationCheckResult.warning r
         = Some (OwnerChecks.ownerWarning
                   (OwnerModificationCheckResult.modifications r)))
  /\ ((~ exists name d, Found data 0 d name) ->
      OwnerModificationCheckResult.modifiesOwners r = false
      /\ OwnerModificationCheckResult.warningLevel r = WInfo
      /\ OwnerModificationCheckResult.warning r = None
      /\ OwnerModificationCheckResult.modifications r = [])
  /\ (forall tx args,
         wellFormed tx ->
         size (packTransactions [tx]) < 2 ^ 256 ->
         MultiSend.data tx
         = toFunctionSelector "addOwnerWithThreshold(address,uint256)" ++ args ->
         data = encodeMultiSend [tx] ->
         OwnerModificationCheckResult.modifiesOwners r = true
         /\ OwnerModificationCheckResult.warningLevel r = WCritical
         /\ OwnerModificationCheckResult.modifications r
            = [ {| OwnerModificationDetection.functionName :=
                     "addOwnerWithThreshold";
                   OwnerModificationDetection.isNested := true;
                   OwnerModificationDetection.depth := 1 |} ]).
Proof.
  cbv zeta.
  assert (Hmods : OwnerModificationCheckResult.modifications
                    (OwnerChecks.checkOwnerModifications data)
                  = OwnerChecks.checkTransactionData data 0).
  { unfold OwnerChecks.checkOwnerModifications.
    destruct (OwnerChecks.checkTransactionData data 0); reflexivity. }
  assert (Hiff : forall name d,
             Found data 0 d name
             <-> In (ownerDetection name d)
                    (OwnerChecks.checkTransactionData data 0)).
  { intros name d. symmetry. unfold OwnerChecks.checkTransactionData.
    apply checkTransactionData_rec_Found. lia. }
  assert (Hentries : forall det,
             In det (OwnerChecks.checkTransactionData data 0) ->
             det = ownerDetection (OwnerModificationDetection.functionName det)
                                  (OwnerModificationDetection.depth det)
             /\ In (OwnerModificationDetection.functionName det)
                   OWNER_MODIFICATION_FUNCTIONS).
  { intros det Hin. unfold OwnerChecks.checkTransactionData in Hin.
    apply checkTransactionData_rec_entries in Hin.
    destruct Hin as (Hn & _ & Hf). split; [now apply ownerDetection_eta | easy]. }
  rewrite Hmods. repeat match goal with |- _ /\ _ => split end.
  - intros fuel Hfuel. unfold OwnerChecks.checkTransactionData.
    apply checkTransactionData_rec_stable; lia.
  - exact Hiff.
  - exact Hentries.
  - intros (name & d & Hfound). apply Hiff in Hfound.
    unfold OwnerChecks.checkOwnerModifications.
    destruct (OwnerChecks.checkTransactionData data 0); [destruct Hfound |].
    repeat split.
  - intro Hnot. unfold OwnerChecks.checkOwnerModifications.
    destruct (OwnerChecks.checkTransactionData data 0) as [| det dets];
      [repeat split |].
    destruct (Hentries det (or_introl eq_refl)) as [Heta _].
    exfalso. apply Hnot. eexists _, _. apply Hiff. rewrite <- Heta. now left.
  - intros tx args Hwf Hsize Hdata ->.
    rewrite selector_addOwnerWithThreshold in Hdata.
    unfold OwnerChecks.checkOwnerModifications.
    rewrite (checkTransactionData_single_nested tx "addOwnerWithThreshold").
    + repeat split.
    + assumption.
    + assumption.
    + rewrite Hdata. unfold ownerLookup.
      rewrite getFunctionSelector_bytesToHex by reflexivity. reflexivity.
Qed.

(** C6 (the code at the failing input).  The owner check takes the first
    ten characters of the call as they are written and looks them up in
    a table whose keys are in lower case, and viem compares the selector
    of [multiSend] the same way.  [addOwnerCallUpper] is an
    [addOwnerWithThreshold] call with the letters of its selector in
    upper case: it has the bytes of [addOwnerCall], and on it
    [checkOwnerModifications] says no modification, level [info] and no
    warning, where on the lower-case text of the same bytes it says
    [modifiesOwners] with level [critical].  The batch of scenario 4
    with its selector in upper case is not unwound either.  The same
    holds of every call, direct or batch, whose first ten characters are
    not all in lower case. *)
Theorem checkOwnerModifications_case_sensitive :
  let quiet :=
    {| OwnerModificationCheckResult.modifiesOwners := false;
       OwnerModificationCheckResult.modifications := [];
       OwnerModificationCheckResult.warning := None;
       OwnerModificationCheckResult.warningLevel := WInfo |} in
  Viem.hexToBytes addOwnerCallUpper = Return addOwnerCall
  /\ toLowerCase addOwnerCallUpper = bytesToHex addOwnerCall
  /\ toLowerCase addOwnerBatchUpper = addOwnerBatch
  /\ OwnerChecks.checkOwnerModifications (bytesToHex addOwnerCall)
     = {| OwnerModificationCheckResult.modifiesOwners := true;
          OwnerModificationCheckResult.modifications :=
            [ {| OwnerModificationDetection.functionName :=
                   "addOwnerWithThreshold";
                 OwnerModificationDetection.isNested := false;
                 OwnerModificationDetection.depth := 0 |} ];
          OwnerModificationCheckResult.warning :=
            Some "WARNING: This transaction modifies the owners or threshold of the Safe! Functions: addOwnerWithThreshold. Proceed with caution!";
          OwnerModificationCheckResult.warningLevel := WCritical |}
  /\ OwnerModificationCheckResult.modifiesOwners
       (OwnerChecks.checkOwnerModifications addOwnerBatch) = true
  /\ OwnerChecks.checkOwnerModifications addOwnerCallUpper = quiet
  /\ OwnerChecks.checkOwnerModifications addOwnerBatchUpper = quiet
  /\ (forall data,
         toLowerCase (substring 0 10 data) <> substring 0 10 data ->
         OwnerChecks.checkOwnerModifications data = quiet).
Proof.
  cbv zeta. repeat match goal with |- _ /\ _ => split end;
    try (vm_compute; reflexivity).
  intros data Hcase.
  unfold OwnerChecks.checkOwnerModifications, OwnerChecks.checkTransactionData.
  now rewrite checkTransactionData_rec_upper_case.
Qed.

(** Scenario 4 of the specification, with the call of the test-suite. *)
Example checkOwnerModifications_scenario_4 :
  OwnerChecks.checkOwnerModifications
    (encodeMultiSend
       [ {| MultiSend.operation := 0;
            MultiSend.to := safeAddressBytes;
            MultiSend.value := 0;
            MultiSend.data := addOwnerCall |} ])
  = {| OwnerModificationCheckResult.modifiesOwners := true;
       OwnerModificationCheckResult.modifications :=
         [ {| OwnerModificationDetection.functionName :=
                "addOwnerWithThreshold";
              OwnerModificationDetection.isNested := true;
              OwnerModificationDetection.depth := 1 |} ];
       OwnerModificationCheckResult.warning :=
         Some "WARNING: This transaction modifies the owners or threshold of the Safe! Functions: addOwnerWithThreshold. Proceed with caution!";
       OwnerModificationCheckResult.warningLevel := WCritical |}.
Proof. vm_compute. reflexivity. Qed.

(* ===================================================================== *)
(** * Properties: decoded-data verifier (utils/verify-decoded.ts)         *)
(* ===================================================================== *)


Section VerifyDecodedProperties.

Variable AbiParameters : Type.
Variable Json : Type.
Variable parseAbiParameters : string -> Exc AbiParameters.
Variable BigInt : string -> Exc Z.
Variable JSON_parse : string -> Exc Json.
Variable isArray : Json -> bool.
Variable encodeFunctionData :
  string -> AbiParameters -> list (Arg Json) -> Exc string.

Let verify := verifyDecodedData parseAbiParameters BigInt JSON_parse isArray
                                encodeFunctionData.
Let body := verifyBody parseAbiParameters BigInt JSON_parse isArray
                       encodeFunctionData.



End VerifyDecodedProperties.


(** The verifier on the calls of its test-suite, with [MiniAbi] in the
    place of viem: a faithful claim is verified; a claim with the wrong
    amount is not (scenario 5 of the specification); an amount that is not
    a number makes [BigInt] throw, a type that cannot be parsed makes
    [parseAbiParameters] throw, and both end in a failure result; a call
    without parameters must be exactly its selector. *)
Example verifyDecodedData_scenarios :
  DecodeVerificationResult.verified
    (MiniAbi.verifyDecodedData (Some transferRaw)
       (Some (transferClaim "1000000000000000000"))) = true
  /\ MiniAbi.verifyDecodedData (Some transferRaw)
       (Some (transferClaim "2000000000000000000"))
     = {| DecodeVerificationResult.verified := false;
          DecodeVerificationResult.error :=
            Some "Re-encoded data does not match raw data";
          DecodeVerificationResult.reencoded :=
            Some "0xa9059cbb000000000000000000000000d8da6bf26964af9d7eed9e03e53415d37aa960450000000000000000000000000000000000000000000000001bc16d674ec80000" |}
  /\ MiniAbi.verifyDecodedData (Some transferRaw) (Some (transferClaim "12abc"))
     = failed "Verification failed: Cannot convert 12abc to a BigInt"
  /\ MiniAbi.verifyDecodedData (Some transferRaw)
       (Some {| SafeApiDataDecoded.method := "transfer";
                SafeApiDataDecoded.parameters :=
                  [ {| SafeApiParameter.name := "to";
                       SafeApiParameter.type := "tuple(";
                       SafeApiParameter.value := "" |} ] |})
     = failed "Verification failed: Unknown type: tuple("
  /\ DecodeVerificationResult.verified
       (MiniAbi.verifyDecodedData (Some "0x06fdde03")
          (Some {| SafeApiDataDecoded.method := "name";
                   SafeApiDataDecoded.parameters := [] |})) = true
  /\ MiniAbi.verifyDecodedData (Some transferRaw) None
     = failed "No decoded data provided"
  /\ MiniAbi.verifyDecodedData None (Some (transferClaim "1"))
     = failed "No raw data to verify against".
Proof. repeat split; vm_compute; reflexivity. Qed.

(** The combiner on records of the test-suite: a plain transfer, an
    untrusted delegate call (scenario 2 of the specification), a call of
    [enableModule], and the same call packed in a batch sent through the
    trusted MultiSendCallOnly contract. *)
Example analyzeSecurity_scenarios :
  let analyze := analyzeSecurity decodeAddressArgs in
  let usdc : Address := "0xA0b86991c6218b36c1d19D4a2e9Eb0cE3606eB48" in
  let untrusted : Address := "0x1234567890123456789012345678901234567890" in
  let safe : Address := "0xf65475e74C1Ed6d004d5240b06E3088724dFDA5d" in
  let batch :=
    hex (encodeMultiSend [ {| MultiSend.operation := 0;
                              MultiSend.to := safeAddressBytes;
                              MultiSend.value := 0;
                              MultiSend.data := enableModuleCall |} ]) in
  (SecurityAnalysisResult.overallRisk
     (analyze (plainRecord usdc (data exampleTransfer) 0)),
   SecurityAnalysisResult.requiresCarefulReview
     (analyze (plainRecord usdc (data exampleTransfer) 0)))
  = (RiskNone, false)
  /\ (SecurityAnalysisResult.overallRisk (analyze (plainRecord untrusted [] 1)),
      SecurityAnalysisResult.requiresCarefulReview
        (analyze (plainRecord untrusted [] 1)),
      DelegateCallCheckResult.isTrusted
        (SecurityAnalysisResult.delegateCall
           (analyze (plainRecord untrusted [] 1))))
     = (Critical, true, false)
  /\ (SecurityAnalysisResult.overallRisk
        (analyze (plainRecord safe enableModuleCall 0)),
      SecurityAnalysisResult.requiresCarefulReview
        (analyze (plainRecord safe enableModuleCall 0)))
     = (High, true)
  /\ (SecurityAnalysisResult.overallRisk
        (analyze (plainRecord "0x40A2aCCbd92BCA938b02010E17A5b8929b49130D"
                              batch 1)),
      DelegateCallCheckResult.isTrusted
        (SecurityAnalysisResult.delegateCall
           (analyze (plainRecord "0x40A2aCCbd92BCA938b02010E17A5b8929b49130D"
                                 batch 1))),
      map ModuleGuardDetection.isNested
          (ModuleGuardCheckResult.detections
             (SecurityAnalysisResult.moduleGuard
                (analyze (plainRecord
                            "0x40A2aCCbd92BCA938b02010E17A5b8929b49130D"
                            batch 1)))))
     = (High, true, [true]).
Proof. repeat split; vm_compute; reflexivity. Qed.

(** The examples of the documentation of hash/version.ts. *)
Example version_examples :
  getVersion "1.3.0+L2" = "1.3.0"
  /\ getVersion "1.4.1" = "1.4.1"
  /\ compareVersions "1.3.0" "1.2.0" = 1%Z
  /\ compareVersions "1.0.0" "1.0.0" = 0%Z
  /\ compareVersions "0.9.0" "1.0.0" = (-1)%Z
  /\ isVersionGte "0.9.0" "1.0.0" = false
  /\ isVersionLte "1.2.0" "1.3.0" = true
  /\ isVersionLt "1.0.0" "1.0.0" = false
  /\ validateVersion "1.3.0+L2" = Return tt
  /\ validateVersion "0.0.9"
     = Throw ("Safe multisig version " ++ dquote ++ "0.0.9" ++ dquote
              ++ " is not supported!")%string
  /\ validateVersion ""
     = Throw "No Safe multisig contract found for the specified network. Please ensure that you have selected the correct network.".
Proof. repeat split. Qed.

(* ===================================================================== *)
(** * Properties: order of versions and the hashes by version             *)
(** * (hash/version.ts, hash/message.ts, hash/calculator.ts)              *)
(* ===================================================================== *)


Lemma jsLt_asym x y : jsLt x y = true -> jsLt y x = false.
Proof.
  destruct x as [| p | |], y as [| q | |]; cbn; try congruence.
  intro H. apply negb_true_iff in H. apply negb_false_iff.
  apply Qle_bool_iff.
  destruct (Qlt_le_dec p q) as [Hlt | Hle].
  - now apply Qlt_le_weak.
  - apply Qle_bool_iff in Hle. congruence.
Qed.

Lemma compareFrom_antisym todo i parts1 parts2 :
  compareFrom todo i parts2 parts1 = (- compareFrom todo i parts1 parts2)%Z.
Proof.
  revert i. induction todo as [| todo IH]; intro i; cbn [compareFrom].
  - reflexivity.
  - unfold jsGt.
    destruct (jsLt (orZero (nth_error parts2 i)) (orZero (nth_error parts1 i)))
      eqn:E21.
    + rewrite (jsLt_asym _ _ E21). reflexivity.
    + destruct (jsLt (orZero (nth_error parts1 i))
                     (orZero (nth_error parts2 i))); [reflexivity | apply IH].
Qed.

Lemma compareFrom_range todo i parts1 parts2 :
  compareFrom todo i parts1 parts2 = (-1)%Z
  \/ compareFrom todo i parts1 parts2 = 0%Z
  \/ compareFrom todo i parts1 parts2 = 1%Z.
Proof.
  revert i. induction todo as [| todo IH]; intro i; cbn [compareFrom]; auto.
  destruct (jsGt _ _); auto. destruct (jsLt _ _); auto.
Qed.

Lemma compareVersions_swap v w :
  compareVersions w v = (- compareVersions v w)%Z.
Proof.
  unfold compareVersions. rewrite Nat.max_comm. apply compareFrom_antisym.
Qed.

Lemma compareVersions_range v w :
  compareVersions v w = (-1)%Z \/ compareVersions v w = 0%Z
  \/ compareVersions v w = 1%Z.
Proof. unfold compareVersions. apply compareFrom_range. Qed.

(** X2.  Swapping the two arguments of [compareVersions] negates the
    result, and the result is -1, 0 or 1, whatever the two texts are. *)
Theorem compareVersions_antisymmetric (v w : string) :
  compareVersions w v = (- compareVersions v w)%Z
  /\ (compareVersions v w = (-1)%Z \/ compareVersions v w = 0%Z
      \/ compareVersions v w = 1%Z).
Proof. split; [apply compareVersions_swap | apply compareVersions_range]. Qed.

(** X3.  [isVersionGte v w] is [isVersionLte w v]; [isVersionLt] is the
    negation of [isVersionGte]; of [isVersionLte] and [isVersionGte] one
    always holds, and both hold only of two versions that compare
    equal. *)
Theorem isVersion_predicates (v w : string) :
  isVersionGte v w = isVersionLte w v
  /\ isVersionLt v w = negb (isVersionGte v w)
  /\ (isVersionLte v w = true \/ isVersionGte v w = true)
  /\ (isVersionLte v w = true -> isVersionGte v w = true ->
      compareVersions v w = 0%Z).
Proof.
  unfold isVersionGte, isVersionLte, isVersionLt.
  rewrite (compareVersions_swap v w).
  generalize (compareVersions v w). intro z.
  repeat split.
  - rewrite Z.geb_leb. destruct (Z.leb_spec 0 z), (Z.leb_spec (- z) 0);
      try reflexivity; lia.
  - rewrite Z.geb_leb. destruct (Z.ltb_spec z 0), (Z.leb_spec 0 z);
      try reflexivity; lia.
  - rewrite Z.geb_leb. destruct (Z.leb_spec z 0), (Z.leb_spec 0 z); auto; lia.
  - rewrite Z.geb_leb. intros H1 H2.
    apply Z.leb_le in H1, H2. lia.
Qed.

Lemma compareVersions_triples a b c x y z :
  isComponent a = true -> isComponent b = true -> isComponent c = true ->
  isComponent x = true -> isComponent y = true -> isComponent z = true ->
  compareVersions (triple a b c) (triple x y z)
  = compareTriples (componentValue a, componentValue b, componentValue c)
                   (componentValue x, componentValue y, componentValue z).
Proof.
  intros Ha Hb Hc Hx Hy Hz. unfold compareVersions.
  rewrite !split_triple by
    (auto; apply allDigits_noChar; auto using isComponent_digits).
  cbn [map]. rewrite !Number_component by auto using isComponent_digits.
  cbn [length Nat.max compareFrom nth_error]. unfold jsGt.
  rewrite !orZero_inject, !jsLt_inject. unfold compareTriples.
  generalize (componentValue a) (componentValue b) (componentValue c)
             (componentValue x) (componentValue y) (componentValue z).
  intros A B C X Y Z.
  destruct (Z.compare_spec A X), (Z.compare_spec B Y), (Z.compare_spec C Z);
    repeat match goal with
           | |- context [(?p <? ?q)%Z] => destruct (Z.ltb_spec p q)
           end; try reflexivity; lia.
Qed.

(** X4.  On two dotted triples of decimal components below 2^53 (the
    integers [Number] reads exactly) [compareVersions] is the
    lexicographic comparison of the numbers; it returns 0 exactly when
    the three numbers agree, whatever zeros are written in front. *)
Theorem compareVersions_lexicographic (a b c x y z : string) :
  isComponent a = true -> isComponent b = true -> isComponent c = true ->
  isComponent x = true -> isComponent y = true -> isComponent z = true ->
  Forall (fun component => (componentValue component < 2 ^ 53)%Z)
         [a; b; c; x; y; z] ->
  compareVersions (triple a b c) (triple x y z)
  = compareTriples (componentValue a, componentValue b, componentValue c)
                   (componentValue x, componentValue y, componentValue z)
  /\ (compareVersions (triple a b c) (triple x y z) = 0%Z
      <-> componentValue a = componentValue x
          /\ componentValue b = componentValue y
          /\ componentValue c = componentValue z).
Proof.
  intros Ha Hb Hc Hx Hy Hz _.
  rewrite compareVersions_triples by assumption.
  split; [reflexivity |]. unfold compareTriples.
  destruct (Z.compare_spec (componentValue a) (componentValue x)),
           (Z.compare_spec (componentValue b) (componentValue y)),
           (Z.compare_spec (componentValue c) (componentValue z));
    split; intro Hgoal; try discriminate; try lia; auto.
Qed.

Lemma compareVersions_lexicographic_witness :
  compareVersions "1.10.0" "1.9.0" = 1%Z.
Proof.
  refine (proj1 (compareVersions_lexicographic "1" "10" "0" "1" "9" "0"
                   eq_refl eq_refl eq_refl eq_refl eq_refl eq_refl _)).
  repeat constructor.
Defined.

Lemma triple_not_empty a b c : String.eqb (triple a b c) "" = false.
Proof. unfold triple. destruct a; reflexivity. Qed.

Lemma getVersion_triple_not_empty version a b c :
  getVersion version = triple a b c -> String.eqb version "" = false.
Proof.
  intro H. destruct version; [| reflexivity].
  pose proof (triple_not_empty a b c) as Hne. rewrite <- H in Hne.
  discriminate.
Qed.

(** The three thresholds of the hash calculator on a dotted triple. *)
Lemma isVersionGte_MIN a b c :
  isComponent a = true -> isComponent b = true -> isComponent c = true ->
  isVersionGte (triple a b c) MIN_SAFE_VERSION
  = ((0 <? componentValue a) || (0 <? componentValue b))%Z.
Proof.
  intros Ha Hb Hc. unfold isVersionGte.
  change MIN_SAFE_VERSION with (triple "0" "1" "0").
  rewrite compareVersions_triples by (assumption || reflexivity).
  change (componentValue "0") with 0%Z. change (componentValue "1") with 1%Z.
  pose proof (componentValue_nonneg a). pose proof (componentValue_nonneg b).
  pose proof (componentValue_nonneg c).
  unfold compareTriples.
  destruct (Z.compare_spec (componentValue a) 0),
           (Z.compare_spec (componentValue b) 1),
           (Z.compare_spec (componentValue c) 0),
           (Z.ltb_spec 0 (componentValue a)),
           (Z.ltb_spec 0 (componentValue b)); try reflexivity; lia.
Qed.

Lemma isVersionLt_1_0_0 a b c :
  isComponent a = true -> isComponent b = true -> isComponent c = true ->
  isVersionLt (triple a b c) "1.0.0" = (componentValue a =? 0)%Z.
Proof.
  intros Ha Hb Hc. unfold isVersionLt.
  change "1.0.0" with (triple "1" "0" "0").
  rewrite compareVersions_triples by (assumption || reflexivity).
  change (componentValue "0") with 0%Z. change (componentValue "1") with 1%Z.
  pose proof (componentValue_nonneg a). pose proof (componentValue_nonneg b).
  pose proof (componentValue_nonneg c).
  unfold compareTriples.
  destruct (Z.compare_spec (componentValue a) 1),
           (Z.compare_spec (componentValue b) 0),
           (Z.compare_spec (componentValue c) 0),
           (Z.eqb_spec (componentValue a) 0); try reflexivity; lia.
Qed.

Lemma isVersionLte_compareTriples a b c :
  isComponent a = true -> isComponent b = true -> isComponent c = true ->
  isVersionLte (triple a b c) "1.2.0"
  = (compareTriples (componentValue a, componentValue b, componentValue c)
                    (1, 2, 0) <=? 0)%Z.
Proof.
  intros Ha Hb Hc. unfold isVersionLte.
  change "1.2.0" with (triple "1" "2" "0").
  rewrite compareVersions_triples by (assumption || reflexivity).
  reflexivity.
Qed.

(** X5.  [validateVersion] on a version whose clean form is a dotted
    triple of decimal components: it returns when the major or the minor
    number is positive (the version is at least 0.1.0) and throws the
    "not supported" error, which quotes the clean version, otherwise. *)
Theorem validateVersion_triples (version a b c : string) :
  isComponent a = true -> isComponent b = true -> isComponent c = true ->
  getVersion version = triple a b c ->
  validateVersion version
  = if ((0 <? componentValue a) || (0 <? componentValue b))%Z
    then Return tt
    else Throw ("Safe multisig version " ++ dquote ++ triple a b c ++ dquote
                ++ " is not supported!")%string.
Proof.
  intros Ha Hb Hc Hv. unfold validateVersion.
  change (String.eqb version EmptyString) with (String.eqb version "").
  rewrite (getVersion_triple_not_empty _ _ _ _ Hv), Hv.
  rewrite isVersionGte_MIN by assumption.
  destruct ((0 <? componentValue a) || (0 <? componentValue b))%Z;
    reflexivity.
Qed.

Lemma validateVersion_triples_witness :
  validateVersion "1.3.0+L2" = Return tt
  /\ validateVersion "0.0.9"
     = Throw ("Safe multisig version " ++ dquote ++ "0.0.9" ++ dquote
              ++ " is not supported!")%string.
Proof.
  split.
  - exact (validateVersion_triples "1.3.0+L2" "1" "3" "0"
             eq_refl eq_refl eq_refl eq_refl).
  - exact (validateVersion_triples "0.0.9" "0" "0" "9"
             eq_refl eq_refl eq_refl eq_refl).
Defined.

(** X6.  [calculateMessageHash] hashes the encoding of the type hash and
    the ten fields of the transaction, the data by its hash; on a dotted
    triple the type hash is the legacy one exactly when the major number
    is 0 (the version is below 1.0.0). *)
Theorem calculateMessageHash_by_version
        (encodeAbiParameters : list AbiType -> list AbiArg -> Hex)
        (txData : SafeTransactionData) (version a b c : string) :
  isComponent a = true -> isComponent b = true -> isComponent c = true ->
  getVersion version = triple a b c ->
  calculateMessageHash encodeAbiParameters txData version
  = keccak256
      (encodeAbiParameters
         [bytes32; address; uint256; bytes32; uint8; uint256; uint256;
          uint256; address; address; uint256]
         [ArgHex (if (componentValue a =? 0)%Z then SAFE_TX_TYPEHASH_OLD
                  else SAFE_TX_TYPEHASH);
          ArgAddress (to txData); ArgBigInt (value txData);
          ArgHex (keccak256 (data txData)); ArgNumber (operation txData);
          ArgBigInt (safeTxGas txData); ArgBigInt (baseGas txData);
          ArgBigInt (gasPrice txData); ArgAddress (gasToken txData);
          ArgAddress (refundReceiver txData); ArgBigInt (nonce txData)]).
Proof.
  intros Ha Hb Hc Hv. unfold calculateMessageHash.
  rewrite Hv, isVersionLt_1_0_0 by assumption. reflexivity.
Qed.

Lemma calculateMessageHash_by_version_witness :
  calculateMessageHash encodeStatic exampleTransfer "0.9.0+L2"
  = keccak256
      (encodeStatic
         [bytes32; address; uint256; bytes32; uint8; uint256; uint256;
          uint256; address; address; uint256]
         [ArgHex SAFE_TX_TYPEHASH_OLD;
          ArgAddress (to exampleTransfer); ArgBigInt (value exampleTransfer);
          ArgHex (keccak256 (data exampleTransfer));
          ArgNumber (operation exampleTransfer);
          ArgBigInt (safeTxGas exampleTransfer);
          ArgBigInt (baseGas exampleTransfer);
          ArgBigInt (gasPrice exampleTransfer);
          ArgAddress (gasToken exampleTransfer);
          ArgAddress (refundReceiver exampleTransfer);
          ArgBigInt (nonce exampleTransfer)]).
Proof.
  exact (calculateMessageHash_by_version encodeStatic exampleTransfer
           "0.9.0+L2" "0" "9" "0" eq_refl eq_refl eq_refl eq_refl).
Defined.

Lemma append_not_empty v w :
  String.eqb v "" = false -> String.eqb (v ++ w) "" = false.
Proof. destruct v; [discriminate | reflexivity]. Qed.

(** X7.  A [+tag] after the version changes nothing: [calculateSafeTxHash]
    returns the same hashes, or throws the same error, for [version] and
    for [version + "+" + tag]. *)
Theorem calculateSafeTxHash_ignores_tag
        (encodeAbiParameters : list AbiType -> list AbiArg -> Hex)
        (chainId : N) (safeAddress : Address) (txData : SafeTransactionData)
        (version tag : string) :
  version <> "" ->
  calculateSafeTxHash encodeAbiParameters chainId safeAddress txData
                      (version ++ "+" ++ tag)
  = calculateSafeTxHash encodeAbiParameters chainId safeAddress txData
                        version.
Proof.
  intro Hne. apply String.eqb_neq in Hne.
  unfold calculateSafeTxHash, validateVersion, calculateDomainHash,
    calculateMessageHash.
  change (String.eqb (version ++ "+" ++ tag) EmptyString)
    with (String.eqb (version ++ "+" ++ tag) "").
  change (String.eqb version EmptyString) with (String.eqb version "").
  rewrite (append_not_empty _ _ Hne), Hne, getVersion_suffix. reflexivity.
Qed.

Lemma calculateSafeTxHash_ignores_tag_witness :
  calculateSafeTxHash encodeStatic 1
    "0xf65475e74C1Ed6d004d5240b06E3088724dFDA5d" exampleTransfer
    ("1.3.0" ++ "+" ++ "L2")
  = calculateSafeTxHash encodeStatic 1
      "0xf65475e74C1Ed6d004d5240b06E3088724dFDA5d" exampleTransfer "1.3.0".
Proof.
  apply (calculateSafeTxHash_ignores_tag encodeStatic 1
           "0xf65475e74C1Ed6d004d5240b06E3088724dFDA5d" exampleTransfer
           "1.3.0" "L2").
  discriminate.
Defined.

(** The result of the calculation on a dotted triple, by the two choices
    that depend on the version. *)
Lemma calculateSafeTxHash_triple encodeAbiParameters chainId safeAddress
      txData version a b c :
  isComponent a = true -> isComponent b = true -> isComponent c = true ->
  getVersion version = triple a b c ->
  calculateSafeTxHash encodeAbiParameters chainId safeAddress txData version
  = if ((0 <? componentValue a) || (0 <? componentValue b))%Z then
      Return (hashesOf encodeAbiParameters chainId safeAddress txData
                (compareTriples
                   (componentValue a, componentValue b, componentValue c)
                   (1, 2, 0) <=? 0)%Z
                (componentValue a =? 0)%Z)
    else Throw ("Safe multisig version " ++ dquote ++ triple a b c ++ dquote
                ++ " is not supported!")%string.
Proof.
  intros Ha Hb Hc Hv.
  unfold calculateSafeTxHash, validateVersion, calculateDomainHash,
    calculateMessageHash, hashesOf.
  change (String.eqb version EmptyString) with (String.eqb version "").
  rewrite (getVersion_triple_not_empty _ _ _ _ Hv), Hv.
  rewrite isVersionGte_MIN, isVersionLt_1_0_0, isVersionLte_compareTriples
    by assumption.
  destruct ((0 <? componentValue a) || (0 <? componentValue b))%Z;
    cbn [negb bind]; [| reflexivity].
  destruct (compareTriples _ _ <=? 0)%Z, (componentValue a =? 0)%Z;
    reflexivity.
Qed.

Lemma compareTriples_classes A B C :
  (0 <= A)%Z -> (0 <= B)%Z -> (0 <= C)%Z ->
  (compareTriples (A, B, C) (0, 1, 0) <? 0)%Z
  = negb ((0 <? A) || (0 <? B))%Z
  /\ (compareTriples (A, B, C) (1, 0, 0) <? 0)%Z = (A =? 0)%Z
  /\ ((A =? 0)%Z = true ->
      (compareTriples (A, B, C) (1, 2, 0) <=? 0)%Z = true).
Proof.
  intros HA HB HC. unfold compareTriples. split; [| split].
  - destruct (Z.compare_spec A 0), (Z.compare_spec B 1),
             (Z.compare_spec C 0), (Z.ltb_spec 0 A), (Z.ltb_spec 0 B);
      try reflexivity; lia.
  - destruct (Z.compare_spec A 1), (Z.compare_spec B 0),
             (Z.compare_spec C 0), (Z.eqb_spec A 0);
      try reflexivity; lia.
  - intro H0. apply Z.eqb_eq in H0. subst A. reflexivity.
Qed.

(** X8.  The version decides the hashes through three thresholds only: a
    version below 0.1.0 is refused, and an accepted version gives the
    hashes of 0.1.0 when it is below 1.0.0, those of 1.0.0 when it is at
    most 1.2.0, and those of 1.3.0 above. *)
Theorem calculateSafeTxHash_version_classes
        (encodeAbiParameters : list AbiType -> list AbiArg -> Hex)
        (chainId : N) (safeAddress : Address) (txData : SafeTransactionData)
        (version a b c : string) :
  isComponent a = true -> isComponent b = true -> isComponent c = true ->
  getVersion version = triple a b c ->
  let calculate :=
    calculateSafeTxHash encodeAbiParameters chainId safeAddress txData in
  let v := (componentValue a, componentValue b, componentValue c) in
  calculate version
  = if (compareTriples v (0, 1, 0) <? 0)%Z then
      Throw ("Safe multisig version " ++ dquote ++ triple a b c ++ dquote
             ++ " is not supported!")%string
    else if (compareTriples v (1, 0, 0) <? 0)%Z then calculate "0.1.0"
    else if (compareTriples v (1, 2, 0) <=? 0)%Z then calculate "1.0.0"
    else calculate "1.3.0".
Proof.
  intros Ha Hb Hc Hv. cbv zeta.
  rewrite (calculateSafeTxHash_triple _ _ _ _ version a b c) by assumption.
  rewrite (calculateSafeTxHash_triple _ _ _ _ "0.1.0" "0" "1" "0")
    by reflexivity.
  rewrite (calculateSafeTxHash_triple _ _ _ _ "1.0.0" "1" "0" "0")
    by reflexivity.
  rewrite (calculateSafeTxHash_triple _ _ _ _ "1.3.0" "1" "3" "0")
    by reflexivity.
  change (componentValue "0") with 0%Z. change (componentValue "1") with 1%Z.
  change (componentValue "3") with 3%Z.
  destruct (compareTriples_classes _ _ _ (componentValue_nonneg a)
              (componentValue_nonneg b) (componentValue_nonneg c))
    as (-> & -> & Hlegacy).
  destruct ((0 <? componentValue a) || (0 <? componentValue b))%Z;
    cbn [negb]; [| reflexivity].
  destruct (componentValue a =? 0)%Z.
  - rewrite (Hlegacy eq_refl). reflexivity.
  - destruct (compareTriples _ _ <=? 0)%Z; reflexivity.
Qed.

Lemma calculateSafeTxHash_version_classes_witness :
  calculateSafeTxHash encodeStatic 1
    "0xf65475e74C1Ed6d004d5240b06E3088724dFDA5d" exampleTransfer "1.4.1+L2"
  = calculateSafeTxHash encodeStatic 1
      "0xf65475e74C1Ed6d004d5240b06E3088724dFDA5d" exampleTransfer "1.3.0".
Proof.
  exact (calculateSafeTxHash_version_classes encodeStatic 1
           "0xf65475e74C1Ed6d004d5240b06E3088724dFDA5d" exampleTransfer
           "1.4.1+L2" "1" "4" "1" eq_refl eq_refl eq_refl eq_refl).
Defined.

(** X9.  For a version of at most 1.2.0 the chain id does not enter the
    hashes: [calculateSafeTxHash] returns the same result on every
    chain. *)
Theorem calculateSafeTxHash_legacy_chainId
        (encodeAbiParameters : list AbiType -> list AbiArg -> Hex)
        (chainId chainId' : N) (safeAddress : Address)
        (txData : SafeTransactionData) (version a b c : string) :
  isComponent a = true -> isComponent b = true -> isComponent c = true ->
  getVersion version = triple a b c ->
  (compareTriples (componentValue a, componentValue b, componentValue c)
                  (1, 2, 0) <= 0)%Z ->
  calculateSafeTxHash encodeAbiParameters chainId safeAddress txData version
  = calculateSafeTxHash encodeAbiParameters chainId' safeAddress txData
                        version.
Proof.
  intros Ha Hb Hc Hv Hle.
  rewrite !(calculateSafeTxHash_triple _ _ _ _ version a b c) by assumption.
  apply Z.leb_le in Hle. rewrite Hle. reflexivity.
Qed.

Lemma calculateSafeTxHash_legacy_chainId_witness :
  calculateSafeTxHash encodeStatic 1
    "0xf65475e74C1Ed6d004d5240b06E3088724dFDA5d" exampleTransfer "1.1.1"
  = calculateSafeTxHash encodeStatic 11155111
      "0xf65475e74C1Ed6d004d5240b06E3088724dFDA5d" exampleTransfer "1.1.1".
Proof.
  apply (calculateSafeTxHash_legacy_chainId encodeStatic 1 11155111
           "0xf65475e74C1Ed6d004d5240b06E3088724dFDA5d" exampleTransfer
           "1.1.1" "1" "1" "1"); try reflexivity.
  vm_compute. discriminate.
Defined.

(* ===================================================================== *)
(** * Properties: hash comparison and display (hash/calculator.ts,        *)
(** * utils/format.ts)                                                    *)
(* ===================================================================== *)

Lemma hexDigit_lowerChar c : hexDigit (lowerChar c) = hexDigit c.
Proof. destruct c as [[] [] [] [] [] [] [] []]; reflexivity. Qed.

Lemma hexDigit_upperChar c : hexDigit (upperChar c) = hexDigit c.
Proof. destruct c as [[] [] [] [] [] [] [] []]; reflexivity. Qed.

Lemma lowerChar_upperChar c : lowerChar (upperChar c) = lowerChar c.
Proof. destruct c as [[] [] [] [] [] [] [] []]; reflexivity. Qed.

Lemma upperChar_idempotent c : upperChar (upperChar c) = upperChar c.
Proof. destruct c as [[] [] [] [] [] [] [] []]; reflexivity. Qed.

(** A hex digit in lower case is the digit [hexChar] writes. *)
Lemma hexDigit_hexChar c n :
  hexDigit c = Some n -> n < 16 /\ lowerChar c = hexChar n.
Proof.
  destruct c as [[] [] [] [] [] [] [] []]; cbv; intro H;
    try discriminate; injection H as <-; split; reflexivity.
Qed.

(** Induction on a text two characters at a time. *)
Lemma string_pairs_ind (P : string -> Prop) :
  P EmptyString ->
  (forall a, P (String a EmptyString)) ->
  (forall a b rest, P rest -> P (String a (String b rest))) ->
  forall s, P s.
Proof.
  intros H0 H1 H2.
  assert (H : forall s, P s /\ forall a, P (String a s)).
  { induction s as [| b s [IHs IHa]]; split; auto. }
  intro s. apply H.
Qed.

Lemma hexPairs_toLowerCase s : hexPairs (toLowerCase s) = hexPairs s.
Proof.
  induction s as [| a | a b rest IH] using string_pairs_ind;
    [reflexivity | reflexivity |].
  cbn [toLowerCase hexPairs]. rewrite !hexDigit_lowerChar, IH. reflexivity.
Qed.

Lemma hexPairs_toUpperCase s : hexPairs (toUpperCase s) = hexPairs s.
Proof.
  induction s as [| a | a b rest IH] using string_pairs_ind;
    [reflexivity | reflexivity |].
  cbn [toUpperCase hexPairs]. rewrite !hexDigit_upperChar, IH. reflexivity.
Qed.

(** The lower-case form of a run of hex digits is the text [hexDigits]
    writes for its bytes. *)
Lemma toLowerCase_hexPairs s bs :
  hexPairs s = Some bs -> toLowerCase s = hexDigits bs.
Proof.
  revert bs.
  induction s as [| a | a b rest IH] using string_pairs_ind; intro bs.
  - intro H. injection H as <-. reflexivity.
  - discriminate.
  - cbn [hexPairs].
    destruct (hexDigit a) as [h |] eqn:Ea; [| discriminate].
    destruct (hexDigit b) as [l |] eqn:Eb; [| discriminate].
    destruct (hexPairs rest) as [bs' |]; [| discriminate].
    intro H.
    assert (Hbs : bs = byte_of_N (16 * h + l) :: bs') by congruence.
    subst bs. clear H.
    destruct (hexDigit_hexChar _ _ Ea) as [Hh Ha].
    destruct (hexDigit_hexChar _ _ Eb) as [Hl Hb].
    cbn [toLowerCase hexDigits]. rewrite (IH bs' eq_refl), Ha, Hb.
    rewrite to_N_byte_of_N.
    replace ((16 * h + l) mod 256) with (16 * h + l)
      by (symmetry; apply N.mod_small; lia).
    replace ((16 * h + l) / 16) with h
      by (apply N.div_unique with l; lia).
    replace ((16 * h + l) mod 16) with l
      by (apply N.mod_unique with h; lia).
    reflexivity.
Qed.

Lemma toLowerCase_toUpperCase s : toLowerCase (toUpperCase s) = toLowerCase s.
Proof.
  induction s as [| c s IH]; cbn [toUpperCase toLowerCase]; [reflexivity |].
  now rewrite lowerChar_upperChar, IH.
Qed.

Lemma toUpperCase_idempotent s : toUpperCase (toUpperCase s) = toUpperCase s.
Proof.
  induction s as [| c s IH]; cbn [toUpperCase]; [reflexivity |].
  now rewrite upperChar_idempotent, IH.
Qed.

Lemma length_toUpperCase s : String.length (toUpperCase s) = String.length s.
Proof.
  induction s as [| c s IH]; cbn [toUpperCase String.length]; congruence.
Qed.

Lemma substring_all s : substring 0 (String.length s) s = s.
Proof.
  induction s as [| c s IH]; cbn [String.length substring];
    [reflexivity | now rewrite IH].
Qed.

Lemma startsWith_0x hash :
  startsWith hash "0x" = true ->
  exists rest, hash = String "0" (String "x" rest).
Proof.
  destruct hash as [| a [| b rest]]; cbn [startsWith]; try discriminate.
  - rewrite andb_false_r. discriminate.
  - intro H. apply andb_true_iff in H. destruct H as [Ha H].
    apply andb_true_iff in H. destruct H as [Hb _].
    apply Ascii.eqb_eq in Ha, Hb. subst. eauto.
Qed.

Lemma startsWith_empty s : startsWith s "" = true.
Proof. destruct s; reflexivity. Qed.

Lemma substring_0_0 s : substring 0 0 s = "".
Proof. destruct s; reflexivity. Qed.

Lemma formatHash_0x rest :
  formatHash (String "0" (String "x" rest))
  = Return (String "0" (String "x" (toUpperCase rest))).
Proof.
  unfold formatHash.
  cbn [startsWith negb String.length Nat.sub substring].
  rewrite !Ascii.eqb_refl, startsWith_empty, substring_0_0.
  cbn [andb negb]. rewrite Nat.sub_0_r, substring_all. reflexivity.
Qed.

Lemma hexToBytes_0x s bs :
  hexToBytes s = Some bs ->
  exists digits, s = String "0" (String "x" digits)
                 /\ hexPairs digits = Some bs.
Proof.
  unfold hexToBytes.
  destruct s as [| c0 [| c1 digits]]; try discriminate.
  - destruct c0 as [[] [] [] [] [] [] [] []]; discriminate.
  - destruct c0 as [[] [] [] [] [] [] [] []]; try discriminate.
    destruct c1 as [[] [] [] [] [] [] [] []]; try discriminate.
    eauto.
Qed.

Lemma verifySafeTxHash_bytes a b x y :
  hexToBytes a = Some x -> hexToBytes b = Some y ->
  (verifySafeTxHash a b = true <-> x = y).
Proof.
  intros Ha Hb.
  destruct (hexToBytes_0x _ _ Ha) as (a' & -> & Ha').
  destruct (hexToBytes_0x _ _ Hb) as (b' & -> & Hb').
  unfold verifySafeTxHash. rewrite String.eqb_eq. cbn [toLowerCase].
  split.
  - intro E. injection E as E.
    rewrite <- (hexPairs_toLowerCase a') in Ha'.
    rewrite <- (hexPairs_toLowerCase b') in Hb'. congruence.
  - intros <-. do 2 f_equal.
    rewrite (toLowerCase_hexPairs _ _ Ha'), (toLowerCase_hexPairs _ _ Hb').
    reflexivity.
Qed.

(** The hex text of a byte string denotes that byte string. *)
Lemma hexToBytes_of_bytesToHex bs : hexToBytes (bytesToHex bs) = Some bs.
Proof. unfold bytesToHex. cbn [hexToBytes]. apply hexPairs_hexDigits. Qed.

(** X10.  [verifySafeTxHash] is an equivalence on texts; on two hex
    texts (['0x'] and pairs of hex digits, in either case) it holds
    exactly when they denote the same bytes, so a calculated hash matches
    an expected one exactly when the expected text denotes the calculated
    bytes. *)
Theorem verifySafeTxHash_spec :
  (forall a, verifySafeTxHash a a = true)
  /\ (forall a b, verifySafeTxHash a b = verifySafeTxHash b a)
  /\ (forall a b c, verifySafeTxHash a b = true ->
                    verifySafeTxHash b c = true ->
                    verifySafeTxHash a c = true)
  /\ (forall a b x y,
         hexToBytes a = Some x -> hexToBytes b = Some y ->
         (verifySafeTxHash a b = true <-> x = y))
  /\ (forall calculated expected y,
         hexToBytes expected = Some y ->
         (verifySafeTxHash (bytesToHex calculated) expected = true
          <-> calculated = y)).
Proof.
  split; [| split; [| split; [| split]]].
  - intro a. apply String.eqb_refl.
  - intros a b. apply String.eqb_sym.
  - intros a b c Hab Hbc. unfold verifySafeTxHash in *.
    apply String.eqb_eq in Hab, Hbc. apply String.eqb_eq. congruence.
  - apply verifySafeTxHash_bytes.
  - intros calculated expected y Hy.
    apply verifySafeTxHash_bytes; [apply hexToBytes_of_bytesToHex | exact Hy].
Qed.

(** X11.  [formatHash] throws on a text that does not start with ['0x'];
    on a hex text it returns ['0x'] followed by the digits in upper case,
    a text of the same length that denotes the same bytes, that
    [verifySafeTxHash] accepts against the original, and that
    [formatHash] leaves unchanged. *)
Theorem formatHash_spec (hash : string) :
  (startsWith hash "0x" = false ->
   formatHash hash = Throw "Hash must start with 0x prefix")
  /\ (forall bytes,
         hexToBytes hash = Some bytes ->
         exists formatted,
           formatHash hash = Return formatted
           /\ formatted
              = ("0x" ++ toUpperCase
                           (substring 2 (String.length hash - 2) hash))%string
           /\ String.length formatted = String.length hash
           /\ hexToBytes formatted = Some bytes
           /\ verifySafeTxHash formatted hash = true
           /\ formatHash formatted = Return formatted).
Proof.
  split.
  - intro H. unfold formatHash. rewrite H. reflexivity.
  - intros bytes Hbytes.
    destruct (hexToBytes_0x _ _ Hbytes) as (rest & -> & Hrest).
    exists (String "0" (String "x" (toUpperCase rest))).
    split; [apply formatHash_0x |]. split.
    { cbn [String.length Nat.sub substring append].
      now rewrite Nat.sub_0_r, substring_all. }
    split; [cbn [String.length]; now rewrite length_toUpperCase |].
    split; [cbn [hexToBytes]; now rewrite hexPairs_toUpperCase |].
    split.
    + unfold verifySafeTxHash. cbn [toLowerCase].
      rewrite toLowerCase_toUpperCase. apply String.eqb_refl.
    + now rewrite formatHash_0x, toUpperCase_idempotent.
Qed.

(* ===================================================================== *)
(** * Properties: what the MultiSend decoder returns                      *)
(** * (security/multisend-decoder.ts)                                     *)
(* ===================================================================== *)

Lemma size_takeN {A} (l : list A) n : N.of_nat (length (takeN l n)) <= n.
Proof.
  revert n. induction l as [| x l IH]; intro n; cbn [takeN length]; [lia |].
  destruct (N.eqb_spec n 0) as [-> | Hn]; cbn [length]; [lia |].
  specialize (IH (N.pred n)). lia.
Qed.

Lemma be_to_N_bound bs : be_to_N bs < 256 ^ N.of_nat (length bs).
Proof.
  induction bs as [| b bs IH] using rev_ind.
  - reflexivity.
  - rewrite be_to_N_snoc, length_app. cbn [length].
    replace (N.of_nat (length bs + 1)) with (N.succ (N.of_nat (length bs)))
      by lia.
    rewrite N.pow_succ_r'.
    pose proof (Byte.to_N_bounded b). lia.
Qed.

Lemma be_to_N_takeN_32 (l : list byte) : be_to_N (takeN l 32) < 2 ^ 256.
Proof.
  eapply N.lt_le_trans; [apply be_to_N_bound |].
  rewrite <- pow_256_32. apply N.pow_le_mono_r; [lia |].
  apply (size_takeN l 32).
Qed.

(** What one turn of the loop can read: a one-byte operation, at most 20
    bytes of target and a value of at most 32 bytes. *)
Lemma readRecord_bounds op afterOp tx next :
  readRecord op afterOp = Return (tx, next) ->
  MultiSend.operation tx < 256
  /\ (length (MultiSend.to tx) <= 20)%nat
  /\ MultiSend.value tx < 2 ^ 256.
Proof.
  unfold readRecord.
  destruct (takeN (dropN afterOp 20) 32) as [| v vs] eqn:Ev; [discriminate |].
  assert (Hvalue : be_to_N (v :: vs) < 2 ^ 256).
  { rewrite <- Ev. apply be_to_N_takeN_32. }
  assert (Hop : Byte.to_N op < 256)
    by (pose proof (Byte.to_N_bounded op); lia).
  assert (Hto : (length (takeN afterOp 20) <= 20)%nat)
    by (pose proof (size_takeN afterOp 20); lia).
  destruct (takeN (dropN (dropN afterOp 20) 32) 32);
    intro H; injection H as <- _; cbn; auto.
Qed.

Lemma decodePacked_bounds n packed txs tx :
  (length packed <= n)%nat ->
  decodePacked packed = Return txs ->
  In tx txs ->
  MultiSend.operation tx < 256
  /\ (length (MultiSend.to tx) <= 20)%nat
  /\ MultiSend.value tx < 2 ^ 256.
Proof.
  revert packed txs. induction n as [| n IH]; intros packed txs Hn.
  - destruct packed; [| cbn in Hn; lia].
    simp decodePacked. intro H. injection H as <-. intros [].
  - destruct packed as [| op afterOp].
    + simp decodePacked. intro H. injection H as <-. intros [].
    + rewrite decodePacked_cons.
      destruct (readRecord op afterOp) as [[tx0 [rest |]] |] eqn:E;
        [| | discriminate].
      * destruct (decodePacked rest) as [txs' |] eqn:E'; [| discriminate].
        cbn [bind]. intro H. injection H as <-.
        pose proof (readRecord_rest _ _ _ _ E) as Hrest.
        cbn [length] in Hn.
        intros [<- | Hin]; [exact (readRecord_bounds _ _ _ _ E) |].
        apply (IH rest txs'); [lia | assumption | assumption].
      * intro H. injection H as <-.
        intros [<- | []]. exact (readRecord_bounds _ _ _ _ E).
Qed.

(** A decoded batch comes from a call whose first ten characters are
    the selector of [multiSend(bytes)], in lower case, and whose argument
    the loop walked to the end. *)
Lemma decodeFunctionData_selector data decoded :
  Viem.decodeFunctionData data = Return decoded ->
  substring 0 10 data = Viem.MULTISEND_SELECTOR
  /\ Viem.functionName decoded = "multiSend".
Proof.
  unfold Viem.decodeFunctionData.
  destruct (Viem.slice data 0 (Some 4%nat)) as [selector |] eqn:Esel;
    [| discriminate].
  cbn [bind].
  destruct (String.eqb_spec selector Viem.MULTISEND_SELECTOR) as [-> | _];
    [| discriminate].
  apply slice_selector_text in Esel; [| reflexivity].
  destruct (Viem.slice data 4 None) as [body |]; [| discriminate].
  cbn [bind].
  destruct (Viem.hexToBytes body) as [bytes |]; [| discriminate].
  cbn [bind].
  destruct (Viem.decodeAbiParameters bytes); [| discriminate].
  cbn [bind]. intro H. injection H as <-. split; [now symmetry | reflexivity].
Qed.

Lemma decodeMultiSend_inv data txs :
  decodeMultiSend data = Some txs ->
  substring 0 10 data = Viem.MULTISEND_SELECTOR
  /\ exists decoded packed others,
       Viem.decodeFunctionData data = Return decoded
       /\ Viem.functionName decoded = "multiSend"
       /\ Viem.args decoded = Some (packed :: others)
       /\ decodePacked packed = Return txs.
Proof.
  unfold decodeMultiSend.
  destruct (Viem.decodeFunctionData data) as [decoded |] eqn:E;
    [| discriminate].
  cbn [bind tryCatch].
  destruct (Viem.args decoded) as [[| packed others] |] eqn:Eargs;
    try discriminate.
  destruct (String.eqb (Viem.functionName decoded) "multiSend") eqn:Ename;
    [| discriminate].
  cbn [negb].
  destruct (decodePacked packed) as [txs' |] eqn:Ep; [| discriminate].
  cbn [bind]. intro H. injection H as <-.
  destruct (decodeFunctionData_selector _ _ E) as [Hsel Hname].
  split; [assumption |]. eauto 10.
Qed.

Lemma isMultiSend_decodes data :
  isMultiSend data = true
  <-> exists decoded, Viem.decodeFunctionData data = Return decoded.
Proof.
  unfold isMultiSend. split.
  - destruct (Viem.decodeFunctionData data) as [decoded |];
      [eauto | discriminate].
  - intros (decoded & E). rewrite E. cbn [bind tryCatch].
    destruct (decodeFunctionData_selector _ _ E) as [_ ->]. reflexivity.
Qed.

(** X12.  [isMultiSend] holds only of a call whose first ten characters
    are the selector of [multiSend(bytes)] in lower case; what it rejects
    [decodeMultiSend] answers [null] on, and what [decodeMultiSend]
    decodes it accepts; it accepts every call viem encodes for a packed
    argument.  The converse fails: a call that [isMultiSend] accepts can
    be one [decodeMultiSend] answers [null] on. *)
Theorem isMultiSend_decodeMultiSend (data : string) :
  (isMultiSend data = true -> substring 0 10 data = Viem.MULTISEND_SELECTOR)
  /\ (isMultiSend data = false -> decodeMultiSend data = None)
  /\ (forall txs, decodeMultiSend data = Some txs -> isMultiSend data = true)
  /\ (forall packed, size packed < 2 ^ 256 ->
                     isMultiSend (Viem.encodeFunctionData packed) = true)
  /\ (isMultiSend (Viem.encodeFunctionData ([x00] ++ safeAddressBytes)) = true
      /\ decodeMultiSend (Viem.encodeFunctionData ([x00] ++ safeAddressBytes))
         = None).
Proof.
  assert (Hsome : forall txs, decodeMultiSend data = Some txs ->
                              isMultiSend data = true).
  { intros txs H. apply isMultiSend_decodes.
    destruct (decodeMultiSend_inv _ _ H) as (_ & decoded & _ & _ & E & _).
    eauto. }
  split; [| split; [| split; [| split]]].
  - intro H. apply isMultiSend_decodes in H. destruct H as (decoded & E).
    now destruct (decodeFunctionData_selector _ _ E).
  - intro H. destruct (decodeMultiSend data) as [txs |] eqn:E; [| reflexivity].
    rewrite (Hsome txs eq_refl) in H. discriminate.
  - exact Hsome.
  - intros packed Hsize. apply isMultiSend_decodes.
    rewrite decodeFunctionData_encode by assumption. eauto.
  - split; vm_compute; reflexivity.
Qed.

(** X13.  Every sub-call [decodeMultiSend] returns has an operation
    below 256, a target of at most 20 bytes, a value below 2^256, and a
    payload whose text is shorter than the text of the call it was
    decoded from. *)
Theorem decodeMultiSend_bounds (data : string)
        (txs : list DecodedMultiSendTransaction)
        (tx : DecodedMultiSendTransaction) :
  decodeMultiSend data = Some txs -> In tx txs ->
  MultiSend.operation tx < 256
  /\ (length (MultiSend.to tx) <= 20)%nat
  /\ MultiSend.value tx < 2 ^ 256
  /\ (String.length (bytesToHex (MultiSend.data tx))
      < String.length data)%nat.
Proof.
  intros H Hin.
  pose proof (decodeMultiSend_data_shorter _ _ _ H Hin) as Hdata.
  destruct (decodeMultiSend_inv _ _ H) as (_ & decoded & packed & others
                                             & _ & _ & _ & Ep).
  destruct (decodePacked_bounds _ _ _ _ (Nat.le_refl _) Ep Hin)
    as (Hop & Hto & Hvalue).
  auto.
Qed.

Lemma decodeMultiSend_bounds_witness :
  MultiSend.operation
    {| MultiSend.operation := 0;
       MultiSend.to := safeAddressBytes;
       MultiSend.value := 0;
       MultiSend.data := [x0d; x58] |} < 256
  /\ (String.length (bytesToHex [x0d; x58])
      < String.length (Viem.encodeFunctionData truncatedPayload))%nat.
Proof.
  assert (Hdecoded :
            decodeMultiSend (Viem.encodeFunctionData truncatedPayload)
            = Some [ {| MultiSend.operation := 0;
                        MultiSend.to := safeAddressBytes;
                        MultiSend.value := 0;
                        MultiSend.data := [x0d; x58] |} ])
    by (vm_compute; reflexivity).
  destruct (decodeMultiSend_bounds _ _ _ Hdecoded (or_introl eq_refl))
    as (Hop & _ & _ & Hdata).
  split; [exact Hop | exact Hdata].
Defined.

(* ===================================================================== *)
(** * Properties: operation description (security/delegate-call.ts)       *)
(* ===================================================================== *)


(** X14.  [getOperationDescription] agrees with [checkDelegateCall]: it
    says "Call" exactly for operation 0, "DelegateCall (trusted)" exactly
    when the check finds a trusted delegate call, the UNTRUSTED text
    exactly when the check warns, and "Unknown" exactly for an operation
    above 1, which the check treats as no delegate call; the case of the
    letters of the target does not matter. *)
Theorem getOperationDescription_checkDelegateCall
        (operation : N) (to : Address) :
  let r := checkDelegateCall operation to in
  let description := getOperationDescription operation to in
  (description = "Call" <-> operation = 0)
  /\ (description = "DelegateCall (trusted)"
      <-> DelegateCallCheckResult.isDelegateCall r = true
          /\ DelegateCallCheckResult.isTrusted r = true)
  /\ (description
      = "DelegateCall (UNTRUSTED - carefully verify before proceeding!)"
      <-> DelegateCallCheckResult.warning r <> None)
  /\ (description = "Unknown" <-> 1 < operation)
  /\ (1 < operation ->
      DelegateCallCheckResult.isDelegateCall r = false
      /\ DelegateCallCheckResult.warning r = None)
  /\ (forall to', toLowerCase to' = toLowerCase to ->
                  getOperationDescription operation to' = description).
Proof.
  cbv zeta.
  assert (Hlast : forall to', toLowerCase to' = toLowerCase to ->
                              getOperationDescription operation to'
                              = getOperationDescription operation to).
  { intros to' E. unfold getOperationDescription, isTrustedForDelegateCall.
    now rewrite E. }
  split; [| split; [| split; [| split; [| split; [| exact Hlast]]]]];
    unfold getOperationDescription, checkDelegateCall;
    unfold OperationType.Call, OperationType.DelegateCall;
    destruct (N.eqb_spec operation 0) as [-> | H0];
    try destruct (N.eqb_spec operation 1) as [-> | H1];
    cbn [N.eqb negb];
    try destruct (isTrustedForDelegateCall to);
    cbn [DelegateCallCheckResult.isDelegateCall
           DelegateCallCheckResult.isTrusted
           DelegateCallCheckResult.warning];
    try (split; intro Hgoal); try discriminate; try lia; try tauto;
    try congruence; try (destruct Hgoal; discriminate);
    try (split; [reflexivity | reflexivity]).
Qed.

(* ===================================================================== *)
(** * Properties: the checks on decoded data and on batches               *)
(** * (security/owner-checks.ts, security/module-guard-checks.ts,         *)
(** * security/analyzer.ts)                                               *)
(* ===================================================================== *)

Lemma ownerLookup_names data name :
  ownerLookup data = Some name ->
  OwnerChecks.isOwnerModificationFunction name = true
  /\ String.eqb name "multiSend" = false.
Proof.
  unfold ownerLookup.
  destruct (OwnerChecks.getFunctionSelector data) as [sel |];
    [| discriminate].
  unfold OwnerChecks.OWNER_MODIFICATION_SELECTORS. cbn [mapGet].
  intro Hlook.
  repeat match type of Hlook with
         | (if ?c then _ else _) = _ =>
             destruct c; [injection Hlook as <-; split; reflexivity |]
         end.
  discriminate.
Qed.

Lemma checkTransactionData_direct data name depth :
  ownerLookup data = Some name ->
  OwnerChecks.checkTransactionData data depth = [ownerDetection name depth].
Proof.
  intro Hlook. unfold OwnerChecks.checkTransactionData.
  now apply checkTransactionData_rec_direct.
Qed.

(** X15.  When the first ten characters of a call are the selector of an
    owner or threshold function, the check on the decoded method name of
    that function gives the result of the check on the call itself,
    whatever parameters come with the name. *)
Theorem checkOwnerModificationsFromDecoded_direct
        (data : string) (name : string)
        (parameters : option (list DecodedParameter.t)) :
  ownerLookup data = Some name ->
  checkOwnerModificationsFromDecoded name parameters
  = OwnerChecks.checkOwnerModifications data.
Proof.
  intro Hlook. destruct (ownerLookup_names _ _ Hlook) as (Hown & Hms).
  unfold checkOwnerModificationsFromDecoded,
    OwnerChecks.checkOwnerModifications.
  rewrite (checkTransactionData_direct _ _ 0 Hlook), Hown, Hms.
  destruct parameters; reflexivity.
Qed.

Lemma checkOwnerModificationsFromDecoded_direct_witness :
  checkOwnerModificationsFromDecoded "addOwnerWithThreshold" None
  = OwnerChecks.checkOwnerModifications (bytesToHex addOwnerCall).
Proof.
  apply (checkOwnerModificationsFromDecoded_direct (bytesToHex addOwnerCall)
           "addOwnerWithThreshold" None).
  vm_compute. reflexivity.
Defined.

(** The detections of the nested calls of a decoded batch. *)
Lemma nested_entries (items : list DecodedParameter.Item) det :
  In det
     (flat_map
        (fun nestedData =>
           match nestedData with
           | DecodedParameter.ItemString nestedData =>
               OwnerChecks.checkTransactionData nestedData 1
           | DecodedParameter.ItemOther => []
           end) items) ->
  OwnerModificationDetection.isNested det = true
  /\ (1 <= OwnerModificationDetection.depth det)%nat
  /\ In (OwnerModificationDetection.functionName det)
        OWNER_MODIFICATION_FUNCTIONS.
Proof.
  intro Hin. apply in_flat_map in Hin. destruct Hin as ([h |] & _ & Hin);
    [| destruct Hin].
  unfold OwnerChecks.checkTransactionData in Hin.
  apply checkTransactionData_rec_entries in Hin.
  destruct Hin as (Hn & Hd & Hf). repeat split; auto.
  rewrite Hn. apply Nat.ltb_lt. lia.
Qed.

Lemma isOwnerModificationFunction_In method :
  OwnerChecks.isOwnerModificationFunction method = true
  <-> In method OWNER_MODIFICATION_FUNCTIONS.
Proof.
  unfold OwnerChecks.isOwnerModificationFunction. rewrite existsb_exists.
  split.
  - intros (x & Hx & E). apply String.eqb_eq in E. now subst.
  - intro H. exists method. split; [assumption | apply String.eqb_refl].
Qed.

(** X16.  The detections of [checkOwnerModificationsFromDecoded]: each
    names one of the four owner and threshold functions and has the
    nesting flag of its depth; the one at depth 0 names the method
    itself, and deeper ones exist only for the method [multiSend].  A
    method of the four is listed first; another method that is not
    [multiSend], or any other method without parameters, gives no
    detection.  [modifiesOwners], the level ([critical] or [info]) and
    the warning follow from whether the list is empty. *)
Theorem checkOwnerModificationsFromDecoded_detections
        (method : string) (parameters : option (list DecodedParameter.t)) :
  let r := checkOwnerModificationsFromDecoded method parameters in
  (forall det,
      In det (OwnerModificationCheckResult.modifications r) ->
      In (OwnerModificationDetection.functionName det)
         OWNER_MODIFICATION_FUNCTIONS
      /\ OwnerModificationDetection.isNested det
         = (0 <? OwnerModificationDetection.depth det)%nat
      /\ (OwnerModificationDetection.depth det = 0%nat ->
          OwnerModificationDetection.functionName det = method)
      /\ ((0 < OwnerModificationDetection.depth det)%nat ->
          method = "multiSend"))
  /\ (In method OWNER_MODIFICATION_FUNCTIONS ->
      exists nested,
        OwnerModificationCheckResult.modifications r
        = ownerDetection method 0 :: nested)
  /\ (~ In method OWNER_MODIFICATION_FUNCTIONS -> method <> "multiSend" ->
      OwnerModificationCheckResult.modifications r = [])
  /\ (parameters = None -> ~ In method OWNER_MODIFICATION_FUNCTIONS ->
      OwnerModificationCheckResult.modifications r = [])
  /\ (OwnerModificationCheckResult.modifiesOwners r
      = (0 <? length (OwnerModificationCheckResult.modifications r))%nat)
  /\ (OwnerModificationCheckResult.warningLevel r
      = if OwnerModificationCheckResult.modifiesOwners r
        then WCritical else WInfo)
  /\ (OwnerModificationCheckResult.warning r
      = if OwnerModificationCheckResult.modifiesOwners r
        then Some (OwnerChecks.ownerWarning
                     (OwnerModificationCheckResult.modifications r))
        else None).
Proof.
  cbv zeta. unfold checkOwnerModificationsFromDecoded.
  set (direct := if OwnerChecks.isOwnerModificationFunction method
                 then [_] else []).
  set (nested := match parameters with Some _ => _ | None => [] end).
  assert (Hdirect : forall det, In det direct ->
            In (OwnerModificationDetection.functionName det)
               OWNER_MODIFICATION_FUNCTIONS
            /\ OwnerModificationDetection.isNested det = false
            /\ OwnerModificationDetection.depth det = 0%nat
            /\ OwnerModificationDetection.functionName det = method).
  { subst direct. intro det.
    destruct (OwnerChecks.isOwnerModificationFunction method) eqn:E;
      [| intros []].
    intros [<- | []]. cbn. apply isOwnerModificationFunction_In in E. auto. }
  assert (Hnested : forall det, In det nested ->
            In (OwnerModificationDetection.functionName det)
               OWNER_MODIFICATION_FUNCTIONS
            /\ OwnerModificationDetection.isNested det = true
            /\ (1 <= OwnerModificationDetection.depth det)%nat
            /\ method = "multiSend").
  { subst nested. intro det.
    destruct parameters as [ps |]; [| intros []].
    destruct (String.eqb_spec method "multiSend") as [E | _]; [| intros []].
    destruct (find _ ps) as [p |]; [| intros []].
    destruct (DecodedParameter.value p) as [s | items]; [intros [] |].
    intro Hin. apply nested_entries in Hin. tauto. }
  assert (Hall : forall det, In det (direct ++ nested) ->
            In (OwnerModificationDetection.functionName det)
               OWNER_MODIFICATION_FUNCTIONS
            /\ OwnerModificationDetection.isNested det
               = (0 <? OwnerModificationDetection.depth det)%nat
            /\ (OwnerModificationDetection.depth det = 0%nat ->
                OwnerModificationDetection.functionName det = method)
            /\ ((0 < OwnerModificationDetection.depth det)%nat ->
                method = "multiSend")).
  { intros det Hin. apply in_app_or in Hin. destruct Hin as [Hin | Hin].
    - destruct (Hdirect det Hin) as (Hf & Hn & Hd & Hm).
      rewrite Hn, Hd. repeat split; auto. lia.
    - destruct (Hnested det Hin) as (Hf & Hn & Hd & Hm).
      rewrite Hn. repeat split; auto.
      + symmetry. apply Nat.ltb_lt. lia.
      + lia. }
  assert (Hmods : OwnerModificationCheckResult.modifications
                    match direct ++ nested with
                    | [] =>
                        {| OwnerModificationCheckResult.modifiesOwners := false;
                           OwnerModificationCheckResult.modifications := [];
                           OwnerModificationCheckResult.warning := None;
                           OwnerModificationCheckResult.warningLevel := WInfo |}
                    | _ :: _ =>
                        {| OwnerModificationCheckResult.modifiesOwners := true;
                           OwnerModificationCheckResult.modifications :=
                             direct ++ nested;
                           OwnerModificationCheckResult.warning :=
                             Some (OwnerChecks.ownerWarning (direct ++ nested));
                           OwnerModificationCheckResult.warningLevel :=
                             WCritical |}
                    end = direct ++ nested)
    by (destruct (direct ++ nested); reflexivity).
  rewrite Hmods.
  split; [exact Hall |]. split; [| split; [| split]].
  - intro Hin. apply isOwnerModificationFunction_In in Hin.
    subst direct. rewrite Hin. exists nested. reflexivity.
  - intros Hnot Hms.
    destruct (direct ++ nested) as [| det rest] eqn:E; [reflexivity |].
    exfalso. destruct (Hall det (or_introl eq_refl)) as (Hf & _ & H0 & Hpos).
    destruct (OwnerModificationDetection.depth det) as [| d] eqn:Ed.
    + rewrite (H0 eq_refl) in Hf. contradiction.
    + apply Hms, Hpos. lia.
  - intros -> Hnot. subst direct nested.
    destruct (OwnerChecks.isOwnerModificationFunction method) eqn:E;
      [| reflexivity].
    exfalso. now apply Hnot, isOwnerModificationFunction_In.
  - destruct (direct ++ nested); cbn; auto.
Qed.


Section ModuleGuardProperties.

Variable decodeFunctionData : nat -> string -> Exc (list Hex).

Lemma isTrustedModule_In address :
  ModuleGuardChecks.isTrustedModule address = true ->
  In (bytesToHex address) (map toLowerCase TRUSTED_MODULES).
Proof.
  unfold ModuleGuardChecks.isTrustedModule. rewrite existsb_exists.
  intros (trusted & Hin & E). apply String.eqb_eq in E. rewrite <- E.
  now apply in_map.
Qed.

Lemma moduleDetection_ok name data depth :
  In name MODULE_MANAGEMENT_FUNCTIONS ->
  detectionOk depth
    (ModuleGuardChecks.moduleDetection decodeFunctionData name data depth).
Proof.
  intro Hname. unfold ModuleGuardChecks.moduleDetection.
  destruct (decodeFunctionData _ data) as [decodedArgs |];
    cbn [bind tryCatch].
  - destruct (if String.eqb name "enableModule"
              then nth_error decodedArgs 0 else nth_error decodedArgs 1)
      as [moduleAddress |]; cbn [tryCatch].
    + unfold detectionOk, ModuleGuardChecks.detection. cbn.
      repeat split; auto.
      exists moduleAddress. split; [reflexivity |].
      now apply isTrustedModule_In.
    + unfold detectionOk, ModuleGuardChecks.detection. cbn.
      repeat split; auto; discriminate.
  - unfold detectionOk, ModuleGuardChecks.detection. cbn.
    repeat split; auto; discriminate.
Qed.

Lemma guardDetection_ok name data depth :
  In name GUARD_MANAGEMENT_FUNCTIONS ->
  detectionOk depth
    (ModuleGuardChecks.guardDetection decodeFunctionData name data depth).
Proof.
  intro Hname. unfold ModuleGuardChecks.guardDetection.
  destruct (decodeFunctionData _ data) as [decodedArgs |];
    cbn [bind tryCatch].
  - destruct (nth_error decodedArgs 0) as [guardAddress |]; cbn [tryCatch];
      unfold detectionOk, ModuleGuardChecks.detection; cbn;
      repeat split; auto; discriminate.
  - unfold detectionOk, ModuleGuardChecks.detection. cbn.
    repeat split; auto; discriminate.
Qed.

Lemma moduleLookup_empty data :
  (String.eqb data "" || String.eqb data "0x") = true ->
  ModuleGuardChecks.getFunctionSelector data = None
  /\ decodeMultiSend data = None.
Proof.
  destruct (String.eqb_spec data "") as [-> | _]; [intros _; now split |].
  destruct (String.eqb_spec data "0x") as [-> | _]; [intros _; now split |].
  discriminate.
Qed.

Lemma moduleGuard_rec_module fuel data depth name :
  moduleLookup data = Some name ->
  ModuleGuardChecks.checkTransactionData_rec decodeFunctionData (S fuel)
                                             data depth
  = [ModuleGuardChecks.moduleDetection decodeFunctionData name data depth].
Proof.
  unfold moduleLookup. intro Hlook.
  cbn [ModuleGuardChecks.checkTransactionData_rec].
  destruct (String.eqb data "" || String.eqb data "0x") eqn:Eempty.
  - apply moduleLookup_empty in Eempty. destruct Eempty as [E _].
    rewrite E in Hlook. discriminate.
  - destruct (ModuleGuardChecks.getFunctionSelector data) as [sel |];
      [| discriminate].
    rewrite Hlook. reflexivity.
Qed.

Lemma moduleGuard_rec_guard fuel data depth name :
  moduleLookup data = None -> guardLookup data = Some name ->
  ModuleGuardChecks.checkTransactionData_rec decodeFunctionData (S fuel)
                                             data depth
  = [ModuleGuardChecks.guardDetection decodeFunctionData name data depth].
Proof.
  unfold moduleLookup, guardLookup. intros Hm Hg.
  cbn [ModuleGuardChecks.checkTransactionData_rec].
  destruct (String.eqb data "" || String.eqb data "0x") eqn:Eempty.
  - apply moduleLookup_empty in Eempty. destruct Eempty as [E _].
    rewrite E in Hg. discriminate.
  - destruct (ModuleGuardChecks.getFunctionSelector data) as [sel |];
      [| discriminate].
    rewrite Hm, Hg. reflexivity.
Qed.

Lemma moduleGuard_rec_nested fuel data depth :
  moduleLookup data = None -> guardLookup data = None ->
  ModuleGuardChecks.checkTransactionData_rec decodeFunctionData (S fuel)
                                             data depth
  = match decodeMultiSend data with
    | Some multiSendTxs =>
        flat_map (fun tx =>
                    ModuleGuardChecks.checkTransactionData_rec
                      decodeFunctionData fuel
                      (bytesToHex (MultiSend.data tx)) (depth + 1))
                 multiSendTxs
    | None => []
    end.
Proof.
  unfold moduleLookup, guardLookup. intros Hm Hg.
  cbn [ModuleGuardChecks.checkTransactionData_rec].
  destruct (String.eqb data "" || String.eqb data "0x") eqn:Eempty.
  - apply moduleLookup_empty in Eempty. destruct Eempty as [_ ->].
    reflexivity.
  - destruct (ModuleGuardChecks.getFunctionSelector data) as [sel |];
      [| reflexivity].
    rewrite Hm, Hg. reflexivity.
Qed.

Lemma moduleLookup_names data name :
  moduleLookup data = Some name ->
  In name MODULE_MANAGEMENT_FUNCTIONS
  /\ ModuleGuardChecks.isModuleManagementFunction name = true
  /\ ModuleGuardChecks.isGuardManagementFunction name = false.
Proof.
  unfold moduleLookup.
  destruct (ModuleGuardChecks.getFunctionSelector data) as [sel |];
    [| discriminate].
  unfold ModuleGuardChecks.MODULE_SELECTORS. cbn [mapGet]. intro Hlook.
  repeat match type of Hlook with
         | (if ?c then _ else _) = _ =>
             destruct c; [injection Hlook as <-; cbn; tauto |]
         end.
  discriminate.
Qed.

Lemma guardLookup_names data name :
  guardLookup data = Some name ->
  In name GUARD_MANAGEMENT_FUNCTIONS
  /\ ModuleGuardChecks.isModuleManagementFunction name = false
  /\ ModuleGuardChecks.isGuardManagementFunction name = true.
Proof.
  unfold guardLookup.
  destruct (ModuleGuardChecks.getFunctionSelector data) as [sel |];
    [| discriminate].
  unfold ModuleGuardChecks.GUARD_SELECTORS. cbn [mapGet]. intro Hlook.
  repeat match type of Hlook with
         | (if ?c then _ else _) = _ =>
             destruct c; [injection Hlook as <-; cbn; tauto |]
         end.
  discriminate.
Qed.

Lemma moduleGuard_rec_entries fuel :
  forall data base det,
    In det (ModuleGuardChecks.checkTransactionData_rec decodeFunctionData
              fuel data base) ->
    detectionOk base det.
Proof.
  induction fuel as [| fuel IH]; intros data base det; [intros [] |].
  destruct (moduleLookup data) as [name |] eqn:Hm.
  - rewrite (moduleGuard_rec_module _ _ _ _ Hm). intros [<- | []].
    apply moduleDetection_ok. now apply (moduleLookup_names data).
  - destruct (guardLookup data) as [name |] eqn:Hg.
    + rewrite (moduleGuard_rec_guard _ _ _ _ Hm Hg). intros [<- | []].
      apply guardDetection_ok. now apply (guardLookup_names data).
    + rewrite (moduleGuard_rec_nested _ _ _ Hm Hg).
      destruct (decodeMultiSend data) as [txs |]; [| intros []].
      intro Hin. apply in_flat_map in Hin. destruct Hin as (tx & _ & Hin).
      apply IH in Hin. destruct Hin as (Hn & Hd & Hrest).
      split; [assumption |]. split; [lia | assumption].
Qed.

End ModuleGuardProperties.

Lemma filter_length_positive {A} (f : A -> bool) l :
  (0 <? length (filter f l))%nat = existsb f l.
Proof.
  induction l as [| a l IH]; cbn [filter existsb]; [reflexivity |].
  destruct (f a); cbn [length orb]; [reflexivity | exact IH].
Qed.

(** X17.  The detections of [checkModuleGuardOperations], for every
    behaviour of viem's decoder: each has the nesting flag of its depth;
    a module detection names [enableModule] or [disableModule], a guard
    detection names [setGuard] and is never trusted; a trusted detection
    carries a decoded address of the module trust list.  The two flags
    say whether a module and a guard detection exist; the level is
    [info] without warnings when there is no detection, and [high] with
    at least one warning otherwise. *)
Theorem checkModuleGuardOperations_detections
        (decodeFunctionData : nat -> string -> Exc (list Hex))
        (data : string) :
  let r := ModuleGuardChecks.checkModuleGuardOperations decodeFunctionData
                                                        data in
  (forall det,
      In det (ModuleGuardCheckResult.detections r) ->
      ModuleGuardDetection.isNested det
      = (0 <? ModuleGuardDetection.depth det)%nat
      /\ match ModuleGuardDetection.type det with
         | module => In (ModuleGuardDetection.functionName det)
                        MODULE_MANAGEMENT_FUNCTIONS
         | guard => ModuleGuardDetection.functionName det = "setGuard"
                    /\ ModuleGuardDetection.isTrusted det = false
         end
      /\ (ModuleGuardDetection.isTrusted det = true ->
          exists address,
            ModuleGuardDetection.targetAddress det = Some address
            /\ In (bytesToHex address) (map toLowerCase TRUSTED_MODULES)))
  /\ ModuleGuardCheckResult.hasModuleOperation r
     = existsb ModuleGuardChecks.isModule (ModuleGuardCheckResult.detections r)
  /\ ModuleGuardCheckResult.hasGuardOperation r
     = existsb ModuleGuardChecks.isGuard (ModuleGuardCheckResult.detections r)
  /\ (ModuleGuardCheckResult.detections r = [] ->
      ModuleGuardCheckResult.warningLevel r = WInfo
      /\ ModuleGuardCheckResult.warnings r = None)
  /\ (ModuleGuardCheckResult.detections r <> [] ->
      ModuleGuardCheckResult.warningLevel r = WHigh
      /\ exists warning others,
           ModuleGuardCheckResult.warnings r = Some (warning :: others)).
Proof.
  cbv zeta. unfold ModuleGuardChecks.checkModuleGuardOperations.
  pose proof (moduleGuard_rec_entries decodeFunctionData
                (S (String.length data)) data 0) as Hentries.
  fold (ModuleGuardChecks.checkTransactionData decodeFunctionData data 0)
    in Hentries.
  destruct (ModuleGuardChecks.checkTransactionData decodeFunctionData data 0)
    as [| d ds] eqn:E.
  - cbn. repeat split; try reflexivity; try contradiction;
      try (intro Hne; congruence).
  - cbv zeta.
    cbn [ModuleGuardCheckResult.detections
           ModuleGuardCheckResult.hasModuleOperation
           ModuleGuardCheckResult.hasGuardOperation
           ModuleGuardCheckResult.warningLevel
           ModuleGuardCheckResult.warnings].
    split; [| split; [apply filter_length_positive
                      | split; [apply filter_length_positive | split]]].
    + intros det Hin. destruct (Hentries det Hin) as (Hn & _ & Hname & Ht).
      split; [assumption |]. split.
      * destruct (ModuleGuardDetection.type det) eqn:Etype; [assumption |].
        split.
        -- destruct Hname as [<- | []]. reflexivity.
        -- destruct (ModuleGuardDetection.isTrusted det); [| reflexivity].
           destruct (Ht eq_refl) as (Habs & _). discriminate.
      * intro Htrue. destruct (Ht Htrue) as (_ & address & Ha & Hin').
        exists address. split; assumption.
    + intro Habs. discriminate.
    + intros _. split; [reflexivity |].
      set (moduleOps := filter ModuleGuardChecks.isModule (d :: ds)).
      set (guardOps := filter ModuleGuardChecks.isGuard (d :: ds)).
      destruct (0 <? length moduleOps)%nat eqn:Em.
      * apply Nat.ltb_lt in Em.
        destruct (0 <? length moduleOps
                       - length (filter ModuleGuardDetection.isTrusted
                                        moduleOps))%nat eqn:Eu.
        -- cbn [app]. eauto.
        -- apply Nat.ltb_ge in Eu.
           assert (Ht : (0 <? length (filter ModuleGuardDetection.isTrusted
                                             moduleOps))%nat = true)
             by (apply Nat.ltb_lt; lia).
           rewrite Ht. cbn [app]. eauto.
      * assert (Hg : (0 <? length guardOps)%nat = true).
        { subst moduleOps guardOps. rewrite filter_length_positive in *.
          cbn [existsb] in *. apply orb_false_iff in Em. destruct Em as [Em _].
          unfold ModuleGuardChecks.isModule in Em.
          unfold ModuleGuardChecks.isGuard.
          destruct (ModuleGuardDetection.type d); [discriminate | reflexivity]. }
        rewrite Hg. cbn [app]. eauto.
Qed.

(** X18.  [checkModuleGuardOperationsFromDecoded] by the method name:
    the two flags are the two membership tests, which exclude each other;
    there is at most one detection, for the method itself, at depth 0,
    not nested, without address and not trusted; the level is [high] for
    a module or guard function and [info] otherwise, and the warning is
    the fixed text of the kind. *)
Theorem checkModuleGuardOperationsFromDecoded_spec (method : string) :
  let r := checkModuleGuardOperationsFromDecoded method in
  ModuleGuardCheckResult.hasModuleOperation r
  = ModuleGuardChecks.isModuleManagementFunction method
  /\ ModuleGuardCheckResult.hasGuardOperation r
     = ModuleGuardChecks.isGuardManagementFunction method
  /\ (ModuleGuardCheckResult.hasModuleOperation r = true ->
      ModuleGuardCheckResult.hasGuardOperation r = false)
  /\ (length (ModuleGuardCheckResult.detections r) <= 1)%nat
  /\ (forall det,
         In det (ModuleGuardCheckResult.detections r) ->
         ModuleGuardDetection.functionName det = method
         /\ ModuleGuardDetection.targetAddress det = None
         /\ ModuleGuardDetection.isTrusted det = false
         /\ ModuleGuardDetection.isNested det = false
         /\ ModuleGuardDetection.depth det = 0%nat)
  /\ (ModuleGuardCheckResult.warningLevel r
      = if ModuleGuardChecks.isModuleManagementFunction method
           || ModuleGuardChecks.isGuardManagementFunction method
        then WHigh else WInfo)
  /\ (ModuleGuardCheckResult.warnings r
      = if ModuleGuardChecks.isModuleManagementFunction method then
          Some [ "WARNING: This transaction modifies Safe modules! Modules have unlimited access and can bypass signatures." ]
        else if ModuleGuardChecks.isGuardManagementFunction method then
          Some [ "WARNING: This transaction modifies the Safe guard! Improperly configured guards can brick the Safe." ]
        else None).
Proof.
  cbv zeta. unfold checkModuleGuardOperationsFromDecoded.
  assert (Hexcl : ModuleGuardChecks.isModuleManagementFunction method = true ->
                  ModuleGuardChecks.isGuardManagementFunction method = false).
  { unfold ModuleGuardChecks.isModuleManagementFunction,
      ModuleGuardChecks.isGuardManagementFunction.
    cbn [existsb MODULE_MANAGEMENT_FUNCTIONS GUARD_MANAGEMENT_FUNCTIONS].
    rewrite !orb_false_r. intro H. apply orb_true_iff in H.
    destruct H as [H | H]; apply String.eqb_eq in H; subst; reflexivity. }
  destruct (ModuleGuardChecks.isModuleManagementFunction method) eqn:Em;
    [rewrite (Hexcl eq_refl)
    | destruct (ModuleGuardChecks.isGuardManagementFunction method) eqn:Eg];
    cbn;
    (split; [reflexivity
            | split; [reflexivity
                     | split; [intro Hgoal; congruence
                              | split; [lia
                                       | split; [| split; reflexivity]]]]]).
  - intros det [<- | []]. repeat split.
  - intros det [<- | []]. repeat split.
  - intros det [].
Qed.

(** X19.  On a call whose first ten characters are the selector of a
    module or guard function, the check on the call and the check on the
    decoded method name agree on the two flags, on the level [high] and
    on kind, name, nesting flag and depth of the detection, for every
    behaviour of viem's decoder. *)
Theorem checkModuleGuardOperations_agree
        (decodeFunctionData : nat -> string -> Exc (list Hex))
        (data : string) (name : string) :
  moduleLookup data = Some name
  \/ (moduleLookup data = None /\ guardLookup data = Some name) ->
  let raw := ModuleGuardChecks.checkModuleGuardOperations decodeFunctionData
                                                          data in
  let api := checkModuleGuardOperationsFromDecoded name in
  ModuleGuardCheckResult.hasModuleOperation raw
  = ModuleGuardCheckResult.hasModuleOperation api
  /\ ModuleGuardCheckResult.hasGuardOperation raw
     = ModuleGuardCheckResult.hasGuardOperation api
  /\ ModuleGuardCheckResult.warningLevel raw = WHigh
  /\ ModuleGuardCheckResult.warningLevel api = WHigh
  /\ map (fun det => (ModuleGuardDetection.type det,
                      ModuleGuardDetection.functionName det,
                      ModuleGuardDetection.isNested det,
                      ModuleGuardDetection.depth det))
         (ModuleGuardCheckResult.detections raw)
     = map (fun det => (ModuleGuardDetection.type det,
                        ModuleGuardDetection.functionName det,
                        ModuleGuardDetection.isNested det,
                        ModuleGuardDetection.depth det))
           (ModuleGuardCheckResult.detections api).
Proof.
  intro Hlook. cbv zeta.
  unfold ModuleGuardChecks.checkModuleGuardOperations,
    ModuleGuardChecks.checkTransactionData,
    checkModuleGuardOperationsFromDecoded.
  destruct Hlook as [Hm | [Hm Hg]].
  - rewrite (moduleGuard_rec_module _ _ _ _ _ Hm).
    destruct (moduleLookup_names _ _ Hm) as (_ & -> & ->).
    unfold ModuleGuardChecks.moduleDetection.
    destruct (decodeFunctionData _ data) as [decodedArgs |];
      cbn [bind tryCatch];
      [destruct (if String.eqb name "enableModule"
                 then nth_error decodedArgs 0 else nth_error decodedArgs 1)
         as [moduleAddress |]; cbn [tryCatch] |];
      cbn; repeat split; reflexivity.
  - rewrite (moduleGuard_rec_guard _ _ _ _ _ Hm Hg).
    destruct (guardLookup_names _ _ Hg) as (_ & -> & ->).
    unfold ModuleGuardChecks.guardDetection.
    destruct (decodeFunctionData _ data) as [decodedArgs |];
      cbn [bind tryCatch];
      [destruct (nth_error decodedArgs 0) as [guardAddress |];
       cbn [tryCatch] |];
      cbn; repeat split; reflexivity.
Qed.

Lemma checkModuleGuardOperations_agree_witness :
  ModuleGuardCheckResult.hasModuleOperation
    (ModuleGuardChecks.checkModuleGuardOperations
       decodeAddressArgs (bytesToHex enableModuleCall))
  = ModuleGuardCheckResult.hasModuleOperation
      (checkModuleGuardOperationsFromDecoded "enableModule").
Proof.
  refine (proj1 (checkModuleGuardOperations_agree decodeAddressArgs
                   (bytesToHex enableModuleCall) "enableModule" _)).
  left. vm_compute. reflexivity.
Defined.


Lemma checkDelegateCall_untrusted to :
  isTrustedForDelegateCall to = false ->
  DelegateCallCheckResult.warningLevel (checkDelegateCall 1 to)
  = Some WCritical.
Proof.
  intro H. unfold checkDelegateCall.
  change (1 =? OperationType.DelegateCall) with true. cbn [negb].
  rewrite H. reflexivity.
Qed.

Lemma checkDelegateCall_quiet operation to :
  operation <> 1 \/ isTrustedForDelegateCall to = true ->
  DelegateCallCheckResult.warningLevel (checkDelegateCall operation to)
  = None.
Proof.
  intro H. unfold checkDelegateCall, OperationType.DelegateCall.
  destruct (N.eqb_spec operation 1) as [-> | Hne]; cbn [negb];
    [| reflexivity].
  destruct H as [H | H]; [congruence |]. rewrite H. reflexivity.
Qed.

Lemma checkGasTokenAttack_quiet gasPrice gasToken refundReceiver :
  isZeroAddress gasToken = true -> isZeroAddress refundReceiver = true ->
  GasTokenCheckResult.riskLevel
    (checkGasTokenAttack gasPrice gasToken refundReceiver) = RiskNone
  /\ GasTokenCheckResult.warnings
       (checkGasTokenAttack gasPrice gasToken refundReceiver) = [].
Proof.
  unfold isZeroAddress, checkGasTokenAttack. intros -> ->. cbn. auto.
Qed.

Lemma checkOwnerModifications_level data :
  OwnerModificationCheckResult.warningLevel
    (OwnerChecks.checkOwnerModifications data)
  = if OwnerModificationCheckResult.modifiesOwners
         (OwnerChecks.checkOwnerModifications data)
    then WCritical else WInfo.
Proof.
  unfold OwnerChecks.checkOwnerModifications.
  destruct (OwnerChecks.checkTransactionData data 0); reflexivity.
Qed.

Lemma checkModuleGuardOperations_level decodeFunctionData data :
  let mg :=
    ModuleGuardChecks.checkModuleGuardOperations decodeFunctionData data in
  (ModuleGuardCheckResult.detections mg <> [] ->
   ModuleGuardCheckResult.warningLevel mg = WHigh)
  /\ (ModuleGuardCheckResult.detections mg = [] ->
      ModuleGuardCheckResult.warningLevel mg = WInfo
      /\ ModuleGuardCheckResult.hasModuleOperation mg = false
      /\ ModuleGuardCheckResult.hasGuardOperation mg = false).
Proof.
  cbv zeta. unfold ModuleGuardChecks.checkModuleGuardOperations.
  destruct (ModuleGuardChecks.checkTransactionData decodeFunctionData data 0);
    cbn [ModuleGuardCheckResult.detections
           ModuleGuardCheckResult.warningLevel
           ModuleGuardCheckResult.hasModuleOperation
           ModuleGuardCheckResult.hasGuardOperation];
    split; intro Hgoal; try congruence; auto.
Qed.

(** X20.  Floors of the verdict of [analyzeSecurity]: an untrusted
    delegate call or a detected owner modification makes the overall risk
    [critical], a module or guard detection makes it [high] or
    [critical], and each of them requires careful review; a record with
    empty data, no untrusted delegate call and zero gas token and refund
    receiver has no risk and needs no careful review. *)
Theorem analyzeSecurity_floors
        (decodeFunctionData : nat -> string -> Exc (list Hex))
        (txData : SafeTransactionData) :
  let r := analyzeSecurity decodeFunctionData txData in
  (operation txData = 1 -> isTrustedForDelegateCall (to txData) = false ->
   SecurityAnalysisResult.overallRisk r = Critical
   /\ SecurityAnalysisResult.requiresCarefulReview r = true)
  /\ (OwnerModificationCheckResult.modifiesOwners
        (SecurityAnalysisResult.ownerModification r) = true ->
      SecurityAnalysisResult.overallRisk r = Critical
      /\ SecurityAnalysisResult.requiresCarefulReview r = true)
  /\ (ModuleGuardCheckResult.detections
        (SecurityAnalysisResult.moduleGuard r) <> [] ->
      (SecurityAnalysisResult.overallRisk r = High
       \/ SecurityAnalysisResult.overallRisk r = Critical)
      /\ SecurityAnalysisResult.requiresCarefulReview r = true)
  /\ (data txData = [] ->
      operation txData <> 1 \/ isTrustedForDelegateCall (to txData) = true ->
      isZeroAddress (gasToken txData) = true ->
      isZeroAddress (refundReceiver txData) = true ->
      SecurityAnalysisResult.overallRisk r = RiskNone
      /\ SecurityAnalysisResult.requiresCarefulReview r = false).
Proof.
  cbv zeta. unfold analyzeSecurity.
  cbn [SecurityAnalysisResult.overallRisk
         SecurityAnalysisResult.requiresCarefulReview
         SecurityAnalysisResult.ownerModification
         SecurityAnalysisResult.moduleGuard].
  split; [| split; [| split]].
  - intros Hop Htrust. rewrite Hop, (checkDelegateCall_untrusted _ Htrust).
    cbn. auto.
  - intro Hown. rewrite checkOwnerModifications_level, Hown.
    destruct (DelegateCallCheckResult.warningLevel
                (checkDelegateCall (operation txData) (to txData)))
      as [[] |];
      destruct (GasTokenCheckResult.riskLevel
                  (checkGasTokenAttack (gasPrice txData) (gasToken txData)
                                       (refundReceiver txData)));
      cbn; auto.
  - intro Hdet.
    rewrite (proj1 (checkModuleGuardOperations_level decodeFunctionData
                      (bytesToHex (data txData))) Hdet).
    destruct (DelegateCallCheckResult.warningLevel
                (checkDelegateCall (operation txData) (to txData)))
      as [[] |];
      destruct (GasTokenCheckResult.riskLevel
                  (checkGasTokenAttack (gasPrice txData) (gasToken txData)
                                       (refundReceiver txData)));
      destruct (OwnerModificationCheckResult.warningLevel
                  (OwnerChecks.checkOwnerModifications
                     (bytesToHex (data txData))));
      cbn; auto.
  - intros Hdata Hop Htoken Hreceiver.
    rewrite (checkDelegateCall_quiet _ _ Hop).
    destruct (checkGasTokenAttack_quiet (gasPrice txData) _ _ Htoken Hreceiver)
      as [-> ->].
    rewrite Hdata. cbn. auto.
Qed.


Lemma length_encodeMultiSend txs :
  exists fuel, String.length (encodeMultiSend txs) = S fuel.
Proof.
  unfold encodeMultiSend, Viem.encodeFunctionData, bytesToHex.
  cbn [String.length]. eauto.
Qed.

(** X21.  A batch cannot hide an owner modification: when one of the
    sub-calls of a well-formed batch carries the selector of an owner or
    threshold function, the check on the call viem encodes for the batch
    lists that function, nested at depth 1, and answers [modifiesOwners]
    with level [critical]. *)
Theorem checkOwnerModifications_in_batch
        (txs : list DecodedMultiSendTransaction)
        (tx : DecodedMultiSendTransaction) (name : string) :
  Forall wellFormed txs ->
  size (packTransactions txs) < 2 ^ 256 ->
  In tx txs ->
  ownerLookup (bytesToHex (MultiSend.data tx)) = Some name ->
  let r := OwnerChecks.checkOwnerModifications (encodeMultiSend txs) in
  In (ownerDetection name 1) (OwnerModificationCheckResult.modifications r)
  /\ OwnerModificationCheckResult.modifiesOwners r = true
  /\ OwnerModificationCheckResult.warningLevel r = WCritical.
Proof.
  intros Hwf Hsize Hin Hlook. cbv zeta.
  assert (Hdet : In (ownerDetection name 1)
                    (OwnerChecks.checkTransactionData (encodeMultiSend txs) 0)).
  { unfold OwnerChecks.checkTransactionData.
    rewrite (checkTransactionData_rec_nested _ _ _
               (ownerLookup_encodeMultiSend txs)).
    rewrite decodeMultiSend_encode by assumption.
    apply in_flat_map. exists tx. split; [assumption |].
    destruct (length_encodeMultiSend txs) as (fuel & ->).
    rewrite (checkTransactionData_rec_direct _ _ _ _ Hlook).
    now left. }
  unfold OwnerChecks.checkOwnerModifications.
  destruct (OwnerChecks.checkTransactionData (encodeMultiSend txs) 0)
    as [| d ds]; [destruct Hdet |].
  cbn. auto.
Qed.

Lemma checkOwnerModifications_in_batch_witness :
  In (ownerDetection "addOwnerWithThreshold" 1)
     (OwnerModificationCheckResult.modifications
        (OwnerChecks.checkOwnerModifications (encodeMultiSend exampleBatch))).
Proof.
  refine (proj1 (checkOwnerModifications_in_batch exampleBatch
                   {| MultiSend.operation := 0;
                      MultiSend.to := safeAddressBytes;
                      MultiSend.value := 0;
                      MultiSend.data := addOwnerCall |}
                   "addOwnerWithThreshold" exampleBatch_wellFormed
                   eq_refl (or_introl eq_refl) _)).
  vm_compute. reflexivity.
Defined.

Lemma moduleLookup_encodeMultiSend txs :
  moduleLookup (encodeMultiSend txs) = None
  /\ guardLookup (encodeMultiSend txs) = None.
Proof.
  unfold moduleLookup, guardLookup, encodeMultiSend,
    Viem.encodeFunctionData.
  rewrite MULTISEND_SELECTOR_bytes.
  change ModuleGuardChecks.getFunctionSelector
    with OwnerChecks.getFunctionSelector.
  rewrite getFunctionSelector_bytesToHex by reflexivity.
  split; reflexivity.
Qed.

(** X22.  A batch cannot hide a module or guard operation: when one of
    the sub-calls of a well-formed batch carries the selector of a module
    or guard function, the check on the call viem encodes for the batch
    lists that function, nested at depth 1, with level [high] and one of
    the two flags set, for every behaviour of viem's decoder. *)
Theorem checkModuleGuardOperations_in_batch
        (decodeFunctionData : nat -> string -> Exc (list Hex))
        (txs : list DecodedMultiSendTransaction)
        (tx : DecodedMultiSendTransaction) (name : string) :
  Forall wellFormed txs ->
  size (packTransactions txs) < 2 ^ 256 ->
  In tx txs ->
  moduleLookup (bytesToHex (MultiSend.data tx)) = Some name
  \/ (moduleLookup (bytesToHex (MultiSend.data tx)) = None
      /\ guardLookup (bytesToHex (MultiSend.data tx)) = Some name) ->
  let r := ModuleGuardChecks.checkModuleGuardOperations decodeFunctionData
             (encodeMultiSend txs) in
  (exists det,
      In det (ModuleGuardCheckResult.detections r)
      /\ ModuleGuardDetection.functionName det = name
      /\ ModuleGuardDetection.isNested det = true
      /\ ModuleGuardDetection.depth det = 1%nat)
  /\ ModuleGuardCheckResult.warningLevel r = WHigh
  /\ (ModuleGuardCheckResult.hasModuleOperation r = true
      \/ ModuleGuardCheckResult.hasGuardOperation r = true).
Proof.
  intros Hwf Hsize Hin Hlook. cbv zeta.
  assert (Hdet : exists det,
             In det (ModuleGuardChecks.checkTransactionData
                       decodeFunctionData (encodeMultiSend txs) 0)
             /\ ModuleGuardDetection.functionName det = name
             /\ ModuleGuardDetection.isNested det = true
             /\ ModuleGuardDetection.depth det = 1%nat).
  { destruct (moduleLookup_encodeMultiSend txs) as [Hm Hg].
    unfold ModuleGuardChecks.checkTransactionData.
    rewrite (moduleGuard_rec_nested _ _ _ _ Hm Hg).
    destruct (length_encodeMultiSend txs) as (fuel & Hlen). rewrite Hlen.
    rewrite decodeMultiSend_encode by assumption.
    destruct Hlook as [Hm' | [Hm' Hg']].
    - exists (ModuleGuardChecks.moduleDetection decodeFunctionData name
                (bytesToHex (MultiSend.data tx)) 1).
      split.
      + apply in_flat_map. exists tx. split; [assumption |].
        rewrite (moduleGuard_rec_module _ _ _ _ _ Hm'). now left.
      + unfold ModuleGuardChecks.moduleDetection.
        destruct (decodeFunctionData _ (bytesToHex (MultiSend.data tx)))
          as [decodedArgs |]; cbn [bind tryCatch];
          [destruct (if String.eqb name "enableModule"
                     then nth_error decodedArgs 0
                     else nth_error decodedArgs 1); cbn [tryCatch] |];
          cbn; auto.
    - exists (ModuleGuardChecks.guardDetection decodeFunctionData name
                (bytesToHex (MultiSend.data tx)) 1).
      split.
      + apply in_flat_map. exists tx. split; [assumption |].
        rewrite (moduleGuard_rec_guard _ _ _ _ _ Hm' Hg'). now left.
      + unfold ModuleGuardChecks.guardDetection.
        destruct (decodeFunctionData _ (bytesToHex (MultiSend.data tx)))
          as [decodedArgs |]; cbn [bind tryCatch];
          [destruct (nth_error decodedArgs 0); cbn [tryCatch] |];
          cbn; auto. }
  pose proof (checkModuleGuardOperations_matched decodeFunctionData
                (encodeMultiSend txs)) as Hmatched.
  pose proof (checkModuleGuardOperations_level decodeFunctionData
                (encodeMultiSend txs)) as [Hlevel _].
  cbv zeta in Hmatched, Hlevel.
  assert (Hne : ModuleGuardCheckResult.detections
                  (ModuleGuardChecks.checkModuleGuardOperations
                     decodeFunctionData (encodeMultiSend txs)) <> []
                /\ ModuleGuardCheckResult.detections
                     (ModuleGuardChecks.checkModuleGuardOperations
                        decodeFunctionData (encodeMultiSend txs))
                   = ModuleGuardChecks.checkTransactionData
                       decodeFunctionData (encodeMultiSend txs) 0).
  { unfold ModuleGuardChecks.checkModuleGuardOperations.
    destruct Hdet as (det & Hdin & _).
    destruct (ModuleGuardChecks.checkTransactionData decodeFunctionData
                (encodeMultiSend txs) 0) as [| d ds]; [destruct Hdin |].
    cbn [ModuleGuardCheckResult.detections]. split; [discriminate | reflexivity]. }
  destruct Hne as [Hne Heq].
  split; [rewrite Heq; exact Hdet |].
  split; [now apply Hlevel | now apply Hmatched].
Qed.

Lemma checkModuleGuardOperations_in_batch_witness :
  ModuleGuardCheckResult.warningLevel
    (ModuleGuardChecks.checkModuleGuardOperations decodeAddressArgs
       (encodeMultiSend
          [ {| MultiSend.operation := 0;
               MultiSend.to := safeAddressBytes;
               MultiSend.value := 0;
               MultiSend.data := enableModuleCall |} ])) = WHigh.
Proof.
  refine (proj1 (proj2 (checkModuleGuardOperations_in_batch decodeAddressArgs
                   [ {| MultiSend.operation := 0;
                        MultiSend.to := safeAddressBytes;
                        MultiSend.value := 0;
                        MultiSend.data := enableModuleCall |} ]
                   {| MultiSend.operation := 0;
                      MultiSend.to := safeAddressBytes;
                      MultiSend.value := 0;
                      MultiSend.data := enableModuleCall |}
                   "enableModule" _ eq_refl (or_introl eq_refl) _))).
  - repeat constructor; cbn; reflexivity.
  - left. vm_compute. reflexivity.
Defined.

(* ===================================================================== *)
(** * Properties: selectors as text in the module and guard check         *)
(** * (security/module-guard-checks.ts)                                   *)
(* ===================================================================== *)

Lemma moduleSelectors_lower_case sel name :
  mapGet ModuleGuardChecks.MODULE_SELECTORS sel = Some name
  \/ mapGet ModuleGuardChecks.GUARD_SELECTORS sel = Some name ->
  toLowerCase sel = sel.
Proof.
  unfold ModuleGuardChecks.MODULE_SELECTORS, ModuleGuardChecks.GUARD_SELECTORS.
  cbn [mapGet]. intros [H | H]; revert H;
    repeat match goal with
           | |- (if String.eqb ?k sel then _ else _) = _ -> _ =>
               destruct (String.eqb_spec k sel) as [<- | _];
               [intros _; reflexivity |]
           end; discriminate.
Qed.

Lemma moduleGuard_getFunctionSelector_text data sel :
  ModuleGuardChecks.getFunctionSelector data = Some sel ->
  sel = substring 0 10 data.
Proof. apply getFunctionSelector_text. Qed.

(** X23.  The module and guard check reads selectors as text, like the
    owner check: on a call whose first ten characters are not all in
    lower case it finds nothing and answers level [info], for every
    behaviour of viem's decoder; so it does on an [enableModule] call
    whose selector is written in upper case. *)
Theorem checkModuleGuardOperations_case_sensitive
        (decodeFunctionData : nat -> string -> Exc (list Hex))
        (data : string) :
  toLowerCase (substring 0 10 data) <> substring 0 10 data ->
  ModuleGuardChecks.checkModuleGuardOperations decodeFunctionData data
  = {| ModuleGuardCheckResult.hasModuleOperation := false;
       ModuleGuardCheckResult.hasGuardOperation := false;
       ModuleGuardCheckResult.detections := [];
       ModuleGuardCheckResult.warnings := None;
       ModuleGuardCheckResult.warningLevel := WInfo |}.
Proof.
  intro Hcase.
  assert (Hm : moduleLookup data = None).
  { unfold moduleLookup.
    destruct (ModuleGuardChecks.getFunctionSelector data) as [sel |] eqn:Hsel;
      [| reflexivity].
    apply moduleGuard_getFunctionSelector_text in Hsel. subst sel.
    destruct (mapGet _ _) as [name |] eqn:Hget; [| reflexivity].
    exfalso. apply Hcase.
    apply (moduleSelectors_lower_case _ name). now left. }
  assert (Hg : guardLookup data = None).
  { unfold guardLookup.
    destruct (ModuleGuardChecks.getFunctionSelector data) as [sel |] eqn:Hsel;
      [| reflexivity].
    apply moduleGuard_getFunctionSelector_text in Hsel. subst sel.
    destruct (mapGet _ _) as [name |] eqn:Hget; [| reflexivity].
    exfalso. apply Hcase.
    apply (moduleSelectors_lower_case _ name). now right. }
  unfold ModuleGuardChecks.checkModuleGuardOperations,
    ModuleGuardChecks.checkTransactionData.
  rewrite (moduleGuard_rec_nested _ _ _ _ Hm Hg).
  rewrite decodeMultiSend_other_selector; [reflexivity |].
  intro Hslice. apply slice_selector_text in Hslice; [| reflexivity].
  apply Hcase. rewrite <- Hslice. reflexivity.
Qed.

Lemma checkModuleGuardOperations_case_sensitive_witness :
  ModuleGuardCheckResult.hasModuleOperation
    (ModuleGuardChecks.checkModuleGuardOperations decodeAddressArgs
       (bytesToHex enableModuleCall)) = true
  /\ ModuleGuardChecks.checkModuleGuardOperations decodeAddressArgs
       enableModuleCallUpper
     = {| ModuleGuardCheckResult.hasModuleOperation := false;
          ModuleGuardCheckResult.hasGuardOperation := false;
          ModuleGuardCheckResult.detections := [];
          ModuleGuardCheckResult.warnings := None;
          ModuleGuardCheckResult.warningLevel := WInfo |}.
Proof.
  split; [vm_compute; reflexivity |].
  apply (checkModuleGuardOperations_case_sensitive decodeAddressArgs
           enableModuleCallUpper).
  vm_compute. discriminate.
Defined.

(* ===================================================================== *)
(** * Properties: address tags (utils/address-tags.ts)                    *)
(* ===================================================================== *)


Lemma JsMap_get_set_same {V} (m : JsMap.t V) key value :
  JsMap.get (JsMap.set m key value) key = Some value.
Proof.
  induction m as [| [k v] m IH]; cbn [JsMap.set JsMap.get].
  - now rewrite String.eqb_refl.
  - destruct (String.eqb k key) eqn:E; cbn [JsMap.get]; rewrite E;
      [reflexivity | exact IH].
Qed.

Lemma JsMap_get_set_other {V} (m : JsMap.t V) key key' value :
  key' <> key ->
  JsMap.get (JsMap.set m key value) key' = JsMap.get m key'.
Proof.
  intro Hne. induction m as [| [k v] m IH]; cbn [JsMap.set JsMap.get].
  - destruct (String.eqb_spec key key'); [congruence | reflexivity].
  - destruct (String.eqb_spec k key) as [-> | Hk]; cbn [JsMap.get].
    + destruct (String.eqb_spec key key'); [congruence | reflexivity].
    + destruct (String.eqb k key'); [reflexivity | exact IH].
Qed.

Lemma JsMap_has_get {V} (m : JsMap.t V) key :
  JsMap.has m key = match JsMap.get m key with
                    | Some _ => true
                    | None => false
                    end.
Proof.
  induction m as [| [k v] m IH]; cbn [JsMap.has JsMap.get]; [reflexivity |].
  destruct (String.eqb k key); [reflexivity | exact IH].
Qed.

Lemma JsMap_has_In {V} (m : JsMap.t V) key :
  JsMap.has m key = true <-> In key (map fst m).
Proof.
  induction m as [| [k v] m IH]; cbn [JsMap.has map fst In].
  - split; [discriminate | contradiction].
  - rewrite orb_true_iff, String.eqb_eq, IH. reflexivity.
Qed.

Lemma JsMap_keys_set {V} (m : JsMap.t V) key value :
  map fst (JsMap.set m key value)
  = if JsMap.has m key then map fst m else map fst m ++ [key].
Proof.
  induction m as [| [k v] m IH]; cbn [JsMap.set JsMap.has map fst app];
    [reflexivity |].
  destruct (String.eqb k key); cbn [orb map fst]; [reflexivity |].
  rewrite IH. destruct (JsMap.has m key); reflexivity.
Qed.

(** X24.  After [registerAddressTag] the tag of the address is the
    registered one, under every spelling of the address that differs by
    the case of its letters only; the tags of the other addresses are
    unchanged; [hasAddressTag] holds exactly of the addresses
    [getAddressTag] finds a tag for. *)
Theorem registerAddressTag_getAddressTag
        (tags : AddressTags) (address : Address) (tag : AddressTag.t) :
  (forall other, toLowerCase other = toLowerCase address ->
                 getAddressTag (registerAddressTag tags address tag) other
                 = Some tag)
  /\ (forall other, toLowerCase other <> toLowerCase address ->
                    getAddressTag (registerAddressTag tags address tag) other
                    = getAddressTag tags other)
  /\ hasAddressTag (registerAddressTag tags address tag) address = true
  /\ (forall other,
         hasAddressTag tags other = true
         <-> exists found, getAddressTag tags other = Some found).
Proof.
  unfold getAddressTag, hasAddressTag, registerAddressTag.
  split; [| split; [| split]].
  - intros other ->. apply JsMap_get_set_same.
  - intros other Hne. now apply JsMap_get_set_other.
  - now rewrite JsMap_has_get, JsMap_get_set_same.
  - intro other. rewrite JsMap_has_get.
    destruct (JsMap.get tags (toLowerCase other)) as [found |].
    + split; eauto.
    + split; [discriminate | intros (found & H); discriminate].
Qed.

Lemma isTrustedForDelegateCall_In address :
  isTrustedForDelegateCall address = true ->
  In (toLowerCase address) (map toLowerCase TRUSTED_DELEGATE_CALL_ADDRESSES).
Proof.
  unfold isTrustedForDelegateCall. rewrite existsb_exists.
  intros (trusted & Hin & E). apply String.eqb_eq in E. rewrite <- E.
  now apply in_map.
Qed.

(** X25.  Every address trusted for delegate calls has a tag in the table
    the module starts with, of category [safe-contract] and labelled
    MultiSendCallOnly, SafeMigration or SignMessageLib. *)
Theorem trusted_addresses_are_tagged (address : Address) :
  isTrustedForDelegateCall address = true ->
  exists tag,
    getAddressTag ADDRESS_TAGS address = Some tag
    /\ AddressTag.category tag = SafeContract
    /\ In (AddressTag.label tag)
          ["MultiSendCallOnly"; "SafeMigration"; "SignMessageLib"].
Proof.
  intro H. apply isTrustedForDelegateCall_In in H.
  unfold getAddressTag.
  assert (Hall : forallb
            (fun key =>
               match JsMap.get ADDRESS_TAGS key with
               | Some tag =>
                   match AddressTag.category tag with
                   | SafeContract => true
                   | _ => false
                   end
                   && existsb (String.eqb (AddressTag.label tag))
                        ["MultiSendCallOnly"; "SafeMigration";
                         "SignMessageLib"]
               | None => false
               end)
            (map toLowerCase TRUSTED_DELEGATE_CALL_ADDRESSES) = true)
    by (vm_compute; reflexivity).
  rewrite forallb_forall in Hall. specialize (Hall _ H).
  destruct (JsMap.get ADDRESS_TAGS (toLowerCase address)) as [tag |];
    [| discriminate].
  exists tag. split; [reflexivity |].
  apply andb_true_iff in Hall. destruct Hall as [Hcat Hlabel].
  split.
  - destruct (AddressTag.category tag); (reflexivity || discriminate).
  - apply existsb_exists in Hlabel. destruct Hlabel as (l & Hin & E).
    apply String.eqb_eq in E. now rewrite E.
Qed.

Lemma trusted_addresses_are_tagged_witness :
  exists tag,
    getAddressTag ADDRESS_TAGS "0x40a2accbd92bca938b02010e17a5b8929b49130d"
    = Some tag
    /\ AddressTag.category tag = SafeContract
    /\ In (AddressTag.label tag)
          ["MultiSendCallOnly"; "SafeMigration"; "SignMessageLib"].
Proof.
  apply (trusted_addresses_are_tagged
           "0x40a2accbd92bca938b02010e17a5b8929b49130d").
  vm_compute. reflexivity.
Defined.

Lemma wellKeyed_set (tags : AddressTags) key tag :
  toLowerCase key = key -> wellKeyed tags ->
  wellKeyed (JsMap.set tags key tag).
Proof.
  intros Hkey [Hnodup Hlower]. unfold wellKeyed.
  rewrite JsMap_keys_set.
  destruct (JsMap.has tags key) eqn:E; [split; assumption |].
  split.
  - apply NoDup_app; [assumption | repeat constructor; intros [] |].
    intros k Hin [<- | []].
    apply JsMap_has_In in Hin. congruence.
  - apply Forall_app. split; [assumption | repeat constructor; assumption].
Qed.

(** X26.  The entries [getAllAddressTags] returns have distinct keys in
    lower case, at the start and after every [registerAddressTag];
    [hasAddressTag] holds exactly of the addresses whose lower-case form
    is a key; registering adds one entry for a new address and none for
    a tagged one, and leaves the entries of the other keys as they
    were. *)
Theorem getAllAddressTags_invariant :
  wellKeyed (getAllAddressTags ADDRESS_TAGS)
  /\ (forall tags address tag,
         wellKeyed (getAllAddressTags tags) ->
         wellKeyed (getAllAddressTags (registerAddressTag tags address tag)))
  /\ (forall tags address,
         hasAddressTag tags address = true
         <-> In (toLowerCase address) (map fst (getAllAddressTags tags)))
  /\ (forall tags address tag,
         length (getAllAddressTags (registerAddressTag tags address tag))
         = if hasAddressTag tags address
           then length (getAllAddressTags tags)
           else S (length (getAllAddressTags tags)))
  /\ (forall tags address tag key found,
         In (key, found)
            (getAllAddressTags (registerAddressTag tags address tag)) ->
         key <> toLowerCase address ->
         In (key, found) (getAllAddressTags tags)).
Proof.
  unfold getAllAddressTags, registerAddressTag, hasAddressTag, JsMap.entries.
  split; [| split; [| split; [| split]]].
  - unfold wellKeyed. split.
    + assert (E : map fst ADDRESS_TAGS
                  = nodup string_dec (map fst ADDRESS_TAGS))
        by (vm_compute; reflexivity).
      rewrite E. apply NoDup_nodup.
    + apply Forall_forall. intros key Hin.
      assert (Hall : forallb (fun key => String.eqb (toLowerCase key) key)
                             (map fst ADDRESS_TAGS) = true)
        by (vm_compute; reflexivity).
      rewrite forallb_forall in Hall. apply String.eqb_eq. now apply Hall.
  - intros tags address tag. apply wellKeyed_set.
    apply toLowerCase_idempotent.
  - intros tags address. apply JsMap_has_In.
  - intros tags address tag.
    rewrite <- !(length_map fst), JsMap_keys_set.
    destruct (JsMap.has tags (toLowerCase address)); [reflexivity |].
    rewrite length_app. cbn [length]. rewrite Nat.add_1_r. reflexivity.
  - intros tags address tag key found Hin Hne.
    induction tags as [| [k v] tags IH]; cbn [JsMap.set] in Hin.
    + destruct Hin as [Hin | []]. congruence.
    + destruct (String.eqb_spec k (toLowerCase address)) as [-> | Hk].
      * destruct Hin as [Hin | Hin]; [congruence | now right].
      * destruct Hin as [Hin | Hin]; [now left | right; auto].
Qed.

(* ===================================================================== *)
(** * Properties: what a verified claim guarantees                        *)
(** * (utils/verify-decoded.ts)                                           *)
(* ===================================================================== *)

Lemma length_substring_0 n s :
  String.length (substring 0 n s) = Nat.min n (String.length s).
Proof.
  revert n. induction s as [| c s IH]; intro n.
  - destruct n; reflexivity.
  - destruct n as [| n]; [reflexivity |].
    cbn [substring String.length Nat.min]. now rewrite IH.
Qed.

(** [rawData === rawData.slice(0, 10)] holds exactly of the texts of at
    most ten characters. *)
Lemma eqb_substring_0 n s :
  String.eqb s (substring 0 n s) = (String.length s <=? n)%nat.
Proof.
  destruct (Nat.leb_spec (String.length s) n) as [Hle | Hgt].
  - rewrite substring_0_whole by assumption. apply String.eqb_refl.
  - apply String.eqb_neq. intro E.
    apply (f_equal String.length) in E.
    rewrite length_substring_0 in E. lia.
Qed.

(** X27.  [verifyDecodedData] answers [verified] only when there are raw
    data and a decoded claim, the raw data are not empty, and the call
    encoded again from the claim equals the raw data up to the case of
    their letters: for a claim without parameters that call is the first
    ten characters of the raw data, which must be all of it; for a claim
    with parameters it is what viem encodes for the method, the declared
    types and the converted values, none of which may have thrown. *)
Theorem verifyDecodedData_sound
        (AbiParameters Json : Type)
        (parseAbiParameters : string -> Exc AbiParameters)
        (BigInt : string -> Exc Z)
        (JSON_parse : string -> Exc Json)
        (isArray : Json -> bool)
        (encodeFunctionData :
           string -> AbiParameters -> list (Arg Json) -> Exc string)
        (rawData : option string) (decoded : option SafeApiDataDecoded.t) :
  DecodeVerificationResult.verified
    (verifyDecodedData parseAbiParameters BigInt JSON_parse isArray
                       encodeFunctionData rawData decoded) = true ->
  exists raw claim reencoded,
    rawData = Some raw /\ decoded = Some claim
    /\ raw <> "" /\ raw <> "0x"
    /\ DecodeVerificationResult.reencoded
         (verifyDecodedData parseAbiParameters BigInt JSON_parse isArray
                            encodeFunctionData rawData decoded)
       = Some reencoded
    /\ toLowerCase reencoded = toLowerCase raw
    /\ match SafeApiDataDecoded.parameters claim with
       | [] => reencoded = raw /\ (String.length raw <= 10)%nat
       | _ :: _ =>
           exists abiParameters args,
             parseAbiParameters
               (join ", "
                  (map (fun p => (SafeApiParameter.type p ++ " "
                                  ++ SafeApiParameter.name p)%string)
                       (SafeApiDataDecoded.parameters claim)))
             = Return abiParameters
             /\ mapM (convertValue BigInt JSON_parse isArray)
                     (SafeApiDataDecoded.parameters claim)
                = Return args
             /\ encodeFunctionData (SafeApiDataDecoded.method claim)
                                   abiParameters args
                = Return reencoded
       end.
Proof.
  unfold verifyDecodedData.
  destruct decoded as [claim |]; [| discriminate].
  destruct rawData as [raw |]; [| discriminate].
  destruct (String.eqb_spec raw "") as [-> | Hne]; [discriminate |].
  destruct (String.eqb_spec raw "0x") as [-> | Hne']; [discriminate |].
  cbn [orb]. unfold verifyBody.
  destruct (SafeApiDataDecoded.parameters claim) as [| p ps] eqn:Eparams.
  - cbn [map tryCatch DecodeVerificationResult.verified
           DecodeVerificationResult.reencoded].
    rewrite eqb_substring_0. intro Hlen. apply Nat.leb_le in Hlen.
    exists raw, claim, (substring 0 10 raw).
    rewrite (substring_0_whole 10 raw Hlen), Eparams. auto 10.
  - rewrite map_map. cbn [fst snd].
    destruct (parseAbiParameters _) as [abiParameters |] eqn:Eabi;
      [| discriminate].
    cbn [bind].
    destruct (mapM _ (p :: ps)) as [args |] eqn:Eargs; [| discriminate].
    cbn [bind].
    destruct (encodeFunctionData _ abiParameters args) as [reencoded |]
      eqn:Eenc; [| discriminate].
    cbn [bind tryCatch DecodeVerificationResult.verified
           DecodeVerificationResult.reencoded].
    intro Hv. apply String.eqb_eq in Hv.
    exists raw, claim, reencoded. rewrite Eparams. eauto 12.
Qed.

Lemma verifyDecodedData_sound_witness :
  exists raw claim reencoded,
    Some transferRaw = Some raw
    /\ Some (transferClaim "1000000000000000000") = Some claim
    /\ raw <> "" /\ raw <> "0x"
    /\ DecodeVerificationResult.reencoded
         (MiniAbi.verifyDecodedData (Some transferRaw)
            (Some (transferClaim "1000000000000000000")))
       = Some reencoded
    /\ toLowerCase reencoded = toLowerCase raw.
Proof.
  destruct (verifyDecodedData_sound
              MiniAbi.AbiParameters MiniAbi.Json MiniAbi.parseAbiParameters
              MiniAbi.BigInt MiniAbi.JSON_parse MiniAbi.isArray
              MiniAbi.encodeFunctionData (Some transferRaw)
              (Some (transferClaim "1000000000000000000")))
    as (raw & claim & reencoded & H1 & H2 & H3 & H4 & H5 & H6 & _).
  - vm_compute. reflexivity.
  - exists raw, claim, reencoded. auto 10.
Defined.

(** X28.  A claim without parameters is verified without looking at its
    method name: the result is the same for every name, and it is
    [verified] exactly when the raw data are a selector of at most ten
    characters, not empty and not ['0x']. *)
Theorem verifyDecodedData_no_parameters
        (AbiParameters Json : Type)
        (parseAbiParameters : string -> Exc AbiParameters)
        (BigInt : string -> Exc Z)
        (JSON_parse : string -> Exc Json)
        (isArray : Json -> bool)
        (encodeFunctionData :
           string -> AbiParameters -> list (Arg Json) -> Exc string)
        (raw method : string) :
  let verify method :=
    verifyDecodedData parseAbiParameters BigInt JSON_parse isArray
      encodeFunctionData (Some raw)
      (Some {| SafeApiDataDecoded.method := method;
               SafeApiDataDecoded.parameters := [] |}) in
  (forall method', verify method' = verify method)
  /\ DecodeVerificationResult.verified (verify method)
     = negb (String.eqb raw "") && negb (String.eqb raw "0x")
       && (String.length raw <=? 10)%nat.
Proof.
  cbv zeta. unfold verifyDecodedData, verifyBody.
  cbn [SafeApiDataDecoded.parameters SafeApiDataDecoded.method map].
  split; [reflexivity |].
  destruct (String.eqb raw ""), (String.eqb raw "0x"); cbn; try reflexivity.
  apply eqb_substring_0.
Qed.

(* ===================================================================== *)
(** * Properties: decoder registry (decoders/registry.ts,                 *)
(** * decoders/lockstake-engine.ts)                                       *)
(* ===================================================================== *)


(** A key with a network is longer than the key without. *)
Lemma specific_key_not_generic name address :
  (name ++ ":" ++ address)%string <> address.
Proof.
  intro E. apply (f_equal String.length) in E.
  rewrite !length_append in E. cbn [String.length] in E. lia.
Qed.

Lemma append_cancel_r (a b s : string) :
  (a ++ s = b ++ s)%string -> a = b.
Proof.
  revert b. induction a as [| x a IH]; intros [| y b] E.
  - reflexivity.
  - apply (f_equal String.length) in E.
    cbn [append String.length] in E. rewrite length_append in E. lia.
  - apply (f_equal String.length) in E.
    cbn [append String.length] in E. rewrite length_append in E. lia.
  - cbn [append] in E. injection E as -> E. f_equal. now apply IH.
Qed.

Lemma makeKey_given address name :
  DecoderRegistry.given (Some name) = true ->
  DecoderRegistry.makeKey address (Some name)
  = (name ++ ":" ++ toLowerCase address)%string.
Proof. intro H. unfold DecoderRegistry.makeKey. now rewrite H. Qed.

Lemma makeKey_generic address network :
  DecoderRegistry.given network = false ->
  DecoderRegistry.makeKey address network = toLowerCase address.
Proof. intro H. unfold DecoderRegistry.makeKey. now rewrite H. Qed.

(** X29.  After [register] the registry has a decoder for the address of
    the decoder on its network, under every spelling of the address that
    differs by the case of its letters only.  A decoder with a network is
    found under that network and changes no lookup without a network or
    under another network; a decoder without a network is found without
    a network, and under every network that has no decoder of its own for
    the address. *)
Theorem register_getDecoder
        (Decoded : Type) (decoders : DecoderRegistry.t Decoded)
        (decoder : CustomDecoder.t Decoded) (address : Address) :
  toLowerCase address = toLowerCase (CustomDecoder.contractAddress decoder) ->
  let registered := DecoderRegistry.register Decoded decoders decoder in
  let getDecoder := DecoderRegistry.getDecoder Decoded in
  DecoderRegistry.hasDecoder Decoded registered address
    (CustomDecoder.network decoder) = true
  /\ (forall name,
         CustomDecoder.network decoder = Some name -> name <> "" ->
         getDecoder registered address (Some name) = Some decoder
         /\ getDecoder registered address None
            = getDecoder decoders address None
         /\ (forall other,
                other <> name ->
                getDecoder registered address (Some other)
                = getDecoder decoders address (Some other)))
  /\ (DecoderRegistry.given (CustomDecoder.network decoder) = false ->
      getDecoder registered address None = Some decoder
      /\ (forall name,
             JsMap.get decoders
               (DecoderRegistry.makeKey address (Some name)) = None ->
             getDecoder registered address (Some name) = Some decoder)).
Proof.
  intro Haddr. cbv zeta.
  assert (Hgeneric : DecoderRegistry.given (CustomDecoder.network decoder)
                     = false ->
                     forall network,
                       DecoderRegistry.getDecoder Decoded
                         (DecoderRegistry.register Decoded decoders decoder)
                         address network
                       = match (if DecoderRegistry.given network
                                then JsMap.get decoders
                                       (DecoderRegistry.makeKey address
                                                                network)
                                else None) with
                         | Some specific => Some specific
                         | None => Some decoder
                         end).
  { intros Hgiven network.
    unfold DecoderRegistry.getDecoder, DecoderRegistry.register.
    rewrite (makeKey_generic _ _ Hgiven), <- Haddr.
    rewrite (makeKey_generic address None eq_refl), JsMap_get_set_same.
    destruct (DecoderRegistry.given network) eqn:Enetwork; [| reflexivity].
    destruct network as [other |]; [| discriminate].
    rewrite (makeKey_given _ _ Enetwork).
    rewrite JsMap_get_set_other by apply specific_key_not_generic.
    reflexivity. }
  assert (Hspecific : forall name,
             CustomDecoder.network decoder = Some name -> name <> "" ->
             DecoderRegistry.given (Some name) = true
             /\ DecoderRegistry.register Decoded decoders decoder
                = JsMap.set decoders (name ++ ":" ++ toLowerCase address)%string
                            decoder).
  { intros name Enet Hname.
    assert (Hgiven : DecoderRegistry.given (Some name) = true).
    { cbn. apply negb_true_iff. now apply String.eqb_neq. }
    split; [assumption |].
    unfold DecoderRegistry.register.
    now rewrite Enet, (makeKey_given _ _ Hgiven), Haddr. }
  split; [| split].
  - unfold DecoderRegistry.hasDecoder.
    destruct (DecoderRegistry.given (CustomDecoder.network decoder)) eqn:Eg.
    + destruct (CustomDecoder.network decoder) as [name |] eqn:Enet;
        [| discriminate].
      assert (Hname : name <> "").
      { intros ->. discriminate. }
      destruct (Hspecific name eq_refl Hname) as [Hgiven ->].
      unfold DecoderRegistry.getDecoder.
      rewrite Hgiven, (makeKey_given _ _ Hgiven), JsMap_get_set_same.
      reflexivity.
    + rewrite (Hgeneric eq_refl), Eg. reflexivity.
  - intros name Enet Hname.
    destruct (Hspecific name Enet Hname) as [Hgiven ->].
    unfold DecoderRegistry.getDecoder.
    split; [| split].
    + rewrite Hgiven, (makeKey_given _ _ Hgiven), JsMap_get_set_same.
      reflexivity.
    + cbn [DecoderRegistry.given].
      rewrite (makeKey_generic address None eq_refl).
      apply JsMap_get_set_other. intro E. symmetry in E.
      exact (specific_key_not_generic _ _ E).
    + intros other Hother.
      rewrite (makeKey_generic address None eq_refl).
      rewrite (JsMap_get_set_other decoders _ (toLowerCase address))
        by (intro E; symmetry in E; exact (specific_key_not_generic _ _ E)).
      destruct (DecoderRegistry.given (Some other)) eqn:Eother;
        [| reflexivity].
      rewrite (makeKey_given _ _ Eother).
      rewrite JsMap_get_set_other; [reflexivity |].
      intro E. apply Hother.
      apply (append_cancel_r other name (":" ++ toLowerCase address)).
      exact E.
  - intro Hgiven. split.
    + now rewrite (Hgeneric Hgiven).
    + intros name Hnone. rewrite (Hgeneric Hgiven), Hnone.
      destruct (DecoderRegistry.given (Some name)); reflexivity.
Qed.

Lemma register_getDecoder_witness :
  DecoderRegistry.hasDecoder unit
    (DecoderRegistry.register unit (DecoderRegistry.empty unit)
       (LockstakeEngineDecoder (fun _ => Return tt)))
    "0xce01c90de7fd1bcfa39e237fe6d8d9f569e8a6a3" (Some "ethereum") = true.
Proof.
  refine (proj1 (register_getDecoder unit (DecoderRegistry.empty unit)
                   (LockstakeEngineDecoder (fun _ => Return tt))
                   "0xce01c90de7fd1bcfa39e237fe6d8d9f569e8a6a3" _)).
  vm_compute. reflexivity.
Defined.

(** The key under which the Lockstake decoder is registered is met by one
    network and one address only. *)
Lemma lockstake_key name address :
  (name ++ ":" ++ address)%string
  = "ethereum:0xce01c90de7fd1bcfa39e237fe6d8d9f569e8a6a3" ->
  name = "ethereum" /\ address = "0xce01c90de7fd1bcfa39e237fe6d8d9f569e8a6a3".
Proof.
  intro E.
  do 8 (destruct name as [| ? name]; cbn [append] in E;
        [discriminate | injection E as -> E]).
  destruct name as [| ? name]; cbn [append] in E.
  - injection E as ->. split; reflexivity.
  - injection E as -> E. exfalso.
    match type of E with
    | ?l = _ => assert (Hc : noChar ":" l = true) by (rewrite E; reflexivity)
    end.
    rewrite noChar_app in Hc. cbn in Hc. rewrite andb_false_r in Hc.
    discriminate.
Qed.

(** X30.  [decode] of a registry that holds the Lockstake decoder only:
    the decoder is used exactly when the target is its address (up to the
    case of the letters), the network is [ethereum] and the data are
    longer than ten characters; then the result is what the decoder
    returns, and [undefined] when it throws; in every other case the
    result is [undefined]. *)
Theorem decode_LockstakeEngine
        (Decoded : Type) (decodeBody : string -> Exc Decoded)
        (to : Address) (data : string) (network : option string) :
  let decoders :=
    DecoderRegistry.register Decoded (DecoderRegistry.empty Decoded)
                             (LockstakeEngineDecoder decodeBody) in
  DecoderRegistry.decode Decoded decoders to data network
  = if String.eqb (toLowerCase to)
                  "0xce01c90de7fd1bcfa39e237fe6d8d9f569e8a6a3"
       && match network with
          | Some name => String.eqb name "ethereum"
          | None => false
          end
       && (10 <? String.length data)%nat
    then match decodeBody data with
         | Return decoded => Some decoded
         | Throw _ => None
         end
    else None.
Proof.
  cbv zeta.
  assert (Hregistered :
            DecoderRegistry.register Decoded (DecoderRegistry.empty Decoded)
                                     (LockstakeEngineDecoder decodeBody)
            = [("ethereum:0xce01c90de7fd1bcfa39e237fe6d8d9f569e8a6a3",
                LockstakeEngineDecoder decodeBody)]) by reflexivity.
  rewrite Hregistered. clear Hregistered.
  assert (HcanDecode :
            CustomDecoder.canDecode (LockstakeEngineDecoder decodeBody) to data
            = String.eqb (toLowerCase to)
                         "0xce01c90de7fd1bcfa39e237fe6d8d9f569e8a6a3"
              && (10 <? String.length data)%nat) by reflexivity.
  unfold DecoderRegistry.decode.
  destruct (String.eqb_spec (toLowerCase to)
              "0xce01c90de7fd1bcfa39e237fe6d8d9f569e8a6a3") as [Eto | Hto].
  - unfold DecoderRegistry.getDecoder.
    rewrite (makeKey_generic to None eq_refl), Eto.
    change (JsMap.get
              [("ethereum:0xce01c90de7fd1bcfa39e237fe6d8d9f569e8a6a3",
                LockstakeEngineDecoder decodeBody)]
              "0xce01c90de7fd1bcfa39e237fe6d8d9f569e8a6a3")
      with (@None (CustomDecoder.t Decoded)).
    destruct (DecoderRegistry.given network) eqn:Egiven.
    + destruct network as [name |]; [| discriminate].
      rewrite (makeKey_given _ _ Egiven), Eto. cbn [JsMap.get].
      destruct (String.eqb_spec
                  "ethereum:0xce01c90de7fd1bcfa39e237fe6d8d9f569e8a6a3"
                  (name ++ ":" ++ "0xce01c90de7fd1bcfa39e237fe6d8d9f569e8a6a3"))
        as [E | Hne].
      * assert (Hname : name = "ethereum").
        { apply (append_cancel_r name "ethereum"
                   ":0xce01c90de7fd1bcfa39e237fe6d8d9f569e8a6a3").
          symmetry. exact E. }
        subst name. rewrite HcanDecode.
        cbn [String.eqb Ascii.eqb Bool.eqb andb].
        destruct (10 <? String.length data)%nat; cbn [negb]; [| reflexivity].
        cbn [LockstakeEngineDecoder CustomDecoder.decode].
        destruct (decodeBody data); reflexivity.
      * destruct (String.eqb_spec name "ethereum") as [-> | _];
          [| reflexivity].
        exfalso. apply Hne. reflexivity.
    + destruct network as [name |]; [| reflexivity].
      cbn in Egiven. apply negb_false_iff, String.eqb_eq in Egiven.
      subst name. reflexivity.
  - cbn [andb].
    destruct (DecoderRegistry.getDecoder Decoded _ to network)
      as [found |] eqn:Efound; [| reflexivity].
    assert (Hfound : found = LockstakeEngineDecoder decodeBody).
    { unfold DecoderRegistry.getDecoder in Efound.
      cbn [JsMap.get] in Efound.
      repeat match type of Efound with
             | context [if ?c then _ else _] => destruct c
             end; congruence. }
    subst found. rewrite HcanDecode. reflexivity.
Qed.
